(** * Identity and session lifecycle of the MCP demo server

    A shallow embedding of [server/storage.py], [server/auth/session.py] and
    [server/auth/oauth.py], and the properties of the session, exchange-code,
    token-refresh and PKCE code stated against it.

    Conventions.
    - A [datetime] is a [Z]: microseconds since the epoch (the resolution of
      Python's [datetime]).  [isoformat]/[fromisoformat] round-trip exactly, so
      a TIMESTAMP column holds the same [Z].
    - Every reading of a clock, every random draw and every reply of the
      network is an explicit argument of the function that performs it, in the
      order the source performs them.
    - A Python call either returns or raises: [result]. *)

From Stdlib Require Import ZArith NArith List Ascii String Lia.
From Stdlib.Strings Require Import Byte.
From stdpp Require Import base option gmap strings list fin_maps.

Local Open Scope string_scope.
Local Open Scope Z_scope.

(* ===================================================================== *)
(** * Python outcomes *)
(* ===================================================================== *)

(** [jwt.exceptions]: every class below derives from [InvalidTokenError]
    ([ExpiredSignatureError] included). *)
Inductive jwt_error : Type :=
  | DecodeError
  | InvalidAlgorithmError
  | InvalidSignatureError
  | ImmatureSignatureError
  | ExpiredSignatureError.

(** [httpx.HTTPError] has two families: [TransportError] (the request did not
    complete) and [HTTPStatusError] (raised by [raise_for_status]). *)
Inductive http_error : Type :=
  | TransportError
  | HTTPStatusError (status : Z).

(** The exception classes the modelled code can meet. *)
Inductive exn : Type :=
  | ValueError (msg : string)
  | KeyError (key : string)
  | JSONDecodeError
  | IntegrityError
  | InvalidTokenError (kind : jwt_error)
  | HTTPError (kind : http_error).

(** [except jwt.ExpiredSignatureError], [except jwt.InvalidTokenError] and
    [except httpx.HTTPError] as predicates on the raised exception. *)
Definition is_ExpiredSignatureError (e : exn) : bool :=
  match e with
  | InvalidTokenError ExpiredSignatureError => true
  | _ => false
  end.

Definition is_InvalidTokenError (e : exn) : bool :=
  match e with
  | InvalidTokenError _ => true
  | _ => false
  end.

Definition is_HTTPError (e : exn) : bool :=
  match e with
  | HTTPError _ => true
  | _ => false
  end.

Inductive result (A : Type) : Type :=
  | Ret (a : A)
  | Raise (e : exn).
Arguments Ret {A} a.
Arguments Raise {A} e.

(** A computation over a state [S]: it returns or raises, and in both cases
    leaves a state behind (what was written before an exception stays
    written).  With stdpp's [x ← c; k] notation. *)
Definition M (S A : Type) : Type := S → result A * S.

#[global] Instance M_ret {S} : MRet (M S) := fun A a s => (Ret a, s).
#[global] Instance M_bind {S} : MBind (M S) := fun A B k m s =>
  match m s with
  | (Ret a, s') => k a s'
  | (Raise e, s') => (Raise e, s')
  end.

Definition raise {S A} (e : exn) : M S A := fun s => (Raise e, s).
Definition gets {S A} (f : S → A) : M S A := fun s => (Ret (f s), s).
Definition modify {S} (f : S → S) : M S unit := fun s => (Ret tt, f s).

(** [try: body  except <class>: handler], for the classes [catches]. *)
Definition try_except {S A} (body : M S A) (catches : exn → bool)
    (handler : M S A) : M S A := fun s =>
  match body s with
  | (Raise e, s') => if catches e then handler s' else (Raise e, s')
  | r => r
  end.

(** Python truthiness of a [str]. *)
Definition truthy (s : string) : bool := negb (String.eqb s "").

(** One second, one minute and one hour of [timedelta], in microseconds. *)
Definition seconds (n : Z) : Z := n * 1000000.
Definition minutes (n : Z) : Z := seconds (n * 60).
Definition hours (n : Z) : Z := seconds (n * 3600).

(* ===================================================================== *)
(** * Base64 (the [base64] module) and [str.rstrip] *)
(* ===================================================================== *)

Module Base64.

(** The URL-safe alphabet of RFC 4648, section 5. *)
Definition urlsafe_alphabet : list byte :=
  list_byte_of_string
    "ABCDEFGHIJKLMNOPQRSTUVWXYZabcdefghijklmnopqrstuvwxyz0123456789-_".

(** ['='] *)
Definition pad : byte := x3d.

Definition b64_char (n : N) : byte := nth (N.to_nat n) urlsafe_alphabet pad.

(** [base64.urlsafe_b64encode]: three input bytes give four characters; a
    tail of one or two bytes is completed with ['=']. *)
Fixpoint urlsafe_b64encode (bs : list byte) : list byte :=
  match bs with
  | [] => []
  | [a] =>
      let x := Byte.to_N a in
      [ b64_char (N.shiftr x 2);
        b64_char (N.shiftl (N.land x 3) 4);
        pad; pad ]
  | [a; b] =>
      let x := Byte.to_N a in
      let y := Byte.to_N b in
      [ b64_char (N.shiftr x 2);
        b64_char (N.lor (N.shiftl (N.land x 3) 4) (N.shiftr y 4));
        b64_char (N.shiftl (N.land y 15) 2);
        pad ]
  | a :: b :: c :: rest =>
      let x := Byte.to_N a in
      let y := Byte.to_N b in
      let z := Byte.to_N c in
      b64_char (N.shiftr x 2)
      :: b64_char (N.lor (N.shiftl (N.land x 3) 4) (N.shiftr y 4))
      :: b64_char (N.lor (N.shiftl (N.land y 15) 2) (N.shiftr z 6))
      :: b64_char (N.land z 63)
      :: urlsafe_b64encode rest
  end.

(** [bytes.decode('utf-8')] on ASCII bytes and [str.encode('utf-8')] on an
    ASCII string: one character per byte. *)
Definition decode_utf8 (bs : list byte) : string := string_of_list_byte bs.
Definition encode_utf8 (s : string) : list byte := list_byte_of_string s.

(** [s.rstrip(c)] for a one-character argument. *)
Fixpoint rstrip (c : ascii) (s : string) : string :=
  match s with
  | EmptyString => EmptyString
  | String a s' =>
      match rstrip c s' with
      | EmptyString => if Ascii.eqb a c then EmptyString else String a EmptyString
      | r => String a r
      end
  end.

(** ** The encoding in the words of the specification

    [base64url_nopad]: the input read as a stream of bits, most significant
    first, cut into groups of six (the last one completed with zero bits),
    each group written with the URL-safe alphabet, and no padding character. *)

Definition bits_of_byte (b : byte) : list bool :=
  map (N.testbit (Byte.to_N b)) [7; 6; 5; 4; 3; 2; 1; 0]%N.

Definition bitstream (bs : list byte) : list bool :=
  flat_map bits_of_byte bs.

Definition bits_value (bits : list bool) : N :=
  fold_left (fun acc (b : bool) => (2 * acc + (if b then 1 else 0))%N) bits 0%N.

Fixpoint sextets (bits : list bool) : list N :=
  match bits with
  | [] => []
  | b5 :: b4 :: b3 :: b2 :: b1 :: b0 :: rest =>
      bits_value [b5; b4; b3; b2; b1; b0] :: sextets rest
  | tail => [bits_value (take 6 (tail ++ [false; false; false; false; false]))]
  end.

Definition base64url_nopad (bs : list byte) : string :=
  string_of_list_byte (map b64_char (sextets (bitstream bs))).

(** How many ['='] complete the encoding of [n] bytes. *)
Definition pad_count (n : nat) : nat :=
  match (n `mod` 3)%nat with
  | 1%nat => 2%nat
  | 2%nat => 1%nat
  | _ => 0%nat
  end.

End Base64.

(* ===================================================================== *)
(** * SHA-256 (the [hashlib] module) *)
(* ===================================================================== *)

(** FIPS 180-4, section 6.2, on 32-bit words held in [N]. *)
Module Hashlib.

Local Open Scope N_scope.

(** 32-bit words are [N] below [2^32]. *)
Definition mask32 : N := 0xffffffff.
Definition add32 (x y : N) : N := N.land (x + y) mask32.
Definition rotr (n x : N) : N :=
  N.lor (N.shiftr x n) (N.land (N.shiftl x (32 - n)) mask32).
Definition not32 (x : N) : N := N.lxor x mask32.

Definition Ch (x y z : N) : N := N.lxor (N.land x y) (N.land (not32 x) z).
Definition Maj (x y z : N) : N :=
  N.lxor (N.lxor (N.land x y) (N.land x z)) (N.land y z).
Definition Sigma0 (x : N) : N := N.lxor (N.lxor (rotr 2 x) (rotr 13 x)) (rotr 22 x).
Definition Sigma1 (x : N) : N := N.lxor (N.lxor (rotr 6 x) (rotr 11 x)) (rotr 25 x).
Definition sigma0 (x : N) : N := N.lxor (N.lxor (rotr 7 x) (rotr 18 x)) (N.shiftr x 3).
Definition sigma1 (x : N) : N := N.lxor (N.lxor (rotr 17 x) (rotr 19 x)) (N.shiftr x 10).

(** The constants are defined the way the standard derives them: from the
    first sixty-four primes, the first 32 bits of the fractional part of
    their cube roots ([K]) and, for the first eight, of their square roots
    ([H0]). *)
Definition is_prime (p : N) : bool :=
  forallb (fun d => negb (p mod d =? 0)) (N.of_nat <$> seq 2 (N.to_nat p - 2)).

Definition primes : list N := List.filter is_prime (N.of_nat <$> seq 2 310).

(** The integer cube root, bit by bit from bit [k - 1] down. *)
Fixpoint cube_root_bits (k : nat) (n r : N) : N :=
  match k with
  | O => r
  | S k' =>
      let c := r + 2 ^ N.of_nat k' in
      cube_root_bits k' n (if c * c * c <=? n then c else r)
  end.

Definition frac32 (root : N) : N := N.land root mask32.

Definition K : list N :=
  (fun p => frac32 (cube_root_bits 36 (p * 2 ^ 96) 0)) <$> primes.

Definition H0 : list N :=
  (fun p => frac32 (N.sqrt (p * 2 ^ 64))) <$> take 8 primes.

(** Big-endian bytes of a number, [n] of them. *)
Fixpoint be_bytes (n : nat) (x : N) : list N :=
  match n with
  | O => []
  | S n' => N.land (N.shiftr x (8 * N.of_nat n')) 0xff :: be_bytes n' x
  end.

(** The message, a one bit, zeros up to 56 modulo 64, and the bit length. *)
Definition padded (msg : list N) : list N :=
  let len := N.of_nat (length msg) in
  let zeros := N.to_nat ((64 - (len + 9) mod 64) mod 64) in
  msg ++ [0x80] ++ replicate zeros 0 ++ be_bytes 8 (8 * len).

Fixpoint be_words (bytes : list N) : list N :=
  match bytes with
  | a :: b :: c :: d :: rest =>
      N.lor (N.lor (N.lor (N.shiftl a 24) (N.shiftl b 16)) (N.shiftl c 8)) d
      :: be_words rest
  | _ => []
  end.

(** The message schedule: sixteen words of the block, grown to sixty-four. *)
Fixpoint schedule (n : nat) (w : list N) : list N :=
  match n with
  | O => w
  | S n' =>
      let t := length w in
      let at_ (k : nat) := nth (t - k) w 0 in
      schedule n'
        (w ++ [add32 (add32 (sigma1 (at_ 2%nat)) (at_ 7%nat))
                 (add32 (sigma0 (at_ 15%nat)) (at_ 16%nat))])
  end.

Definition round (s : list N) (kw : N * N) : list N :=
  match s with
  | [a; b; c; d; e; f; g; h] =>
      let t1 := add32 (add32 (add32 h (Sigma1 e)) (add32 (Ch e f g) kw.1)) kw.2 in
      let t2 := add32 (Sigma0 a) (Maj a b c) in
      [add32 t1 t2; a; b; c; add32 d t1; e; f; g]
  | _ => s
  end.

Definition compress (h : list N) (block : list N) : list N :=
  let w := schedule 48 block in
  zip_with add32 h (fold_left round (zip K w) h).

Fixpoint blocks (n : nat) (words : list N) (h : list N) : list N :=
  match n with
  | O => h
  | S n' => blocks n' (drop 16 words) (compress h (take 16 words))
  end.

(** [hashlib.sha256(data).digest()]. *)
Definition sha256 (data : list byte) : list byte :=
  let words := be_words (padded (to_N <$> data)) in
  let h := blocks (length words / 16) words H0 in
  (fun x => default x00 (of_N x)) <$> (h ≫= be_bytes 4).

End Hashlib.

(* ===================================================================== *)
(** * Signed credentials (the [jwt] module) *)
(* ===================================================================== *)

Module Jwt.

(** The payload [create_session] hands to [jwt.encode]: [iat] and [exp] are
    [datetime] values. *)
Record payload : Type := mk_payload {
  p_jti : string;
  p_sub : string;
  p_email : string;
  p_iat : Z;
  p_exp : Z
}.

(** The claim set a decoded credential carries: any claim may be missing, and
    [iat]/[exp] are whole seconds since the epoch. *)
Record claims : Type := mk_claims {
  jti : option string;
  sub : option string;
  email : option string;
  iat : option Z;
  exp : option Z
}.

(** A compact credential, symbolically: either a string that does not parse,
    or a header algorithm, a claim set and a signature that verifies under
    exactly the key it was made with. *)
Inductive token : Type :=
  | Malformed (raw : string)
  | Compact (alg : string) (signing_key : string) (body : claims).

(** [calendar.timegm(dt.utctimetuple())]: whole seconds, microseconds
    dropped. *)
Definition timegm (dt : Z) : Z := dt / 1000000.

(** [jwt.encode(payload, key, algorithm=...)]: [datetime] claims become
    integers. *)
Definition encode (p : payload) (key algorithm : string) : token :=
  Compact algorithm key
    {| jti := Some (p_jti p); sub := Some (p_sub p); email := Some (p_email p);
       iat := Some (timegm (p_iat p)); exp := Some (timegm (p_exp p)) |}.

(** Claim validation of [jwt.decode] with default options and no leeway:
    [iat] in the future is immature, [exp <= now] is expired.  [now] is the
    clock [decode] reads, in microseconds. *)
Definition validate_claims (c : claims) (now : Z) : result claims :=
  if match iat c with Some t => bool_decide (now < seconds t) | None => false end
  then Raise (InvalidTokenError ImmatureSignatureError)
  else if match exp c with Some t => bool_decide (seconds t ≤ now) | None => false end
  then Raise (InvalidTokenError ExpiredSignatureError)
  else Ret c.

(** The first half of [jwt.decode]: parse the compact form, check that the
    header algorithm is an allowed one, verify the signature. *)
Definition decode_signed (tok : token) (key : string) (algorithms : list string)
    : result claims :=
  match tok with
  | Malformed _ => Raise (InvalidTokenError DecodeError)
  | Compact alg k body =>
      if negb (bool_decide (alg ∈ algorithms))
      then Raise (InvalidTokenError InvalidAlgorithmError)
      else if negb (String.eqb k key)
      then Raise (InvalidTokenError InvalidSignatureError)
      else Ret body
  end.

(** [jwt.decode(token, key, algorithms=[...])]: the signature, then the
    claims; [now] is the clock it reads. *)
Definition decode (tok : token) (key : string) (algorithms : list string)
    (now : Z) : result claims :=
  match decode_signed tok key algorithms with
  | Ret body => validate_claims body now
  | Raise e => Raise e
  end.

End Jwt.

(* ===================================================================== *)
(** * server/storage.py *)
(* ===================================================================== *)

Module Storage.

(** A row of [sessions], keyed by [jti]. *)
Record SessionRecord : Type := mk_session {
  s_user_sub : string;
  s_user_email : string;
  s_expires_at : Z;
  s_created_at : Z;
  s_revoked : bool
}.

(** A row of [user_tokens], keyed by [user_sub]. *)
Record UserTokenRecord : Type := mk_user_tokens {
  t_user_email : string;
  t_access_token : string;
  t_refresh_token : string;
  t_token_expires_at : Z;
  t_updated_at : Z
}.

(** A row of [exchange_codes], keyed by [code]. *)
Record ExchangeCodeRecord : Type := mk_exchange_code {
  x_user_sub : string;
  x_expires_at : Z;
  x_used : bool;
  x_created_at : Z
}.

(** The database file: three tables with a TEXT primary key. *)
Record db : Type := mk_db {
  sessions : gmap string SessionRecord;
  user_tokens : gmap string UserTokenRecord;
  exchange_codes : gmap string ExchangeCodeRecord
}.

Definition set_sessions (f : gmap string SessionRecord → gmap string SessionRecord)
    (d : db) : db :=
  {| sessions := f (sessions d); user_tokens := user_tokens d;
     exchange_codes := exchange_codes d |}.

Definition set_user_tokens
    (f : gmap string UserTokenRecord → gmap string UserTokenRecord) (d : db) : db :=
  {| sessions := sessions d; user_tokens := f (user_tokens d);
     exchange_codes := exchange_codes d |}.

Definition set_exchange_codes
    (f : gmap string ExchangeCodeRecord → gmap string ExchangeCodeRecord)
    (d : db) : db :=
  {| sessions := sessions d; user_tokens := user_tokens d;
     exchange_codes := f (exchange_codes d) |}.

Definition mark_revoked (r : SessionRecord) : SessionRecord :=
  {| s_user_sub := s_user_sub r; s_user_email := s_user_email r;
     s_expires_at := s_expires_at r; s_created_at := s_created_at r;
     s_revoked := true |}.

Definition mark_used (r : ExchangeCodeRecord) : ExchangeCodeRecord :=
  {| x_user_sub := x_user_sub r; x_expires_at := x_expires_at r;
     x_used := true; x_created_at := x_created_at r |}.

(** [INSERT OR REPLACE INTO sessions (jti, user_sub, user_email, expires_at)]:
    [created_at] and [revoked] take their defaults, [db_now] being the
    database's CURRENT_TIMESTAMP. *)
Definition _save_session_sync (jti user_sub user_email : string)
    (expires_at db_now : Z) : M db unit :=
  modify (set_sessions
    (insert jti (mk_session user_sub user_email expires_at db_now false))).

(** [SELECT * FROM sessions WHERE jti = ? AND revoked = 0]. *)
Definition _get_session_sync (jti : string) : M db (option SessionRecord) :=
  gets (fun d =>
    match sessions d !! jti with
    | Some row => if s_revoked row then None else Some row
    | None => None
    end).

(** [UPDATE sessions SET revoked = 1 WHERE jti = ?]. *)
Definition _revoke_session_sync (jti : string) : M db unit :=
  modify (set_sessions (alter mark_revoked jti)).

(** [INSERT OR REPLACE INTO user_tokens ...]. *)
Definition _save_user_tokens_sync (user_sub user_email access_token
    refresh_token : string) (expires_at db_now : Z) : M db unit :=
  modify (set_user_tokens
    (insert user_sub
       (mk_user_tokens user_email access_token refresh_token expires_at db_now))).

(** [SELECT * FROM user_tokens WHERE user_sub = ?]. *)
Definition _get_user_tokens_sync (user_sub : string)
    : M db (option UserTokenRecord) :=
  gets (fun d => user_tokens d !! user_sub).

(** [INSERT INTO exchange_codes (code, user_sub, expires_at)]: a plain
    INSERT, which the primary key refuses for a code already present. *)
Definition _save_exchange_code_sync (code user_sub : string)
    (expires_at db_now : Z) : M db unit :=
  row ← gets (fun d => exchange_codes d !! code);
  match row with
  | Some _ => raise IntegrityError
  | None =>
      modify (set_exchange_codes
        (insert code (mk_exchange_code user_sub expires_at false db_now)))
  end.

(** [_use_exchange_code_sync]; [now] is its [datetime.utcnow()]. *)
Definition _use_exchange_code_sync (code : string) (now : Z)
    : M db (option string) :=
  (* Check if code exists and is valid *)
  row ← gets (fun d => exchange_codes d !! code);
  match row with
  | None => mret None
  | Some row =>
      (* Check if already used *)
      if x_used row then mret None
      (* Check if expired *)
      else if bool_decide (now > x_expires_at row) then mret None
      else
        (* Mark as used *)
        modify (set_exchange_codes (alter mark_used code));;
        mret (Some (x_user_sub row))
  end.

(** The [async] methods hand their [_sync] counterpart to a worker thread and
    await it. *)
Definition save_session := _save_session_sync.
Definition get_session := _get_session_sync.
Definition revoke_session := _revoke_session_sync.
Definition save_user_tokens := _save_user_tokens_sync.
Definition get_user_tokens := _get_user_tokens_sync.
Definition save_exchange_code := _save_exchange_code_sync.
Definition use_exchange_code := _use_exchange_code_sync.

(** The writing methods of [Storage], as data: whatever the managers do to
    the database, they do through a sequence of these. *)
Inductive call : Type :=
  | SaveSession (jti user_sub user_email : string) (expires_at db_now : Z)
  | RevokeSession (jti : string)
  | SaveUserTokens (user_sub user_email access_token refresh_token : string)
      (expires_at db_now : Z)
  | SaveExchangeCode (code user_sub : string) (expires_at db_now : Z)
  | UseExchangeCode (code : string) (now : Z).

Definition perform (c : call) (d : db) : db :=
  match c with
  | SaveSession jti user_sub user_email expires_at db_now =>
      (save_session jti user_sub user_email expires_at db_now d).2
  | RevokeSession jti => (revoke_session jti d).2
  | SaveUserTokens user_sub user_email access_token refresh_token expires_at db_now =>
      (save_user_tokens user_sub user_email access_token refresh_token
         expires_at db_now d).2
  | SaveExchangeCode code user_sub expires_at db_now =>
      (save_exchange_code code user_sub expires_at db_now d).2
  | UseExchangeCode code now => (use_exchange_code code now d).2
  end.

Definition perform_all (cs : list call) (d : db) : db :=
  fold_left (fun d c => perform c d) cs d.

(** The [jti]s a call writes a fresh session row for. *)
Definition saves_session (jti : string) (c : call) : bool :=
  match c with
  | SaveSession jti' _ _ _ _ => String.eqb jti' jti
  | _ => false
  end.

(** A call that, if it redeems [code] at all, does so after [expires_at]. *)
Definition after_expiry (code : string) (expires_at : Z) (c : call) : Prop :=
  match c with
  | UseExchangeCode code' now => code' = code → now > expires_at
  | _ => True
  end.

End Storage.

(* ===================================================================== *)
(** * Worker threads inside [_use_exchange_code_sync] *)
(* ===================================================================== *)

(** [use_exchange_code] runs [_use_exchange_code_sync] on a worker thread
    ([asyncio.to_thread]), with a connection of its own and no explicit
    transaction: the SELECT and the UPDATE-and-commit are two statements, each
    of them atomic for the database, and statements of other threads may run
    in between. *)
Module Workers.
Import Storage.

(** Where a thread stands. *)
Inductive worker : Type :=
  | Called (code : string)
  | Fetched (code : string) (row : option (string * Z * bool))
  | Returned (value : option string).

(** The next statement of a thread; [now] is the clock it would read. *)
Definition step (now : Z) (wk : worker) (d : db) : worker * db :=
  match wk with
  | Called code =>
      (* SELECT user_sub, expires_at, used ... ; fetchone() *)
      (Fetched code
         ((fun r => (x_user_sub r, x_expires_at r, x_used r))
            <$> exchange_codes d !! code), d)
  | Fetched code None => (Returned None, d)
  | Fetched code (Some (user_sub, expires_at, used)) =>
      if used then (Returned None, d)
      else if bool_decide (now > expires_at) then (Returned None, d)
      else
        (* UPDATE exchange_codes SET used = 1 WHERE code = ? ; commit() *)
        (Returned (Some user_sub),
         set_exchange_codes (alter mark_used code) d)
  | Returned value => (Returned value, d)
  end.

(** A schedule names, statement by statement, the thread that runs and the
    time at which it does. *)
Fixpoint run (schedule : list (nat * Z)) (pool : list worker) (d : db)
    : list worker * db :=
  match schedule with
  | [] => (pool, d)
  | (i, now) :: rest =>
      match pool !! i with
      | Some wk =>
          let '(wk', d') := step now wk d in
          run rest (<[i := wk']> pool) d'
      | None => run rest pool d
      end
  end.

End Workers.

(* ===================================================================== *)
(** * server/auth/session.py *)
(* ===================================================================== *)

Module SessionManager.
Import Storage.

(** The attributes [__init__] copies from the settings. *)
Record t : Type := mk {
  algorithm : string;
  secret_key : string;
  duration_hours : Z
}.

Definition lift_result {S A} (r : result A) : M S A := fun s => (r, s).

(** [create_session]; [jti] is the draw of [secrets.token_urlsafe(32)],
    [now] the reading of [datetime.utcnow()]. *)
Definition create_session (self : t) (user_sub user_email : string)
    (jti : string) (now db_now : Z) : M db Jwt.token :=
  let expires_at := now + hours (duration_hours self) in
  (* Save session to database *)
  save_session jti user_sub user_email expires_at db_now;;
  (* Create JWT *)
  let payload :=
    {| Jwt.p_jti := jti; Jwt.p_sub := user_sub; Jwt.p_email := user_email;
       Jwt.p_iat := now; Jwt.p_exp := expires_at |} in
  mret (Jwt.encode payload (secret_key self) (algorithm self)).

(** [verify_session]; [jwt_now] is the clock [jwt.decode] reads, [now] the
    later [datetime.utcnow()] of the database check. *)
Definition verify_session (self : t) (token : Jwt.token) (jwt_now now : Z)
    : M db (option Jwt.claims) :=
  try_except
    ((* Decode JWT *)
     payload ← lift_result
       (Jwt.decode token (secret_key self) [algorithm self] jwt_now);
     (* Check if session exists and is not revoked *)
     match Jwt.jti payload with
     | None => mret None
     | Some jti =>
         if negb (truthy jti) then mret None
         else
           session ← get_session jti;
           match session with
           | None => mret None
           | Some session =>
               (* Check expiration from database *)
               if bool_decide (now > s_expires_at session) then mret None
               else mret (Some payload)
           end
     end)
    (fun e => is_ExpiredSignatureError e || is_InvalidTokenError e)
    (mret None).

(** [revoke_session]; [jwt_now] is the clock [jwt.decode] reads. *)
Definition revoke_session (self : t) (token : Jwt.token) (jwt_now : Z)
    : M db bool :=
  try_except
    (payload ← lift_result
       (Jwt.decode token (secret_key self) [algorithm self] jwt_now);
     match Jwt.jti payload with
     | Some jti =>
         if truthy jti then Storage.revoke_session jti;; mret true
         else mret false
     | None => mret false
     end)
    is_InvalidTokenError
    (mret false).

(** [create_exchange_code]; [code] is the draw of
    [secrets.token_urlsafe(32)]. *)
Definition create_exchange_code (self : t) (user_sub : string)
    (code : string) (now db_now : Z) : M db string :=
  let expires_at := now + minutes 5 in
  save_exchange_code code user_sub expires_at db_now;;
  mret code.

(** [exchange_code_for_session]; [use_now] is the clock read by the storage
    layer, [jti], [now] and [db_now] are what [create_session] draws and
    reads. *)
Definition exchange_code_for_session (self : t) (code : string) (use_now : Z)
    (jti : string) (now db_now : Z) : M db (option Jwt.token) :=
  user_sub ← use_exchange_code code use_now;
  match user_sub with
  | None => mret None
  | Some user_sub =>
      if negb (truthy user_sub) then mret None
      else
        (* Get user email from stored tokens *)
        user_tokens ← get_user_tokens user_sub;
        let user_email :=
          match user_tokens with
          | Some row => t_user_email row
          | None => ""
          end in
        (* Create new session *)
        token ← create_session self user_sub user_email jti now db_now;
        mret (Some token)
  end.

End SessionManager.

(* ===================================================================== *)
(** * server/auth/oauth.py *)
(* ===================================================================== *)

Module OAuthManager.
Import Storage Base64.

(** The attributes [__init__] sets, the mutable [_pkce_store] apart. *)
Record t : Type := mk {
  client_id : string;
  client_secret : string;
  redirect_uri : string;
  scopes : list string;
  auth_endpoint : string;
  token_endpoint : string;
  userinfo_endpoint : string
}.

(** An entry of [_pkce_store]. *)
Record PkceData : Type := mk_pkce {
  code_verifier : string;
  code_challenge : string
}.

(** What goes out through [httpx]. *)
Inductive request : Type :=
  | Post (url : string) (data : list (string * string))
  | Get (url : string) (headers : list (string * string)).

(** What comes back: no response at all (the call raises a transport
    error), or a status code and a body, [None] when the body is not JSON. *)
Inductive reply (J : Type) : Type :=
  | NoResponse
  | Response (status_code : Z) (body : option J).
Arguments NoResponse {J}.
Arguments Response {J} status_code body.

(** The JSON of the token endpoint. *)
Record token_json : Type := mk_token_json {
  access_token : option string;
  refresh_token : option string;
  expires_in : option Z
}.

(** The JSON of the userinfo endpoint. *)
Record userinfo_json : Type := mk_userinfo_json {
  ui_sub : option string;
  ui_email : option string;
  ui_name : option string
}.

(** The dictionary [exchange_code] returns. *)
Record exchange_result : Type := mk_exchange_result {
  user_sub : string;
  user_email : string;
  user_name : string;
  tokens : token_json
}.

(** What the manager acts on: its own [_pkce_store], the global [storage],
    and the requests sent so far, oldest first. *)
Record world : Type := mk_world {
  pkce_store : gmap string PkceData;
  storage : db;
  sent : list request
}.

Definition set_pkce_store (f : gmap string PkceData → gmap string PkceData)
    (w : world) : world :=
  {| pkce_store := f (pkce_store w); storage := storage w; sent := sent w |}.

Definition with_storage {A} (m : M db A) : M world A := fun w =>
  let '(r, d) := m (storage w) in
  (r, {| pkce_store := pkce_store w; storage := d; sent := sent w |}).

(** [await client.post(...)] / [await client.get(...)]: the request leaves,
    and either a response comes back or the call raises. *)
Definition send {J} (req : request) (rep : reply J) : M world (Z * option J) :=
  fun w =>
    let w' := {| pkce_store := pkce_store w; storage := storage w;
                 sent := sent w ++ [req] |} in
    match rep with
    | NoResponse => (Raise (HTTPError TransportError), w')
    | Response status body => (Ret (status, body), w')
    end.

(** A 2xx status ([response.is_success]). *)
Definition is_success (status_code : Z) : Prop :=
  200 ≤ status_code ∧ status_code ≤ 299.

#[global] Instance is_success_dec (status_code : Z) : Decision (is_success status_code).
Proof. unfold is_success. apply _. Defined.

(** [response.raise_for_status()]: anything but a 2xx status raises. *)
Definition raise_for_status {S J} (response : Z * option J) : M S unit :=
  if bool_decide (is_success response.1) then mret tt
  else raise (HTTPError (HTTPStatusError response.1)).

(** [response.json()]. *)
Definition json {S J} (response : Z * option J) : M S J :=
  match response.2 with
  | Some j => mret j
  | None => raise JSONDecodeError
  end.

(** [d[key]] on a decoded JSON object. *)
Definition getitem {S A} (key : string) (field : option A) : M S A :=
  match field with
  | Some v => mret v
  | None => raise (KeyError key)
  end.

(** [generate_pkce]; [random_bytes] is the draw of
    [secrets.token_bytes(32)]. *)
Definition generate_pkce (random_bytes : list byte) : string * string :=
  (* Generate code verifier (43-128 characters) *)
  let code_verifier :=
    rstrip "=" (decode_utf8 (urlsafe_b64encode random_bytes)) in
  (* Generate code challenge (SHA256 hash of verifier) *)
  let challenge_bytes := Hashlib.sha256 (encode_utf8 code_verifier) in
  let code_challenge :=
    rstrip "=" (decode_utf8 (urlsafe_b64encode challenge_bytes)) in
  (code_verifier, code_challenge).

Section AuthorizationUrl.
(** [urllib.parse.urlencode]. *)
Variable urlencode : list (string * string) → string.

(** [get_authorization_url]; [state] is the draw of
    [secrets.token_urlsafe(32)]. *)
Definition get_authorization_url (self : t) (state : string)
    (random_bytes : list byte) : M world (string * string) :=
  let '(code_verifier, code_challenge) := generate_pkce random_bytes in
  (* Store PKCE values for later verification *)
  modify (set_pkce_store
    (insert state (mk_pkce code_verifier code_challenge)));;
  let params :=
    [ ("client_id", client_id self);
      ("redirect_uri", redirect_uri self);
      ("response_type", "code");
      ("scope", String.concat " " (scopes self));
      ("state", state);
      ("code_challenge", code_challenge);
      ("code_challenge_method", "S256");
      ("access_type", "offline");
      ("prompt", "consent") ] in
  let url := auth_endpoint self +:+ "?" +:+ urlencode params in
  mret (url, state).
End AuthorizationUrl.

(** [_get_userinfo]. *)
Definition _get_userinfo (self : t) (access_token : string)
    (rep : reply userinfo_json) : M world userinfo_json :=
  response ← send
    (Get (userinfo_endpoint self)
         [("Authorization", "Bearer " +:+ access_token)]) rep;
  raise_for_status response;;
  json response.

(** [exchange_code]; [token_reply] and [userinfo_reply] are what the two
    endpoints answer, [now] is the reading of [datetime.utcnow()]. *)
Definition exchange_code (self : t) (code state : string)
    (token_reply : reply token_json) (userinfo_reply : reply userinfo_json)
    (now db_now : Z) : M world exchange_result :=
  (* Get PKCE verifier *)
  pkce_data ← gets (fun w => pkce_store w !! state);
  match pkce_data with
  | None => raise (ValueError "Invalid state or PKCE data not found")
  | Some pkce_data =>
      let code_verifier := code_verifier pkce_data in
      (* Clean up PKCE store *)
      modify (set_pkce_store (delete state));;
      (* Exchange code for tokens *)
      let data :=
        [ ("client_id", client_id self);
          ("client_secret", client_secret self);
          ("code", code);
          ("code_verifier", code_verifier);
          ("grant_type", "authorization_code");
          ("redirect_uri", redirect_uri self) ] in
      response ← send (Post (token_endpoint self) data) token_reply;
      raise_for_status response;;
      tokens ← json response;
      (* Get user info *)
      access_token ← getitem "access_token" (access_token tokens);
      userinfo ← _get_userinfo self access_token userinfo_reply;
      (* Save tokens to storage *)
      let expires_in := default 3600 (expires_in tokens) in
      let expires_at := now + seconds expires_in in
      sub ← getitem "sub" (ui_sub userinfo);
      with_storage
        (save_user_tokens sub (default "" (ui_email userinfo)) access_token
           (default "" (refresh_token tokens)) expires_at db_now);;
      mret {| user_sub := sub;
              user_email := default "" (ui_email userinfo);
              user_name := default "" (ui_name userinfo);
              tokens := tokens |}
  end.

(** [refresh_access_token]; [token_reply] is what the token endpoint answers
    if it is asked. *)
Definition refresh_access_token (self : t) (user_sub : string)
    (token_reply : reply token_json) (now db_now : Z)
    : M world (option string) :=
  user_tokens ← with_storage (get_user_tokens user_sub);
  match user_tokens with
  | None => mret None
  | Some user_tokens =>
      if negb (truthy (t_refresh_token user_tokens)) then mret None
      else
        let data :=
          [ ("client_id", client_id self);
            ("client_secret", client_secret self);
            ("refresh_token", t_refresh_token user_tokens);
            ("grant_type", "refresh_token") ] in
        try_except
          (response ← send (Post (token_endpoint self) data) token_reply;
           raise_for_status response;;
           tokens ← json response;
           (* Update stored tokens *)
           access_token ← getitem "access_token" (access_token tokens);
           let expires_in := default 3600 (expires_in tokens) in
           let expires_at := now + seconds expires_in in
           with_storage
             (save_user_tokens user_sub (t_user_email user_tokens)
                access_token (t_refresh_token user_tokens) expires_at db_now);;
           mret (Some access_token))
          is_HTTPError
          (mret None)
  end.

(** [get_valid_access_token]; [now] is its own [datetime.utcnow()], the
    other three arguments are what a refresh would receive and read. *)
Definition get_valid_access_token (self : t) (user_sub : string) (now : Z)
    (token_reply : reply token_json) (refresh_now db_now : Z)
    : M world (option string) :=
  user_tokens ← with_storage (get_user_tokens user_sub);
  match user_tokens with
  | None => mret None
  | Some user_tokens =>
      (* Check if token is expired *)
      let expires_at := t_token_expires_at user_tokens in
      if bool_decide (now >= expires_at - minutes 5)
      then
        (* Token expired or about to expire, refresh it *)
        refresh_access_token self user_sub token_reply refresh_now db_now
      else mret (Some (t_access_token user_tokens))
  end.

(** The two requests to the token endpoint, by name. *)
Definition authorization_code_request (self : t) (code code_verifier : string)
    : request :=
  Post (token_endpoint self)
    [ ("client_id", client_id self);
      ("client_secret", client_secret self);
      ("code", code);
      ("code_verifier", code_verifier);
      ("grant_type", "authorization_code");
      ("redirect_uri", redirect_uri self) ].

Definition refresh_token_request (self : t) (refresh_token : string) : request :=
  Post (token_endpoint self)
    [ ("client_id", client_id self);
      ("client_secret", client_secret self);
      ("refresh_token", refresh_token);
      ("grant_type", "refresh_token") ].

(** The failures [httpx] reports as [HTTPError]: no response, or a response
    whose status is not 2xx. *)
Definition http_failure {J} (rep : reply J) : Prop :=
  match rep with
  | NoResponse => True
  | Response status_code _ => ¬ is_success status_code
  end.

End OAuthManager.

(* ===================================================================== *)
(** * Sample data *)
(* ===================================================================== *)

(** Concrete managers, rows and databases on which the properties below are
    exercised.  Times are small numbers of microseconds for readability. *)
Module Sample.
Import Storage.

Definition sessions_mgr : SessionManager.t :=
  SessionManager.mk "HS256" "signing-key" 24.

Definition oauth_mgr : OAuthManager.t :=
  OAuthManager.mk "client-id" "client-secret" "http://localhost:8000/callback"
    ["openid"; "profile"; "email"]
    "https://accounts.google.com/o/oauth2/v2/auth"
    "https://oauth2.googleapis.com/token"
    "https://www.googleapis.com/oauth2/v3/userinfo".

Definition empty_db : db := mk_db ∅ ∅ ∅.

(** An unused code of user ["u1"] that expires at time 100. *)
Definition code_row : ExchangeCodeRecord := mk_exchange_code "u1" 100 false 0.
Definition code_db : db := mk_db ∅ ∅ {[ "c1" := code_row ]}.

(** A user whose access token expires at second 1000. *)
Definition token_row : UserTokenRecord :=
  mk_user_tokens "e@x.com" "at-1" "rt-1" (seconds 1000) 0.
Definition token_db : db := mk_db ∅ {[ "u1" := token_row ]} ∅.

(** A credential signed with the manager's key whose [exp] is second 10,
    and a session row for its [jti] that expires at microsecond 100. *)
Definition live_body : Jwt.claims :=
  Jwt.mk_claims (Some "j1") (Some "u1") (Some "e@x.com") (Some 0) (Some 10).
Definition live_token : Jwt.token :=
  Jwt.Compact "HS256" "signing-key" live_body.
Definition short_session_db : db :=
  mk_db {[ "j1" := mk_session "u1" "e@x.com" 100 0 false ]} ∅ ∅.

(** The credential [create_session] issues at time 0 for ["u1"], with the
    draw ["j1"], and the database it leaves. *)
Definition issued_token : Jwt.token :=
  Jwt.encode (Jwt.mk_payload "j1" "u1" "e@x.com" 0 (hours 24))
    "signing-key" "HS256".
Definition issued_db : db :=
  mk_db {[ "j1" := mk_session "u1" "e@x.com" (hours 24) 0 false ]} ∅ ∅.

(** The 32 octets of RFC 7636, appendix B. *)
Definition rfc7636_bytes : list byte :=
  (fun n => default x00 (of_N n))
  <$> [ 116; 24; 223; 180; 151; 153; 224; 37; 79; 250; 96; 125; 216; 173; 187;
        186; 22; 212; 37; 77; 105; 214; 191; 240; 91; 88; 5; 88; 83; 132; 141;
        121 ]%N.

Definition world_of (d : db) : OAuthManager.world :=
  OAuthManager.mk_world ∅ d [].

End Sample.

(* ===================================================================== *)
(** * Endpoints and tools: what they can raise *)
(* ===================================================================== *)

(** Above the managers, code also raises [fastapi.HTTPException] and meets
    Python's own [AttributeError], [IndexError] and [TypeError]; whatever a
    manager raises passes through as it is. *)
Inductive error : Type :=
  | HTTPException (status_code : Z) (detail : string)
  | AttributeError
  | IndexError
  | TypeError
  | Uncaught (e : exn).

Inductive outcome (A : Type) : Type :=
  | Return (a : A)
  | Throw (e : error).
Arguments Return {A} a.
Arguments Throw {A} e.

(** Computations of the endpoints and tools: as [M], with the wider set of
    exceptions. *)
Definition E (S A : Type) : Type := S → outcome A * S.

#[global] Instance E_ret {S} : MRet (E S) := fun A a s => (Return a, s).
#[global] Instance E_bind {S} : MBind (E S) := fun A B k m s =>
  match m s with
  | (Return a, s') => k a s'
  | (Throw e, s') => (Throw e, s')
  end.

Definition throw {S A} (e : error) : E S A := fun s => (Throw e, s).

(** A manager's computation, run from an endpoint or a tool. *)
Definition lift {S A} (m : M S A) : E S A := fun s =>
  match m s with
  | (Ret a, s') => (Return a, s')
  | (Raise e, s') => (Throw (Uncaught e), s')
  end.

(** [try: body  except httpx.HTTPError as e: handler e]. *)
Definition except_HTTPError {S A} (body : E S A) (handler : http_error → E S A)
    : E S A := fun s =>
  match body s with
  | (Throw (Uncaught (HTTPError e)), s') => handler e s'
  | r => r
  end.

(** [try: body  except Exception as e: handler e], for a body that raises
    what the managers raise. *)
Definition except_Exception {S A} (body : M S A) (handler : exn → M S A)
    : M S A := fun s =>
  match body s with
  | (Raise e, s') => handler e s'
  | r => r
  end.

(** Python truthiness of an [Optional[str]]. *)
Definition truthy_opt (o : option string) : bool :=
  match o with
  | Some s => truthy s
  | None => false
  end.

(** [a or b] on two [Optional[str]]. *)
Definition py_or (a b : option string) : option string :=
  if truthy_opt a then a else b.

(** [l[:k]]: the first [k] elements, or for a negative [k] all but the last
    [-k]. *)
Definition slice_to {A} (k : Z) (l : list A) : list A :=
  if bool_decide (0 ≤ k) then take (Z.to_nat k) l
  else take (length l - Z.to_nat (- k)) l.

(** [s.replace(old, new)]: every occurrence of [old], left to right and
    without overlap; for an empty [old], [new] goes before every character
    and at the end. *)
Fixpoint replace_from (skip : nat) (old new s : string) : string :=
  match s with
  | EmptyString => EmptyString
  | String c s' =>
      match skip with
      | S skip' => replace_from skip' old new s'
      | O =>
          if String.prefix old s
          then new +:+ replace_from (String.length old - 1) old new s'
          else String c (replace_from 0 old new s')
      end
  end.

Fixpoint replace_empty (new s : string) : string :=
  match s with
  | EmptyString => new
  | String c s' => new +:+ String c (replace_empty new s')
  end.

Definition replace (s old new : string) : string :=
  if String.eqb old "" then replace_empty new s else replace_from 0 old new s.

(* ===================================================================== *)
(** * server/config.py and the module-level instances *)
(* ===================================================================== *)

Module Config.

(** The fields of [Settings], whatever the environment gave them. *)
Record Settings : Type := mk_settings {
  BASE_URL : string;
  PORT : Z;
  GOOGLE_CLIENT_ID : string;
  GOOGLE_CLIENT_SECRET : string;
  GOOGLE_REDIRECT_URI : string;
  OPENWEATHER_API_KEY : string;
  JWT_SIGNING_KEY : string;
  JWT_ALGORITHM : string;
  SESSION_DURATION_HOURS : Z;
  DATABASE_URL : option string;
  REDIS_URL : option string;
  GOOGLE_SCOPES : list string
}.

(** [session_manager = SessionManager()]. *)
Definition session_manager (settings : Settings) : SessionManager.t :=
  {| SessionManager.algorithm := JWT_ALGORITHM settings;
     SessionManager.secret_key := JWT_SIGNING_KEY settings;
     SessionManager.duration_hours := SESSION_DURATION_HOURS settings |}.

(** [oauth_manager = OAuthManager()]. *)
Definition oauth_manager (settings : Settings) : OAuthManager.t :=
  {| OAuthManager.client_id := GOOGLE_CLIENT_ID settings;
     OAuthManager.client_secret := GOOGLE_CLIENT_SECRET settings;
     OAuthManager.redirect_uri := GOOGLE_REDIRECT_URI settings;
     OAuthManager.scopes := GOOGLE_SCOPES settings;
     OAuthManager.auth_endpoint := "https://accounts.google.com/o/oauth2/v2/auth";
     OAuthManager.token_endpoint := "https://oauth2.googleapis.com/token";
     OAuthManager.userinfo_endpoint :=
       "https://www.googleapis.com/oauth2/v3/userinfo" |}.

End Config.

(* ===================================================================== *)
(** * server/main.py: the authentication endpoints and [verify_auth] *)
(* ===================================================================== *)

Module Main.
Import Storage Config.

(** The JSON the endpoints build. *)
#[warnings="-register-all"]
Inductive json : Type :=
  | JStr (s : string)
  | JObj (fields : list (string * json)).

(** What an endpoint answers: a rendered template with its context (the
    request object apart), or a JSON response. *)
Inductive response : Type :=
  | TemplateResponse (name : string) (context : list (string * option string))
  | JSONResponse (content : json) (headers : list (string * string))
      (status_code : Z).

(** What [auth_callback] draws and reads on its way, in order. *)
Record callback_inputs : Type := mk_callback_inputs {
  token_reply : OAuthManager.reply OAuthManager.token_json;
  userinfo_reply : OAuthManager.reply OAuthManager.userinfo_json;
  tokens_now : Z;
  tokens_db_now : Z;
  session_jti : string;
  session_now : Z;
  session_db_now : Z;
  exchange_code_draw : string;
  exchange_code_now : Z;
  exchange_code_db_now : Z
}.

(** [if not payload], for the claim set [verify_session] returned: [None]
    and the empty dictionary are false. *)
Definition payload_truthy (payload : option Jwt.claims) : bool :=
  match payload with
  | Some c =>
      bool_decide (is_Some (Jwt.jti c)) || bool_decide (is_Some (Jwt.sub c))
      || bool_decide (is_Some (Jwt.email c)) || bool_decide (is_Some (Jwt.iat c))
      || bool_decide (is_Some (Jwt.exp c))
  | None => false
  end.

Section Endpoints.
(** The compact serialization of credentials, both ways; [json.dumps]; and
    [str(e)] of an exception. *)
Variable str_of_token : Jwt.token → string.
Variable token_of_str : string → Jwt.token.
Variable json_dumps : json → Z → string.
Variable str_of_exn : exn → string.

Variable settings : Settings.

(** The configuration shown to the user; [setup_with_code] adds the
    transport. *)
Definition mcp_config (transport : list (string * json))
    (session_token : Jwt.token) : json :=
  JObj
    [ ("mcpServers",
       JObj
         [ ("enterprise-calendar-weather",
            JObj
              ([("url", JStr (BASE_URL settings +:+ "/mcp"))]
               ++ transport
               ++ [("headers",
                    JObj [("Authorization",
                           JStr ("Bearer " +:+ str_of_token session_token))])]))
         ])
    ].

(** [auth_start]; [state] and [random_bytes] are the draws of
    [get_authorization_url]. *)
Definition auth_start (urlencode : list (string * string) → string)
    (state : string) (random_bytes : list byte) : E OAuthManager.world response :=
  if negb (truthy (GOOGLE_CLIENT_ID settings))
     || negb (truthy (GOOGLE_CLIENT_SECRET settings))
  then
    throw (HTTPException 500
      "OAuth not configured. Please set GOOGLE_CLIENT_ID and GOOGLE_CLIENT_SECRET.")
  else
    '(auth_url, state) ← lift
      (OAuthManager.get_authorization_url urlencode (oauth_manager settings)
         state random_bytes);
    (* Redirect to Google OAuth *)
    mret (JSONResponse
            (JObj [ ("auth_url", JStr auth_url);
                    ("message",
                     JStr "Redirect user to auth_url to begin OAuth flow") ])
            [("Location", auth_url)] 307).

(** [auth_callback]. *)
Definition auth_callback (code state error : option string)
    (inputs : callback_inputs) : M OAuthManager.world response :=
  (* Handle OAuth errors *)
  if truthy_opt error then
    mret (TemplateResponse "error.html"
            [ ("title", Some "Authentication Failed");
              ("message",
               Some "You denied the authentication request or an error occurred.");
              ("details", error) ])
  else
    match code, state with
    | Some code, Some state =>
        if negb (truthy code) || negb (truthy state) then
          mret (TemplateResponse "error.html"
                  [ ("title", Some "Invalid Request");
                    ("message",
                     Some "Missing authorization code or state parameter.");
                    ("details", None) ])
        else
          except_Exception
            ((* Exchange code for tokens *)
             result ← OAuthManager.exchange_code (oauth_manager settings)
               code state (token_reply inputs) (userinfo_reply inputs)
               (tokens_now inputs) (tokens_db_now inputs);
             (* Create session *)
             session_token ← OAuthManager.with_storage
               (SessionManager.create_session (session_manager settings)
                  (OAuthManager.user_sub result) (OAuthManager.user_email result)
                  (session_jti inputs) (session_now inputs)
                  (session_db_now inputs));
             (* Create exchange code (v2 feature) *)
             exchange_code ← OAuthManager.with_storage
               (SessionManager.create_exchange_code (session_manager settings)
                  (OAuthManager.user_sub result) (exchange_code_draw inputs)
                  (exchange_code_now inputs) (exchange_code_db_now inputs));
             (* Generate Cursor MCP config *)
             let config_json := json_dumps (mcp_config [] session_token) 2 in
             mret (TemplateResponse "success.html"
                     [ ("user_email", Some (OAuthManager.user_email result));
                       ("config_json", Some config_json);
                       ("exchange_code", Some exchange_code) ]))
            (fun e =>
               mret (TemplateResponse "error.html"
                       [ ("title", Some "Authentication Error");
                         ("message", Some "Failed to complete authentication.");
                         ("details", Some (str_of_exn e)) ]))
    | _, _ =>
        mret (TemplateResponse "error.html"
                [ ("title", Some "Invalid Request");
                  ("message",
                   Some "Missing authorization code or state parameter.");
                  ("details", None) ])
    end.

(** [setup_with_code]; [use_now], [jti], [now] and [db_now] are what
    [exchange_code_for_session] reads and draws, [jwt_now] and [verify_now]
    the two clocks of [verify_session]. *)
Definition setup_with_code (code : option string) (use_now : Z) (jti : string)
    (now db_now jwt_now verify_now : Z) : E OAuthManager.world response :=
  match code with
  | None => throw (HTTPException 400 "Missing exchange code")
  | Some code =>
      if negb (truthy code) then throw (HTTPException 400 "Missing exchange code")
      else
        session_token ← lift (OAuthManager.with_storage
          (SessionManager.exchange_code_for_session (session_manager settings)
             code use_now jti now db_now));
        match session_token with
        | None =>
            mret (TemplateResponse "error.html"
                    [ ("title", Some "Invalid Code");
                      ("message",
                       Some "The exchange code is invalid, expired, or already used.");
                      ("details", None) ])
        | Some session_token =>
            (* Get user info from session *)
            payload ← lift (OAuthManager.with_storage
              (SessionManager.verify_session (session_manager settings)
                 session_token jwt_now verify_now));
            let config_json :=
              json_dumps (mcp_config [("transport", JStr "sse")] session_token) 2 in
            match payload with
            | None => throw AttributeError
            | Some payload =>
                mret (TemplateResponse "success.html"
                        [ ("user_email",
                           Some (default "Unknown" (Jwt.email payload)));
                          ("config_json", Some config_json);
                          ("exchange_code", None) ])
            end
        end
  end.

(** [verify_auth]; the two clocks are those of [verify_session]. *)
Definition verify_auth (authorization : option string) (jwt_now now : Z)
    : E OAuthManager.world Jwt.claims :=
  match authorization with
  | None => throw (HTTPException 401 "Missing Authorization header")
  | Some authorization =>
      if negb (truthy authorization)
      then throw (HTTPException 401 "Missing Authorization header")
      else if negb (String.prefix "Bearer " authorization)
      then throw (HTTPException 401 "Invalid authorization format")
      else
        let token := replace authorization "Bearer " "" in
        payload ← lift (OAuthManager.with_storage
          (SessionManager.verify_session (session_manager settings)
             (token_of_str token) jwt_now now));
        if negb (payload_truthy payload)
        then throw (HTTPException 401 "Invalid or expired session token")
        else
          match payload with
          | Some payload => mret payload
          | None => throw (HTTPException 401 "Invalid or expired session token")
          end
  end.

End Endpoints.

End Main.

(* ===================================================================== *)
(** * server/tools/weather.py and server/tools/calendar.py *)
(* ===================================================================== *)

Module Tools.
Import OAuthManager.

(** A query parameter: a string or an integer. *)
Inductive param : Type :=
  | PStr (s : string)
  | PInt (n : Z).

(** The JSON body [create_event] posts. *)
Record event_time : Type := mk_event_time {
  et_dateTime : string;
  et_timeZone : string
}.

Record event_data : Type := mk_event_data {
  ed_summary : string;
  ed_start : event_time;
  ed_end : event_time;
  ed_description : option string;
  ed_location : option string
}.

(** What the tools send. *)
Inductive api_request : Type :=
  | ApiGet (url : string) (params : list (string * param))
      (headers : list (string * string))
  | ApiPost (url : string) (body : event_data) (headers : list (string * string)).

(** What the tools act on: the world of the authorization manager, and the
    requests the tools themselves have sent, oldest first. *)
Record tool_world : Type := mk_tool_world {
  oauth : world;
  calls : list api_request
}.

Definition on_oauth {A} (m : M world A) : E tool_world A := fun tw =>
  match m (oauth tw) with
  | (Ret a, w) => (Return a, {| oauth := w; calls := calls tw |})
  | (Raise e, w) => (Throw (Uncaught e), {| oauth := w; calls := calls tw |})
  end.

(** [await client.get(...)] / [await client.post(...)] of a tool. *)
Definition api_send {J} (req : api_request) (rep : reply J)
    : E tool_world (Z * option J) := fun tw =>
  let tw' := {| oauth := oauth tw; calls := calls tw ++ [req] |} in
  match rep with
  | NoResponse => (Throw (Uncaught (HTTPError TransportError)), tw')
  | Response status body => (Return (status, body), tw')
  end.

(** A tool's answer: the dictionary with the single key ["error"], or the
    dictionary of results. *)
Inductive tool_result (R : Type) : Type :=
  | ToolError (message : string)
  | ToolOk (result : R).
Arguments ToolError {R} message.
Arguments ToolOk {R} result.

Section Numbers.
(** JSON numbers (temperatures, speeds, percentages) are only passed on. *)
Variable number : Type.

(** ** Decoded JSON, as [response.json()] returns it *)

(** [None], a [bool], a number, a [str], a [list], or a [dict] given by its
    items. *)
#[warnings="-register-all"]
Inductive value : Type :=
  | VNone
  | VBool (b : bool)
  | VNumber (n : number)
  | VStr (s : string)
  | VList (items : list value)
  | VDict (items : list (string * value)).

(** The value a [dict] holds under [key], if it holds one; a key has one
    item, and the first found is taken. *)
Fixpoint dict_lookup (items : list (string * value)) (key : string)
    : option value :=
  match items with
  | [] => None
  | (k, v) :: rest => if String.eqb k key then Some v else dict_lookup rest key
  end.

(** [v.get(key, default)]: of all values only a [dict] has the method. *)
Definition dict_get {S} (v : value) (key : string) (default : value)
    : E S value :=
  match v with
  | VDict items => mret (from_option id default (dict_lookup items key))
  | _ => throw AttributeError
  end.

(** [v[0]]: the first element of a [list], the first character of a [str],
    the value under the key [0] of a [dict], which a decoded JSON object,
    whose keys are strings, never has; nothing else can be subscripted. *)
Definition item0 {S} (v : value) : E S value :=
  match v with
  | VList [] => throw IndexError
  | VList (first :: _) => mret first
  | VStr EmptyString => throw IndexError
  | VStr (String c _) => mret (VStr (String c EmptyString))
  | VDict _ => throw (Uncaught (KeyError "0"))
  | VNone | VBool _ | VNumber _ => throw TypeError
  end.

(** Whether a [dict] lacks [key] or holds a [dict] under it. *)
Definition missing_or_dict (items : list (string * value)) (key : string)
    : bool :=
  match dict_lookup items key with
  | None | Some (VDict _) => true
  | Some _ => false
  end.

(** The answers [get_current_weather] reads to the end: a [dict] in which
    ["sys"], ["main"] and ["wind"] are missing or a [dict], and ["weather"]
    is missing or a [list] that begins with a [dict]. *)
Definition readable (data : value) : bool :=
  match data with
  | VDict items =>
      missing_or_dict items "sys" && missing_or_dict items "main"
      && match dict_lookup items "weather" with
         | None | Some (VList (VDict _ :: _)) => true
         | Some _ => false
         end
      && missing_or_dict items "wind"
  | _ => false
  end.

(** The dictionary [get_current_weather] returns. *)
Record current_weather : Type := mk_current_weather {
  cw_city : value;
  cw_country : value;
  cw_temperature : value;
  cw_feels_like : value;
  cw_humidity : value;
  cw_description : value;
  cw_wind_speed : value;
  cw_units : string
}.

(** ** The JSON of the forecast: every field present or absent *)

Record main_json : Type := mk_main_json {
  temp : option number;
  feels_like : option number;
  humidity : option number
}.

Record weather_json : Type := mk_weather_json {
  w_description : option string
}.

Record wind_json : Type := mk_wind_json {
  speed : option number
}.

Record forecast_item_json : Type := mk_forecast_item_json {
  fi_dt_txt : option string;
  fi_main : option main_json;
  fi_weather : option (list weather_json);
  fi_wind : option wind_json
}.

Record city_json : Type := mk_city_json {
  city_name : option string;
  city_country : option string
}.

Record forecast_json : Type := mk_forecast_json {
  fc_list : option (list forecast_item_json);
  fc_city : option city_json
}.

(** ** The dictionaries [get_forecast] returns *)

Record forecast : Type := mk_forecast {
  f_datetime : option string;
  f_temperature : option number;
  f_feels_like : option number;
  f_description : option string;
  f_humidity : option number;
  f_wind_speed : option number
}.

Record forecast_result : Type := mk_forecast_result {
  fr_city : option string;
  fr_country : option string;
  fr_forecast_count : nat;
  fr_forecasts : list forecast;
  fr_units : string
}.

(** [WeatherTools]. *)
Record WeatherTools : Type := mk_weather_tools {
  api_key : string;
  weather_base_url : string
}.

(** [weather_tools = WeatherTools()]. *)
Definition weather_tools (settings : Config.Settings) : WeatherTools :=
  {| api_key := Config.OPENWEATHER_API_KEY settings;
     weather_base_url := "https://api.openweathermap.org/data/2.5" |}.

Section Weather.
(** [str(e)] of an [httpx.HTTPError]. *)
Variable str_of_http_error : http_error → string.

(** [d.get("weather", [{}])[0].get("description")]. *)
Definition first_description {S} (weather : option (list weather_json))
    : E S (option string) :=
  match weather with
  | None => mret None
  | Some [] => throw IndexError
  | Some (first :: _) => mret (w_description first)
  end.

(** [get_current_weather]; the entries of the dictionary it returns are
    evaluated in the order they are written. *)
Definition get_current_weather (self : WeatherTools) (city units : string)
    (rep : reply value) : E tool_world (tool_result current_weather) :=
  if negb (truthy (api_key self))
  then mret (ToolError "OpenWeatherMap API key not configured")
  else
    let url := weather_base_url self +:+ "/weather" in
    let params :=
      [ ("q", PStr city); ("appid", PStr (api_key self)); ("units", PStr units) ] in
    except_HTTPError
      (response ← api_send (ApiGet url params []) rep;
       lift (raise_for_status response);;
       data ← lift (json response);
       city ← dict_get data "name" VNone;
       sys ← dict_get data "sys" (VDict []);
       country ← dict_get sys "country" VNone;
       main ← dict_get data "main" (VDict []);
       temperature ← dict_get main "temp" VNone;
       main ← dict_get data "main" (VDict []);
       feels_like ← dict_get main "feels_like" VNone;
       main ← dict_get data "main" (VDict []);
       humidity ← dict_get main "humidity" VNone;
       weather ← dict_get data "weather" (VList [VDict []]);
       first ← item0 weather;
       description ← dict_get first "description" VNone;
       wind ← dict_get data "wind" (VDict []);
       wind_speed ← dict_get wind "speed" VNone;
       mret (ToolOk
         {| cw_city := city;
            cw_country := country;
            cw_temperature := temperature;
            cw_feels_like := feels_like;
            cw_humidity := humidity;
            cw_description := description;
            cw_wind_speed := wind_speed;
            cw_units := units |}))
      (fun e =>
         mret (ToolError ("Failed to fetch weather data: " +:+ str_of_http_error e))).

(** [get_forecast]. *)
Definition get_forecast (self : WeatherTools) (city : string) (days : Z)
    (units : string) (rep : reply forecast_json)
    : E tool_world (tool_result forecast_result) :=
  if negb (truthy (api_key self))
  then mret (ToolError "OpenWeatherMap API key not configured")
  else
    (* OpenWeatherMap free tier uses 5-day forecast with 3-hour intervals *)
    let url := weather_base_url self +:+ "/forecast" in
    let params :=
      [ ("q", PStr city); ("appid", PStr (api_key self)); ("units", PStr units);
        ("cnt", PInt (Z.min (days * 8) 40)) ] in
    except_HTTPError
      (response ← api_send (ApiGet url params []) rep;
       lift (raise_for_status response);;
       data ← lift (json response);
       (* Group forecasts by day *)
       forecasts ← mapM
         (fun item =>
            description ← first_description (fi_weather item);
            mret {| f_datetime := fi_dt_txt item;
                    f_temperature := fi_main item ≫= temp;
                    f_feels_like := fi_main item ≫= feels_like;
                    f_description := description;
                    f_humidity := fi_main item ≫= humidity;
                    f_wind_speed := fi_wind item ≫= speed |})
         (slice_to (days * 8) (default [] (fc_list data)));
       mret (ToolOk
         {| fr_city := fc_city data ≫= city_name;
            fr_country := fc_city data ≫= city_country;
            fr_forecast_count := length forecasts;
            fr_forecasts := forecasts;
            fr_units := units |}))
      (fun e =>
         mret (ToolError ("Failed to fetch forecast data: " +:+ str_of_http_error e))).

End Weather.
End Numbers.

(** The type of numbers is read off the arguments. *)
Arguments VNone {number}.
Arguments VBool {number}.
Arguments VNumber {number}.
Arguments VStr {number}.
Arguments VList {number}.
Arguments VDict {number}.
Arguments dict_lookup {number}.
Arguments missing_or_dict {number}.
Arguments readable {number}.
Arguments dict_get {number S}.
Arguments item0 {number S}.
Arguments mk_main_json {number}.
Arguments temp {number}.
Arguments feels_like {number}.
Arguments humidity {number}.
Arguments mk_wind_json {number}.
Arguments speed {number}.
Arguments mk_forecast_item_json {number}.
Arguments fi_dt_txt {number}.
Arguments fi_main {number}.
Arguments fi_weather {number}.
Arguments fi_wind {number}.
Arguments mk_forecast_json {number}.
Arguments fc_list {number}.
Arguments fc_city {number}.
Arguments mk_current_weather {number}.
Arguments cw_city {number}.
Arguments cw_country {number}.
Arguments cw_temperature {number}.
Arguments cw_feels_like {number}.
Arguments cw_humidity {number}.
Arguments cw_description {number}.
Arguments cw_wind_speed {number}.
Arguments cw_units {number}.
Arguments mk_forecast {number}.
Arguments f_datetime {number}.
Arguments f_temperature {number}.
Arguments f_feels_like {number}.
Arguments f_description {number}.
Arguments f_humidity {number}.
Arguments f_wind_speed {number}.
Arguments mk_forecast_result {number}.
Arguments fr_city {number}.
Arguments fr_country {number}.
Arguments fr_forecast_count {number}.
Arguments fr_forecasts {number}.
Arguments fr_units {number}.
Arguments get_current_weather {number}.
Arguments get_forecast {number}.

(** ** The JSON of the Calendar API *)

Record time_json : Type := mk_time_json {
  tj_dateTime : option string;
  tj_date : option string
}.

Record item_json : Type := mk_item_json {
  it_id : option string;
  it_summary : option string;
  it_start : option time_json;
  it_end : option time_json;
  it_location : option string;
  it_description : option string
}.

Record events_json : Type := mk_events_json {
  ev_items : option (list item_json)
}.

Record created_json : Type := mk_created_json {
  cr_id : option string;
  cr_summary : option string;
  cr_start : option time_json;
  cr_end : option time_json;
  cr_htmlLink : option string
}.

(** ** The dictionaries the calendar tools return *)

Record event : Type := mk_event {
  e_id : option string;
  e_summary : string;
  e_start : option string;
  e_end : option string;
  e_location : option string;
  e_description : option string
}.

Record events_result : Type := mk_events_result {
  er_calendar_id : string;
  er_event_count : nat;
  er_events : list event
}.

Record created_result : Type := mk_created_result {
  cr_success : bool;
  cr_event_id : option string;
  cr_result_summary : option string;
  cr_result_start : option string;
  cr_result_end : option string;
  cr_html_link : option string
}.

(** [CalendarTools]. *)
Record CalendarTools : Type := mk_calendar_tools {
  calendar_base_url : string
}.

(** [calendar_tools = CalendarTools()]. *)
Definition calendar_tools : CalendarTools :=
  {| calendar_base_url := "https://www.googleapis.com/calendar/v3" |}.

(** What [get_valid_access_token] reads and draws when a tool calls it. *)
Record token_inputs : Type := mk_token_inputs {
  ti_now : Z;
  ti_refresh_reply : reply token_json;
  ti_refresh_now : Z;
  ti_refresh_db_now : Z
}.

Section Calendar.
(** [str(e)] of an [httpx.HTTPError], and [datetime.isoformat]. *)
Variable str_of_http_error : http_error → string.
Variable isoformat : Z → string.

(** The manager the tools import. *)
Variable oauth_manager : OAuthManager.t.

(** [list_events]; [time_min] is the reading of [datetime.utcnow()] for
    ["timeMin"]. *)
Definition list_events (self : CalendarTools) (user_sub calendar_id : string)
    (max_results : Z) (inputs : token_inputs) (time_min : Z)
    (rep : reply events_json) : E tool_world (tool_result events_result) :=
  access_token ← on_oauth
    (get_valid_access_token oauth_manager user_sub (ti_now inputs)
       (ti_refresh_reply inputs) (ti_refresh_now inputs)
       (ti_refresh_db_now inputs));
  if negb (truthy_opt access_token)
  then mret (ToolError
               "Unable to get valid access token. Please re-authenticate.")
  else
    let access_token := default "" access_token in
    let url :=
      calendar_base_url self +:+ "/calendars/" +:+ calendar_id +:+ "/events" in
    let params :=
      [ ("maxResults", PInt max_results);
        ("orderBy", PStr "startTime");
        ("singleEvents", PStr "true");
        ("timeMin", PStr (isoformat time_min +:+ "Z")) ] in
    except_HTTPError
      (response ← api_send
         (ApiGet url params [("Authorization", "Bearer " +:+ access_token)]) rep;
       lift (raise_for_status response);;
       data ← lift (json response);
       (* Format events for better readability *)
       let events :=
         (fun item =>
            {| e_id := it_id item;
               e_summary := default "No title" (it_summary item);
               e_start := py_or (it_start item ≫= tj_dateTime)
                                (it_start item ≫= tj_date);
               e_end := py_or (it_end item ≫= tj_dateTime)
                              (it_end item ≫= tj_date);
               e_location := it_location item;
               e_description := it_description item |})
         <$> default [] (ev_items data) in
       mret (ToolOk
         {| er_calendar_id := calendar_id;
            er_event_count := length events;
            er_events := events |}))
      (fun e =>
         mret (ToolError
                 ("Failed to fetch calendar events: " +:+ str_of_http_error e))).

(** [create_event]. *)
Definition create_event (self : CalendarTools) (user_sub summary start_iso
    end_iso calendar_id : string) (description location : option string)
    (inputs : token_inputs) (rep : reply created_json)
    : E tool_world (tool_result created_result) :=
  access_token ← on_oauth
    (get_valid_access_token oauth_manager user_sub (ti_now inputs)
       (ti_refresh_reply inputs) (ti_refresh_now inputs)
       (ti_refresh_db_now inputs));
  if negb (truthy_opt access_token)
  then mret (ToolError
               "Unable to get valid access token. Please re-authenticate.")
  else
    let access_token := default "" access_token in
    let url :=
      calendar_base_url self +:+ "/calendars/" +:+ calendar_id +:+ "/events" in
    let event_data :=
      {| ed_summary := summary;
         ed_start := mk_event_time start_iso "UTC";
         ed_end := mk_event_time end_iso "UTC";
         ed_description := if truthy_opt description then description else None;
         ed_location := if truthy_opt location then location else None |} in
    except_HTTPError
      (response ← api_send
         (ApiPost url event_data [("Authorization", "Bearer " +:+ access_token)])
         rep;
       lift (raise_for_status response);;
       data ← lift (json response);
       mret (ToolOk
         {| cr_success := true;
            cr_event_id := cr_id data;
            cr_result_summary := cr_summary data;
            cr_result_start := cr_start data ≫= tj_dateTime;
            cr_result_end := cr_end data ≫= tj_dateTime;
            cr_html_link := cr_htmlLink data |}))
      (fun e =>
         mret (ToolError
                 ("Failed to create calendar event: " +:+ str_of_http_error e))).

End Calendar.

End Tools.

(* ===================================================================== *)
(** * Sample settings and wire formats *)
(* ===================================================================== *)

Module MainSample.
Import Config Main.

(** Settings that agree with [Sample.sessions_mgr] and [Sample.oauth_mgr]. *)
Definition settings : Settings :=
  {| BASE_URL := "http://localhost:8000";
     PORT := 8000;
     GOOGLE_CLIENT_ID := "client-id";
     GOOGLE_CLIENT_SECRET := "client-secret";
     GOOGLE_REDIRECT_URI := "http://localhost:8000/callback";
     OPENWEATHER_API_KEY := "";
     JWT_SIGNING_KEY := "signing-key";
     JWT_ALGORITHM := "HS256";
     SESSION_DURATION_HOURS := 24;
     DATABASE_URL := None;
     REDIS_URL := None;
     GOOGLE_SCOPES := ["openid"; "profile"; "email"] |}.

(** A toy compact form: a credential is written as its [jti], and only the
    credential of [Sample.issued_token] reads back. *)
Definition str_of_token (tok : Jwt.token) : string :=
  match tok with
  | Jwt.Malformed raw => raw
  | Jwt.Compact _ _ body => "jwt:" +:+ default "" (Jwt.jti body)
  end.

Definition token_of_str (s : string) : Jwt.token :=
  if String.eqb s "jwt:j1" then Sample.issued_token else Jwt.Malformed s.

Definition json_dumps (j : json) (indent : Z) : string := "{}".

Definition str_of_exn (e : exn) : string :=
  match e with
  | ValueError msg => msg
  | KeyError key => key
  | _ => "error"
  end.

(** A provider that answers both requests, and the draws of one callback. *)
Definition inputs : callback_inputs :=
  {| token_reply :=
       OAuthManager.Response 200
         (Some (OAuthManager.mk_token_json (Some "at-1") (Some "rt-1") None));
     userinfo_reply :=
       OAuthManager.Response 200
         (Some (OAuthManager.mk_userinfo_json (Some "u1") (Some "e@x.com") None));
     tokens_now := 0; tokens_db_now := 0;
     session_jti := "j1"; session_now := 0; session_db_now := 0;
     exchange_code_draw := "c1"; exchange_code_now := 0;
     exchange_code_db_now := 0 |}.

(** One authorization pending, nothing stored, nothing sent. *)
Definition pending : OAuthManager.world :=
  OAuthManager.mk_world {[ "s1" := OAuthManager.mk_pkce "verifier" "challenge" ]}
    Sample.empty_db [].

End MainSample.

(* ===================================================================== *)
(** * Properties *)
(* ===================================================================== *)

(** Unfolds the monad down to functions on the state. *)
Ltac run_M :=
  unfold mbind, M_bind, mret, M_ret, raise, gets, modify, try_except,
    SessionManager.lift_result in *; simpl in *.

Section StorageFacts.
Import Storage.

Implicit Types (d : db) (code jti : string) (now : Z).

(** ** Exchange codes at the storage layer *)

Lemma use_exchange_code_unknown code now d :
  exchange_codes d !! code = None →
  use_exchange_code code now d = (Ret None, d).
Proof.
  intros Hrow. unfold use_exchange_code, _use_exchange_code_sync. run_M.
  by rewrite Hrow.
Qed.

Lemma use_exchange_code_used code now d row :
  exchange_codes d !! code = Some row → x_used row = true →
  use_exchange_code code now d = (Ret None, d).
Proof.
  intros Hrow Hused. unfold use_exchange_code, _use_exchange_code_sync. run_M.
  by rewrite Hrow, Hused.
Qed.

Lemma use_exchange_code_expired code now d row :
  exchange_codes d !! code = Some row → now > x_expires_at row →
  use_exchange_code code now d = (Ret None, d).
Proof.
  intros Hrow Hexp. unfold use_exchange_code, _use_exchange_code_sync. run_M.
  rewrite Hrow. destruct (x_used row); [done|].
  by rewrite bool_decide_eq_true_2.
Qed.

Lemma use_exchange_code_valid code now d row :
  exchange_codes d !! code = Some row → x_used row = false →
  now ≤ x_expires_at row →
  use_exchange_code code now d
  = (Ret (Some (x_user_sub row)),
     set_exchange_codes (alter mark_used code) d).
Proof.
  intros Hrow Hused Hexp. unfold use_exchange_code, _use_exchange_code_sync.
  run_M. rewrite Hrow, Hused.
  rewrite bool_decide_eq_false_2 by lia. done.
Qed.

(** A redemption that returns a user did so from an unused, unexpired
    row. *)
Lemma use_exchange_code_Some code now d u d' :
  use_exchange_code code now d = (Ret (Some u), d') →
  ∃ row, exchange_codes d !! code = Some row ∧ x_used row = false
         ∧ now ≤ x_expires_at row ∧ u = x_user_sub row
         ∧ d' = set_exchange_codes (alter mark_used code) d.
Proof.
  unfold use_exchange_code, _use_exchange_code_sync. run_M.
  destruct (exchange_codes d !! code) as [row|] eqn:Hrow; [|done].
  destruct (x_used row) eqn:Hused; [done|].
  case_bool_decide; [done|].
  intros [= <- <-]. exists row. repeat split; auto; lia.
Qed.

(** ** What a storage call can do to one exchange-code row *)

(** A row that is used, or that is only redeemed after its expiry, is left
    exactly as it is by every call. *)
Lemma perform_keeps_exchange_code (c : call) d code row :
  exchange_codes d !! code = Some row →
  x_used row = true ∨ after_expiry code (x_expires_at row) c →
  exchange_codes (perform c d) !! code = Some row.
Proof.
  intros Hrow Hc. destruct c as [| | |code' u e t|code' now']; simpl; try done.
  - (* SaveExchangeCode: the primary key protects the row *)
    unfold save_exchange_code, _save_exchange_code_sync. run_M.
    destruct (exchange_codes d !! code') as [row'|] eqn:Hrow'; simpl; [done|].
    rewrite lookup_insert_ne; [done|]. intros ->. congruence.
  - (* UseExchangeCode *)
    unfold use_exchange_code, _use_exchange_code_sync. run_M.
    destruct (exchange_codes d !! code') as [row'|] eqn:Hrow'; simpl; [|done].
    destruct (x_used row') eqn:Hused'; simpl; [done|].
    case_bool_decide; simpl; [done|].
    destruct (decide (code' = code)) as [->|Hne].
    + exfalso. assert (row' = row) as -> by congruence.
      destruct Hc as [Hu|Hafter]; [congruence|].
      simpl in Hafter. specialize (Hafter eq_refl). lia.
    + by rewrite lookup_alter_ne.
Qed.

Lemma perform_all_keeps_used (cs : list call) d code row :
  exchange_codes d !! code = Some row → x_used row = true →
  exchange_codes (perform_all cs d) !! code = Some row.
Proof.
  revert d. induction cs as [|c cs IH]; intros d Hrow Hused; simpl; [done|].
  apply IH; [|done]. apply perform_keeps_exchange_code; auto.
Qed.

Lemma perform_all_keeps_expired (cs : list call) d code row :
  exchange_codes d !! code = Some row →
  Forall (after_expiry code (x_expires_at row)) cs →
  exchange_codes (perform_all cs d) !! code = Some row.
Proof.
  revert d. induction cs as [|c cs IH]; intros d Hrow Hcs; simpl; [done|].
  inversion Hcs; subst. apply IH; [|done].
  apply perform_keeps_exchange_code; auto.
Qed.

(** ** What a storage call can do to one session row *)

(** A [jti] is dead when [get_session] finds no live row for it: there is no
    row, or the row is revoked. *)
Lemma get_session_dead jti d :
  get_session jti d = (Ret None, d)
  ↔ ∀ row, sessions d !! jti = Some row → s_revoked row = true.
Proof.
  unfold get_session, _get_session_sync. run_M. split.
  - intros [= Hdead] row Hrow. rewrite Hrow in Hdead.
    by destruct (s_revoked row).
  - intros Hdead. destruct (sessions d !! jti) as [row|]; [|done].
    by rewrite (Hdead row eq_refl).
Qed.

Lemma perform_keeps_dead_session (c : call) d jti :
  get_session jti d = (Ret None, d) → saves_session jti c = false →
  get_session jti (perform c d) = (Ret None, perform c d).
Proof.
  rewrite !get_session_dead. intros Hdead Hc row.
  destruct c as [jti' u e x t|jti'| | |code' now']; simpl in *.
  - (* SaveSession, of another jti *)
    apply String.eqb_neq in Hc. rewrite lookup_insert_ne by done. apply Hdead.
  - (* RevokeSession *)
    rewrite lookup_alter. case_decide as Heq; [|apply Hdead]. subst jti'.
    destruct (sessions d !! jti) as [row'|]; [|done]. by intros [= <-].
  - (* SaveUserTokens *)
    apply Hdead.
  - (* SaveExchangeCode *)
    unfold save_exchange_code, _save_exchange_code_sync. run_M.
    destruct (exchange_codes d !! _); simpl; apply Hdead.
  - (* UseExchangeCode *)
    unfold use_exchange_code, _use_exchange_code_sync. run_M.
    destruct (exchange_codes d !! code') as [row'|]; simpl; [|apply Hdead].
    destruct (x_used row'); simpl; [apply Hdead|].
    case_bool_decide; simpl; apply Hdead.
Qed.

Lemma perform_all_keeps_dead_session (cs : list call) d jti :
  get_session jti d = (Ret None, d) →
  forallb (fun c => negb (saves_session jti c)) cs = true →
  get_session jti (perform_all cs d) = (Ret None, perform_all cs d).
Proof.
  revert d. induction cs as [|c cs IH]; intros d Hdead Hcs; simpl in *; [done|].
  apply andb_prop in Hcs as [Hc Hcs]. apply negb_true_iff in Hc.
  apply IH; [|done]. by apply perform_keeps_dead_session.
Qed.

Lemma get_session_revoked d jti :
  get_session jti ((revoke_session jti d).2) = (Ret None, (revoke_session jti d).2).
Proof.
  apply get_session_dead. intros row.
  unfold revoke_session, _revoke_session_sync. run_M. rewrite lookup_alter_eq.
  destruct (sessions d !! jti) as [row'|]; [|done]. by intros [= <-].
Qed.

End StorageFacts.

Section ExchangeCodeFacts.
Import Storage.

(** C10.  Redeeming a code that is unknown, already used or expired returns
    [None] and writes nothing: the database is the one it was.  An unused
    code whose redemptions all come after its expiry keeps its row, [used]
    still false, whatever calls reach the storage. *)
Theorem failed_redemption_writes_nothing (code : string) (now : Z) (d : db) :
  (exchange_codes d !! code = None
   ∨ ∃ row, exchange_codes d !! code = Some row
            ∧ (x_used row = true ∨ now > x_expires_at row)) →
  use_exchange_code code now d = (Ret None, d)
  ∧ ∀ row, exchange_codes d !! code = Some row → x_used row = false →
      ∀ cs, Forall (after_expiry code (x_expires_at row)) cs →
        exchange_codes (perform_all cs d) !! code = Some row.
Proof.
  intros Hfail. split.
  - destruct Hfail as [Hnone|(row & Hrow & [Hused|Hexp])].
    + by apply use_exchange_code_unknown.
    + by eapply use_exchange_code_used.
    + by eapply use_exchange_code_expired.
  - intros row Hrow _ cs Hcs. by apply perform_all_keeps_expired.
Qed.

Lemma failed_redemption_writes_nothing_witness :
  use_exchange_code "c1" 200 Sample.code_db = (Ret None, Sample.code_db)
  ∧ exchange_codes
      (perform_all [UseExchangeCode "c1" 300; SaveExchangeCode "c1" "u2" 900 250;
                    UseExchangeCode "c1" 400]
         Sample.code_db) !! "c1"
    = Some Sample.code_row.
Proof.
  destruct (failed_redemption_writes_nothing "c1" 200 Sample.code_db)
    as [Hret Hkeep].
  { right. exists Sample.code_row. split; [reflexivity|]. right. reflexivity. }
  split; [exact Hret|].
  apply (Hkeep Sample.code_row); [reflexivity|reflexivity|].
  repeat constructor; simpl; intros _; reflexivity.
Defined.

End ExchangeCodeFacts.

Section SessionFacts.
Import Storage SessionManager.

Implicit Types (self : SessionManager.t) (d : db) (tok : Jwt.token).

(** ** Decoding *)

Lemma validate_claims_Ret (c c' : Jwt.claims) (now : Z) :
  Jwt.validate_claims c now = Ret c' → c' = c.
Proof.
  unfold Jwt.validate_claims.
  repeat match goal with |- context [if ?b then _ else _] => destruct b end;
    congruence.
Qed.

Lemma validate_claims_expired (c : Jwt.claims) (now e : Z) :
  Jwt.exp c = Some e → seconds e ≤ now →
  ∃ k, Jwt.validate_claims c now = Raise (InvalidTokenError k).
Proof.
  intros He Hle. unfold Jwt.validate_claims. rewrite He.
  destruct (match Jwt.iat c with Some _ => _ | None => _ end); [eauto|].
  rewrite bool_decide_eq_true_2 by done. eauto.
Qed.

Lemma decode_Ret tok key algs now (p : Jwt.claims) :
  Jwt.decode tok key algs now = Ret p → Jwt.decode_signed tok key algs = Ret p.
Proof.
  unfold Jwt.decode. destruct (Jwt.decode_signed tok key algs) as [body|e];
    [|done].
  intros H. by rewrite (validate_claims_Ret _ _ _ H).
Qed.

(** Whatever [jwt.decode] raises is an [InvalidTokenError]. *)
Lemma decode_Raise tok key algs now (e : exn) :
  Jwt.decode tok key algs now = Raise e → is_InvalidTokenError e = true.
Proof.
  unfold Jwt.decode, Jwt.decode_signed, Jwt.validate_claims.
  destruct tok as [raw|alg k body]; [by intros [= <-]|].
  repeat match goal with |- context [if ?b then _ else _] => destruct b end;
    by intros [= <-].
Qed.

(** ** [verify_session] *)

(** Verification only reads. *)
Lemma verify_session_reads_only self tok jwt_now now d :
  (verify_session self tok jwt_now now d).2 = d.
Proof.
  unfold verify_session, get_session, _get_session_sync. run_M.
  destruct (Jwt.decode _ _ _ _) as [p|e]; simpl.
  - destruct (Jwt.jti p) as [j|]; simpl; [|done].
    destruct (truthy j); simpl; [|done].
    destruct (sessions d !! j) as [row|]; simpl; [|done].
    destruct (s_revoked row); simpl; [done|].
    case_bool_decide; done.
  - by destruct (_ || _).
Qed.

(** A credential whose [jti] has no live row never verifies. *)
Lemma verify_session_dead self alg k body jti jwt_now now d :
  Jwt.jti body = Some jti → get_session jti d = (Ret None, d) →
  verify_session self (Jwt.Compact alg k body) jwt_now now d = (Ret None, d).
Proof.
  intros Hjti Hdead.
  unfold verify_session, get_session, _get_session_sync in *. run_M.
  injection Hdead as Hdead.
  destruct (Jwt.decode _ _ _ _) as [p|e] eqn:Hdec; simpl.
  - apply decode_Ret in Hdec. unfold Jwt.decode_signed in Hdec.
    repeat match type of Hdec with
           | (if ?b then _ else _) = _ => destruct b; [done|]
           end.
    injection Hdec as <-. rewrite Hjti.
    destruct (truthy jti); simpl; [|done].
    rewrite Hdead. done.
  - apply decode_Raise in Hdec. rewrite Hdec, orb_true_r. done.
Qed.

(** C5.  A credential whose signature verifies, and whose session row exists
    and is not revoked, does not verify once the clock has passed the row's
    [expires_at] -- whatever its own [exp] says. *)
Theorem verify_session_checks_stored_expiry self tok jwt_now now d
    (payload : Jwt.claims) (jti : string) (row : SessionRecord) :
  Jwt.decode_signed tok (secret_key self) [algorithm self] = Ret payload →
  Jwt.jti payload = Some jti →
  sessions d !! jti = Some row → s_revoked row = false →
  now > s_expires_at row →
  verify_session self tok jwt_now now d = (Ret None, d).
Proof.
  intros Hsig Hjti Hrow Hlive Hpast.
  unfold verify_session, get_session, _get_session_sync. run_M.
  destruct (Jwt.decode _ _ _ _) as [p|e] eqn:Hdec; simpl.
  - apply decode_Ret in Hdec. rewrite Hsig in Hdec. injection Hdec as <-.
    rewrite Hjti. destruct (truthy jti); simpl; [|done].
    rewrite Hrow, Hlive. simpl.
    by rewrite bool_decide_eq_true_2.
  - apply decode_Raise in Hdec. by rewrite Hdec, orb_true_r.
Qed.

Lemma verify_session_checks_stored_expiry_witness :
  verify_session Sample.sessions_mgr Sample.live_token 200 200
    Sample.short_session_db
  = (Ret None, Sample.short_session_db).
Proof.
  apply (verify_session_checks_stored_expiry Sample.sessions_mgr
           Sample.live_token 200 200 Sample.short_session_db
           Sample.live_body "j1" (mk_session "u1" "e@x.com" 100 0 false));
    reflexivity.
Defined.

Lemma truthy_true (s : string) : truthy s = true ↔ s ≠ "".
Proof.
  unfold truthy. rewrite negb_true_iff. apply String.eqb_neq.
Qed.

(** Whole seconds never run ahead of the clock they were taken from. *)
Lemma seconds_timegm_le (t : Z) : seconds (Jwt.timegm t) ≤ t.
Proof.
  unfold seconds, Jwt.timegm.
  pose proof (Z.mul_div_le t 1000000 ltac:(lia)). lia.
Qed.

(** The credential [create_session] returns verifies, with the claims it was
    given, for as long as neither its [exp] nor the row's [expires_at] has
    passed. *)
Lemma create_session_verifies self (user_sub user_email jti : string)
    (now db_now jwt_now now' : Z) d :
  jti ≠ "" →
  now ≤ jwt_now →
  jwt_now < seconds (Jwt.timegm (now + hours (duration_hours self))) →
  now' ≤ now + hours (duration_hours self) →
  ∃ tok d1,
    create_session self user_sub user_email jti now db_now d = (Ret tok, d1)
    ∧ verify_session self tok jwt_now now' d1
      = (Ret (Some (Jwt.mk_claims (Some jti) (Some user_sub) (Some user_email)
                      (Some (Jwt.timegm now))
                      (Some (Jwt.timegm (now + hours (duration_hours self)))))),
         d1).
Proof.
  intros Hjti Hiat Hexp Hrow. do 2 eexists. split; [reflexivity|].
  unfold verify_session, get_session, _get_session_sync, Jwt.decode,
    Jwt.decode_signed, Jwt.validate_claims, Jwt.encode.
  run_M.
  rewrite bool_decide_eq_true_2 by set_solver. simpl.
  rewrite String.eqb_refl. simpl.
  pose proof (seconds_timegm_le now).
  rewrite bool_decide_eq_false_2 by lia.
  rewrite bool_decide_eq_false_2 by lia. simpl.
  rewrite (proj2 (truthy_true jti) Hjti). simpl.
  rewrite lookup_insert_eq. simpl.
  rewrite bool_decide_eq_false_2 by lia. done.
Qed.

(** ** [revoke_session] *)

(** The whole of [revoke_session], by the outcome of [jwt.decode]. *)
Lemma revoke_session_eq self tok jwt_now d :
  revoke_session self tok jwt_now d
  = match Jwt.decode tok (secret_key self) [algorithm self] jwt_now with
    | Ret payload =>
        match Jwt.jti payload with
        | Some jti =>
            if truthy jti
            then (Ret true, set_sessions (alter mark_revoked jti) d)
            else (Ret false, d)
        | None => (Ret false, d)
        end
    | Raise _ => (Ret false, d)
    end.
Proof.
  unfold revoke_session, Storage.revoke_session, _revoke_session_sync. run_M.
  destruct (Jwt.decode _ _ _ _) as [p|e] eqn:Hdec; simpl.
  - destruct (Jwt.jti p) as [j|]; simpl; [|done]. by destruct (truthy j).
  - by rewrite (decode_Raise _ _ _ _ _ Hdec).
Qed.

Lemma revoke_session_true self alg k body jwt_now d d' :
  revoke_session self (Jwt.Compact alg k body) jwt_now d = (Ret true, d') →
  ∃ jti, Jwt.jti body = Some jti ∧ d' = (Storage.revoke_session jti d).2.
Proof.
  rewrite revoke_session_eq.
  destruct (Jwt.decode _ _ _ _) as [p|e] eqn:Hdec; [|done].
  apply decode_Ret in Hdec. unfold Jwt.decode_signed in Hdec.
  repeat match type of Hdec with
         | (if ?b then _ else _) = _ => destruct b; [done|]
         end.
  injection Hdec as <-.
  destruct (Jwt.jti body) as [j|]; [|done].
  destruct (truthy j); [|done].
  intros [= <-]. by exists j.
Qed.

(** C4.  Take the credential [create_session] issued.  Once a
    [revoke_session] of it has returned [True], it no longer verifies: not at
    any later time, and not after any further storage calls, provided none
    of them is the saving of a new session under the very same [jti]
    (identifiers are 32 random bytes; a later draw is taken to differ). *)
Theorem revoked_session_never_verifies self (user_sub user_email jti : string)
    (now db_now : Z) d0 tok d1 (cs1 : list call) (revoke_now : Z) d3
    (cs2 : list call) (jwt_now' now' : Z) :
  create_session self user_sub user_email jti now db_now d0 = (Ret tok, d1) →
  revoke_session self tok revoke_now (perform_all cs1 d1) = (Ret true, d3) →
  forallb (fun c => negb (saves_session jti c)) cs2 = true →
  verify_session self tok jwt_now' now' (perform_all cs2 d3)
  = (Ret None, perform_all cs2 d3).
Proof.
  intros Hcreate Hrevoke Hfresh.
  unfold create_session, save_session, _save_session_sync in Hcreate. run_M.
  injection Hcreate as <- <-. unfold Jwt.encode in *.
  apply revoke_session_true in Hrevoke as (j & Hj & ->).
  simpl in Hj. injection Hj as <-.
  eapply verify_session_dead; [reflexivity|].
  apply perform_all_keeps_dead_session; [|done].
  apply get_session_revoked.
Qed.

Lemma revoked_session_never_verifies_witness :
  verify_session Sample.sessions_mgr Sample.issued_token (hours 2) (hours 2)
    (perform_all [SaveSession "j2" "u1" "e@x.com" (hours 30) 7; RevokeSession "j2"]
       (Storage.revoke_session "j1" Sample.issued_db).2)
  = (Ret None,
     perform_all [SaveSession "j2" "u1" "e@x.com" (hours 30) 7; RevokeSession "j2"]
       (Storage.revoke_session "j1" Sample.issued_db).2).
Proof.
  apply (revoked_session_never_verifies Sample.sessions_mgr "u1" "e@x.com" "j1"
           0 0 Sample.empty_db Sample.issued_token Sample.issued_db []
           (hours 1)); reflexivity.
Defined.

(** The credential [create_session] issued at time 0 has a valid signature
    and parses, yet twenty-five hours later [revoke_session] returns [False]
    for it and revokes nothing: [jwt.decode] has checked [exp]. *)
Lemma revoke_session_refuses_expired_credential :
  create_session Sample.sessions_mgr "u1" "e@x.com" "j1" 0 0 Sample.empty_db
  = (Ret Sample.issued_token, Sample.issued_db)
  ∧ (∃ body, Jwt.decode_signed Sample.issued_token "signing-key" ["HS256"]
             = Ret body ∧ Jwt.jti body = Some "j1")
  ∧ revoke_session Sample.sessions_mgr Sample.issued_token (hours 25)
      Sample.issued_db
    = (Ret false, Sample.issued_db)
  ∧ s_revoked <$> sessions Sample.issued_db !! "j1" = Some false.
Proof.
  split; [reflexivity|]. split; [eexists; split; reflexivity|].
  split; reflexivity.
Qed.

(** C1, as the code has it.  [revoke_session] decodes the credential the way
    [jwt.decode] does by default -- signature, algorithm and the embedded
    [iat]/[exp] -- and consults no stored state.  When the credential
    decodes and carries a non-empty [jti], the row of that [jti] gets
    [revoked = 1] and the answer is [True]; in every other case the answer is
    [False] and nothing is written.  A credential with a valid signature
    whose [exp] has elapsed is one of those other cases. *)
Theorem revoke_session_decodes_fully self tok jwt_now d :
  (∀ payload jti,
     Jwt.decode tok (secret_key self) [algorithm self] jwt_now = Ret payload →
     Jwt.jti payload = Some jti → jti ≠ "" →
     revoke_session self tok jwt_now d
     = (Ret true, set_sessions (alter mark_revoked jti) d))
  ∧ ((∀ payload jti,
        Jwt.decode tok (secret_key self) [algorithm self] jwt_now = Ret payload →
        Jwt.jti payload = Some jti → jti = "") →
     revoke_session self tok jwt_now d = (Ret false, d))
  ∧ (∀ body e,
       Jwt.decode_signed tok (secret_key self) [algorithm self] = Ret body →
       Jwt.exp body = Some e → seconds e ≤ jwt_now →
       revoke_session self tok jwt_now d = (Ret false, d)).
Proof.
  rewrite revoke_session_eq. repeat split.
  - intros p j -> -> Hj. by rewrite (proj2 (truthy_true j) Hj).
  - intros Hnone.
    destruct (Jwt.decode _ _ _ _) as [p|e] eqn:Hdec; [|done].
    destruct (Jwt.jti p) as [j|] eqn:Hj; [|done].
    by rewrite (Hnone p j eq_refl Hj).
  - intros body e Hsig He Hle. unfold Jwt.decode. rewrite Hsig.
    by destruct (validate_claims_expired body jwt_now e He Hle) as [k ->].
Qed.

Lemma revoke_session_decodes_fully_witness :
  revoke_session Sample.sessions_mgr Sample.issued_token (hours 1)
      Sample.issued_db
  = (Ret true,
     mk_db {[ "j1" := mk_session "u1" "e@x.com" (hours 24) 0 true ]} ∅ ∅)
  ∧ revoke_session Sample.sessions_mgr (Jwt.Malformed "not.a.jwt") (hours 1)
      Sample.issued_db
    = (Ret false, Sample.issued_db)
  ∧ revoke_session Sample.sessions_mgr Sample.issued_token (hours 25)
      Sample.issued_db
    = (Ret false, Sample.issued_db).
Proof.
  split; [|split].
  - destruct (revoke_session_decodes_fully Sample.sessions_mgr
                Sample.issued_token (hours 1) Sample.issued_db) as (H & _ & _).
    rewrite (H (Jwt.mk_claims (Some "j1") (Some "u1") (Some "e@x.com")
                  (Some 0) (Some 86400)) "j1"); [reflexivity..|discriminate].
  - destruct (revoke_session_decodes_fully Sample.sessions_mgr
                (Jwt.Malformed "not.a.jwt") (hours 1) Sample.issued_db)
      as (_ & H & _).
    apply H. intros payload jti Hdec. discriminate Hdec.
  - destruct (revoke_session_decodes_fully Sample.sessions_mgr
                Sample.issued_token (hours 25) Sample.issued_db) as (_ & _ & H).
    apply (H (Jwt.mk_claims (Some "j1") (Some "u1") (Some "e@x.com")
                (Some 0) (Some 86400)) 86400); [reflexivity..|].
    vm_compute. discriminate.
Defined.

(** ** [exchange_code_for_session] *)

(** A redemption the storage layer refuses yields no credential and leaves
    the database alone. *)
Lemma exchange_code_for_session_refused self (code : string) (use_now : Z)
    (jti : string) (now db_now : Z) d :
  use_exchange_code code use_now d = (Ret None, d) →
  exchange_code_for_session self code use_now jti now db_now d = (Ret None, d).
Proof.
  intros Huse. unfold exchange_code_for_session. run_M. by rewrite Huse.
Qed.

(** A code issued for the empty subject identifier is unused and unexpired,
    and its first redemption returns [None]. *)
Lemma exchange_code_of_empty_subject_yields_nothing :
  create_exchange_code Sample.sessions_mgr "" "c0" 0 0 Sample.empty_db
  = (Ret "c0", mk_db ∅ ∅ {[ "c0" := mk_exchange_code "" (minutes 5) false 0 ]})
  ∧ (exchange_code_for_session Sample.sessions_mgr "c0" 50 "j1" 50 50
       (mk_db ∅ ∅ {[ "c0" := mk_exchange_code "" (minutes 5) false 0 ]})).1
    = Ret None.
Proof. split; reflexivity. Qed.

(** C3, as the code has it.  For a stored code that is unused, unexpired and
    issued for a non-empty [user_sub], the first redemption returns the
    credential [create_session] signs for that user (with the e-mail of the
    user's token row, or the empty string), saves its session, and marks the
    code used; from then on, whatever calls reach the storage, the code stays
    used and every redemption of it returns [None]. *)
Theorem exchange_code_redeems_once self (code : string) (row : ExchangeCodeRecord)
    (use_now : Z) (jti : string) (now db_now : Z) d :
  exchange_codes d !! code = Some row → x_used row = false →
  use_now ≤ x_expires_at row → x_user_sub row ≠ "" →
  let user_email :=
    match user_tokens d !! x_user_sub row with
    | Some tokens => t_user_email tokens
    | None => ""
    end in
  let expires_at := now + hours (duration_hours self) in
  ∃ d1,
    exchange_code_for_session self code use_now jti now db_now d
    = (Ret (Some (Jwt.encode
                    (Jwt.mk_payload jti (x_user_sub row) user_email now expires_at)
                    (secret_key self) (algorithm self))), d1)
    ∧ sessions d1 !! jti
      = Some (mk_session (x_user_sub row) user_email expires_at db_now false)
    ∧ exchange_codes d1 !! code = Some (mark_used row)
    ∧ ∀ (cs : list call) (use_now' : Z) (jti' : string) (now' db_now' : Z),
        exchange_codes (perform_all cs d1) !! code = Some (mark_used row)
        ∧ exchange_code_for_session self code use_now' jti' now' db_now'
            (perform_all cs d1)
          = (Ret None, perform_all cs d1).
Proof.
  intros Hrow Hunused Hlive Hsub user_email expires_at.
  eexists. split; [|split; [|split]].
  - unfold exchange_code_for_session. run_M.
    rewrite (use_exchange_code_valid _ _ _ _ Hrow Hunused Hlive).
    rewrite (proj2 (truthy_true _) Hsub). simpl. reflexivity.
  - simpl. apply lookup_insert_eq.
  - simpl. rewrite lookup_alter_eq, Hrow. done.
  - intros cs use_now' jti' now' db_now'.
    assert (exchange_codes (perform_all cs
              (set_sessions
                 (insert jti (mk_session (x_user_sub row) user_email
                                expires_at db_now false))
                 (set_exchange_codes (alter mark_used code) d))) !! code
            = Some (mark_used row)) as Hused.
    { apply perform_all_keeps_used; [|done].
      simpl. by rewrite lookup_alter_eq, Hrow. }
    split; [exact Hused|].
    apply exchange_code_for_session_refused.
    by eapply use_exchange_code_used.
Qed.

Lemma exchange_code_redeems_once_witness :
  ∃ d1,
    exchange_code_for_session Sample.sessions_mgr "c1" 50 "j1" 60 70
      Sample.code_db
    = (Ret (Some (Jwt.encode (Jwt.mk_payload "j1" "u1" "" 60 (60 + hours 24))
                    "signing-key" "HS256")), d1)
    ∧ exchange_code_for_session Sample.sessions_mgr "c1" 80 "j2" 80 80
        (perform_all [SaveExchangeCode "c1" "u1" 900 75; RevokeSession "j1"] d1)
      = (Ret None,
         perform_all [SaveExchangeCode "c1" "u1" 900 75; RevokeSession "j1"] d1).
Proof.
  destruct (exchange_code_redeems_once Sample.sessions_mgr "c1" Sample.code_row
              50 "j1" 60 70 Sample.code_db)
    as (d1 & Hfirst & _ & _ & Hlater); [reflexivity|reflexivity|..].
  - vm_compute. discriminate.
  - discriminate.
  - exists d1. split; [exact Hfirst|]. apply Hlater.
Defined.

End SessionFacts.

Section OAuthFacts.
Import Storage OAuthManager.

Implicit Types (self : OAuthManager.t) (w : world).

Ltac run_oauth :=
  unfold exchange_code, refresh_access_token, get_valid_access_token,
    _get_userinfo, send, raise_for_status, json, getitem, with_storage,
    get_user_tokens, _get_user_tokens_sync, save_user_tokens,
    _save_user_tokens_sync in *;
  run_M.

(** ** [refresh_access_token] *)

Lemma refresh_access_token_no_record self user_sub rep now db_now w :
  user_tokens (storage w) !! user_sub = None →
  refresh_access_token self user_sub rep now db_now w = (Ret None, w).
Proof. intros Hrow. run_oauth. rewrite Hrow. by destruct w. Qed.

Lemma refresh_access_token_no_refresh_token self user_sub rep now db_now w row :
  user_tokens (storage w) !! user_sub = Some row → t_refresh_token row = "" →
  refresh_access_token self user_sub rep now db_now w = (Ret None, w).
Proof. intros Hrow Hrt. run_oauth. rewrite Hrow, Hrt. by destruct w. Qed.

(** A transport failure or a non-2xx status is caught: [None], nothing
    stored, one request sent. *)
Lemma refresh_access_token_http_failure self user_sub rep now db_now w row :
  user_tokens (storage w) !! user_sub = Some row → t_refresh_token row ≠ "" →
  http_failure rep →
  refresh_access_token self user_sub rep now db_now w
  = (Ret None,
     mk_world (pkce_store w) (storage w)
       (sent w ++ [refresh_token_request self (t_refresh_token row)])).
Proof.
  intros Hrow Hrt Hfail. run_oauth. rewrite Hrow.
  rewrite (proj2 (truthy_true _) Hrt). simpl.
  destruct rep as [|status body]; simpl in *; [done|].
  rewrite bool_decide_eq_false_2 by done. done.
Qed.

(** A 2xx answer carrying an access token: the token is stored, with the
    refresh token the row already had, and returned. *)
Lemma refresh_access_token_success self user_sub status tokens access now
    db_now w row :
  user_tokens (storage w) !! user_sub = Some row → t_refresh_token row ≠ "" →
  is_success status → access_token tokens = Some access →
  refresh_access_token self user_sub (Response status (Some tokens)) now db_now w
  = (Ret (Some access),
     mk_world (pkce_store w)
       (set_user_tokens
          (insert user_sub
             (mk_user_tokens (t_user_email row) access (t_refresh_token row)
                (now + seconds (default 3600 (expires_in tokens))) db_now))
          (storage w))
       (sent w ++ [refresh_token_request self (t_refresh_token row)])).
Proof.
  intros Hrow Hrt Hok Hat. run_oauth. rewrite Hrow.
  rewrite (proj2 (truthy_true _) Hrt). simpl.
  rewrite bool_decide_eq_true_2 by done. simpl. rewrite Hat. done.
Qed.

(** A 2xx answer whose body is not JSON, or whose JSON has no
    [access_token], is neither caught nor stored: the exception leaves
    [refresh_access_token], the request having been sent. *)
Lemma refresh_access_token_not_json self user_sub status now db_now w row :
  user_tokens (storage w) !! user_sub = Some row → t_refresh_token row ≠ "" →
  is_success status →
  refresh_access_token self user_sub (Response status None) now db_now w
  = (Raise JSONDecodeError,
     mk_world (pkce_store w) (storage w)
       (sent w ++ [refresh_token_request self (t_refresh_token row)])).
Proof.
  intros Hrow Hrt Hok. run_oauth. rewrite Hrow.
  rewrite (proj2 (truthy_true _) Hrt). simpl.
  rewrite bool_decide_eq_true_2 by done. done.
Qed.

Lemma refresh_access_token_no_access_token self user_sub status tokens now
    db_now w row :
  user_tokens (storage w) !! user_sub = Some row → t_refresh_token row ≠ "" →
  is_success status → access_token tokens = None →
  refresh_access_token self user_sub (Response status (Some tokens)) now db_now w
  = (Raise (KeyError "access_token"),
     mk_world (pkce_store w) (storage w)
       (sent w ++ [refresh_token_request self (t_refresh_token row)])).
Proof.
  intros Hrow Hrt Hok Hat. run_oauth. rewrite Hrow.
  rewrite (proj2 (truthy_true _) Hrt). simpl.
  rewrite bool_decide_eq_true_2 by done. simpl. by rewrite Hat.
Qed.

(** With a stored refresh token, a 200 answer whose JSON has no
    [access_token], or whose body is not JSON, makes [refresh_access_token]
    raise. *)
Lemma refresh_access_token_raises_on_bad_answer :
  (refresh_access_token Sample.oauth_mgr "u1"
     (Response 200 (Some (mk_token_json None None None))) 0 0
     (Sample.world_of Sample.token_db)).1
  = Raise (KeyError "access_token")
  ∧ (refresh_access_token Sample.oauth_mgr "u1" (Response 200 None) 0 0
       (Sample.world_of Sample.token_db)).1
    = Raise JSONDecodeError.
Proof. split; reflexivity. Qed.

(** C7, as the code has it.  [refresh_access_token] returns [None], sending
    nothing, when the user has no token row or the row has no refresh token;
    it returns [None], storing nothing, when the token endpoint gives no
    response or a non-2xx status.  It does raise: a 2xx answer whose body is
    not JSON, or whose JSON has no [access_token], leaves it as an
    exception. *)
Theorem refresh_access_token_failures self (user_sub : string)
    (rep : reply token_json) (now db_now : Z) w :
  (user_tokens (storage w) !! user_sub = None →
   refresh_access_token self user_sub rep now db_now w = (Ret None, w))
  ∧ (∀ row, user_tokens (storage w) !! user_sub = Some row →
       t_refresh_token row = "" →
       refresh_access_token self user_sub rep now db_now w = (Ret None, w))
  ∧ (∀ row, user_tokens (storage w) !! user_sub = Some row →
       t_refresh_token row ≠ "" → http_failure rep →
       refresh_access_token self user_sub rep now db_now w
       = (Ret None,
          mk_world (pkce_store w) (storage w)
            (sent w ++ [refresh_token_request self (t_refresh_token row)])))
  ∧ (∀ row status body,
       user_tokens (storage w) !! user_sub = Some row →
       t_refresh_token row ≠ "" →
       rep = Response status body → is_success status →
       (body = None →
        (refresh_access_token self user_sub rep now db_now w).1
        = Raise JSONDecodeError)
       ∧ (∀ tokens, body = Some tokens → access_token tokens = None →
          (refresh_access_token self user_sub rep now db_now w).1
          = Raise (KeyError "access_token"))).
Proof.
  split; [|split; [|split]].
  - apply refresh_access_token_no_record.
  - intros row. apply refresh_access_token_no_refresh_token.
  - intros row. apply refresh_access_token_http_failure.
  - intros row status body Hrow Hrt -> Hok. split.
    + intros ->. by erewrite refresh_access_token_not_json.
    + intros tokens -> Hat. by erewrite refresh_access_token_no_access_token.
Qed.

Lemma refresh_access_token_failures_witness :
  refresh_access_token Sample.oauth_mgr "unknown_user" NoResponse 0 0
    (Sample.world_of Sample.token_db)
  = (Ret None, Sample.world_of Sample.token_db)
  ∧ refresh_access_token Sample.oauth_mgr "u1" (Response 503 None) 0 0
      (Sample.world_of Sample.token_db)
    = (Ret None,
       mk_world ∅ Sample.token_db
         [refresh_token_request Sample.oauth_mgr "rt-1"]).
Proof.
  split.
  - destruct (refresh_access_token_failures Sample.oauth_mgr "unknown_user"
                NoResponse 0 0 (Sample.world_of Sample.token_db)) as (H & _).
    apply H. reflexivity.
  - destruct (refresh_access_token_failures Sample.oauth_mgr "u1"
                (Response 503 None) 0 0 (Sample.world_of Sample.token_db))
      as (_ & _ & H & _).
    apply (H Sample.token_row); [reflexivity|discriminate|].
    simpl. unfold is_success. lia.
Defined.

(** ** [get_valid_access_token] *)

(** At the margin, a 200 answer to the refresh that is not JSON, or whose
    JSON has no [access_token], makes [get_valid_access_token] raise: it
    returns neither a token nor [None]. *)
Lemma get_valid_access_token_raises_on_bad_answer :
  (get_valid_access_token Sample.oauth_mgr "u1" (seconds 700)
     (Response 200 None) (seconds 700) 0 (Sample.world_of Sample.token_db)).1
  = Raise JSONDecodeError
  ∧ (get_valid_access_token Sample.oauth_mgr "u1" (seconds 700)
       (Response 200 (Some (mk_token_json None None None))) (seconds 700) 0
       (Sample.world_of Sample.token_db)).1
    = Raise (KeyError "access_token").
Proof. split; reflexivity. Qed.

(** C6, as the code has it.  With a token row stored for the user,
    [get_valid_access_token] returns the stored access token, sending and
    storing nothing, while [now < token_expires_at - 5 minutes]; from that
    instant on it is [refresh_access_token], whose answer it returns: the
    new token when the endpoint grants one, [None] when the row has no
    refresh token or the call fails with an HTTP error, and the exception
    of a 2xx answer that is not JSON or has no [access_token].  Without a
    row it returns [None]. *)
Theorem get_valid_access_token_margin self (user_sub : string) (now : Z)
    (rep : reply token_json) (refresh_now db_now : Z) w :
  (∀ row, user_tokens (storage w) !! user_sub = Some row →
     now < t_token_expires_at row - minutes 5 →
     get_valid_access_token self user_sub now rep refresh_now db_now w
     = (Ret (Some (t_access_token row)), w))
  ∧ (∀ row, user_tokens (storage w) !! user_sub = Some row →
       now >= t_token_expires_at row - minutes 5 →
       get_valid_access_token self user_sub now rep refresh_now db_now w
       = refresh_access_token self user_sub rep refresh_now db_now w
       ∧ (∀ status tokens access,
            rep = Response status (Some tokens) → is_success status →
            access_token tokens = Some access → t_refresh_token row ≠ "" →
            (get_valid_access_token self user_sub now rep refresh_now db_now w).1
            = Ret (Some access))
       ∧ (http_failure rep →
          (get_valid_access_token self user_sub now rep refresh_now db_now w).1
          = Ret None)
       ∧ (t_refresh_token row = "" →
          get_valid_access_token self user_sub now rep refresh_now db_now w
          = (Ret None, w))
       ∧ (∀ status, rep = Response status None → is_success status →
          t_refresh_token row ≠ "" →
          (get_valid_access_token self user_sub now rep refresh_now db_now w).1
          = Raise JSONDecodeError)
       ∧ (∀ status tokens,
            rep = Response status (Some tokens) → is_success status →
            access_token tokens = None → t_refresh_token row ≠ "" →
            (get_valid_access_token self user_sub now rep refresh_now db_now w).1
            = Raise (KeyError "access_token")))
  ∧ (user_tokens (storage w) !! user_sub = None →
     get_valid_access_token self user_sub now rep refresh_now db_now w
     = (Ret None, w)).
Proof.
  split; [|split].
  - intros row Hrow Hearly. run_oauth. rewrite Hrow.
    rewrite bool_decide_eq_false_2 by lia. by destruct w.
  - intros row Hrow Hlate.
    assert (get_valid_access_token self user_sub now rep refresh_now db_now w
            = refresh_access_token self user_sub rep refresh_now db_now w)
      as Heq.
    { unfold get_valid_access_token. unfold with_storage at 1.
      unfold get_user_tokens, _get_user_tokens_sync. run_M. rewrite Hrow.
      rewrite bool_decide_eq_true_2 by done. by destruct w. }
    split; [exact Heq|]. rewrite Heq. split; [|split; [|split; [|split]]].
    + intros status tokens access -> Hok Hat Hrt.
      by erewrite refresh_access_token_success.
    + intros Hfail.
      destruct (decide (t_refresh_token row = "")) as [Hrt|Hrt].
      * by erewrite refresh_access_token_no_refresh_token.
      * by erewrite refresh_access_token_http_failure.
    + intros Hrt. by apply (refresh_access_token_no_refresh_token _ _ _ _ _ _ row).
    + intros status -> Hok Hrt. by erewrite refresh_access_token_not_json.
    + intros status tokens -> Hok Hat Hrt.
      by erewrite refresh_access_token_no_access_token.
  - intros Hrow. run_oauth. rewrite Hrow. by destruct w.
Qed.

Lemma get_valid_access_token_margin_witness :
  get_valid_access_token Sample.oauth_mgr "u1" (seconds 699)
    (Response 200 (Some (mk_token_json (Some "at-2") None (Some 60)))) 0 0
    (Sample.world_of Sample.token_db)
  = (Ret (Some "at-1"), Sample.world_of Sample.token_db)
  ∧ (get_valid_access_token Sample.oauth_mgr "u1" (seconds 700)
       (Response 200 (Some (mk_token_json (Some "at-2") None (Some 60))))
       (seconds 700) 0 (Sample.world_of Sample.token_db)).1
    = Ret (Some "at-2")
  ∧ get_valid_access_token Sample.oauth_mgr "nobody" (seconds 700) NoResponse
      0 0 (Sample.world_of Sample.token_db)
    = (Ret None, Sample.world_of Sample.token_db).
Proof.
  split; [|split].
  - destruct (get_valid_access_token_margin Sample.oauth_mgr "u1" (seconds 699)
                (Response 200 (Some (mk_token_json (Some "at-2") None (Some 60))))
                0 0 (Sample.world_of Sample.token_db)) as (H & _ & _).
    apply (H Sample.token_row); reflexivity.
  - destruct (get_valid_access_token_margin Sample.oauth_mgr "u1" (seconds 700)
                (Response 200 (Some (mk_token_json (Some "at-2") None (Some 60))))
                (seconds 700) 0 (Sample.world_of Sample.token_db))
      as (_ & H & _).
    destruct (H Sample.token_row) as (_ & Hnew & _);
      [reflexivity|vm_compute; discriminate|].
    apply (Hnew 200 (mk_token_json (Some "at-2") None (Some 60)) "at-2");
      [reflexivity|unfold is_success; lia|reflexivity|discriminate].
  - destruct (get_valid_access_token_margin Sample.oauth_mgr "nobody"
                (seconds 700) NoResponse 0 0 (Sample.world_of Sample.token_db))
      as (_ & _ & H).
    apply H. reflexivity.
Defined.

(** ** [get_authorization_url] and [exchange_code] *)

(** The pair [generate_pkce] made is what [get_authorization_url] leaves
    under the state it hands out. *)
Lemma get_authorization_url_stores
    (urlencode : list (string * string) → string) self (state : string)
    (random_bytes : list byte) w :
  pkce_store (get_authorization_url urlencode self state random_bytes w).2
  !! state
  = Some (mk_pkce (generate_pkce random_bytes).1 (generate_pkce random_bytes).2).
Proof.
  unfold get_authorization_url.
  destruct (generate_pkce random_bytes) as [verifier challenge].
  run_M. apply lookup_insert_eq.
Qed.

Lemma exchange_code_unknown_state self (code state : string)
    (token_reply : reply token_json) (userinfo_reply : reply userinfo_json)
    (now db_now : Z) w :
  pkce_store w !! state = None →
  exchange_code self code state token_reply userinfo_reply now db_now w
  = (Raise (ValueError "Invalid state or PKCE data not found"), w).
Proof. intros Hstate. run_oauth. by rewrite Hstate. Qed.



End OAuthFacts.

Section WorkerFacts.
Import Storage Workers.

(** A thread that is left alone for its two statements does what
    [_use_exchange_code_sync] does in one go. *)
Lemma run_alone (code : string) (t_select t_update : Z) (d : db) :
  run [(0%nat, t_select); (0%nat, t_update)] [Called code] d
  = let '(r, d') := _use_exchange_code_sync code t_update d in
    ([Returned (match r with Ret v => v | Raise _ => None end)], d').
Proof.
  unfold _use_exchange_code_sync. run_M.
  destruct (exchange_codes d !! code) as [row|]; simpl; [|done].
  destruct (x_used row); simpl; [done|].
  case_bool_decide; simpl; done.
Qed.

(** Two threads whose SELECTs both run before either UPDATE: both read
    [used = 0], and both return the user. *)
Lemma run_interleaved (code : string) (row : ExchangeCodeRecord)
    (t1 t2 t3 t4 : Z) (d : db) :
  exchange_codes d !! code = Some row → x_used row = false →
  t3 ≤ x_expires_at row → t4 ≤ x_expires_at row →
  run [(0%nat, t1); (1%nat, t2); (0%nat, t3); (1%nat, t4)]
    [Called code; Called code] d
  = ([Returned (Some (x_user_sub row)); Returned (Some (x_user_sub row))],
     set_exchange_codes (alter mark_used code)
       (set_exchange_codes (alter mark_used code) d)).
Proof.
  intros Hrow Hunused H3 H4. simpl. rewrite Hrow. simpl. rewrite Hunused.
  rewrite !bool_decide_eq_false_2 by lia. done.
Qed.

(** C2, at a failing schedule.  Two redemptions of the unused, unexpired
    code ["c1"] run on two threads; each thread executes its SELECT before
    the other's UPDATE.  Both return the user ["u1"], so both callers go on
    to mint a credential, where the property allows one. *)
Theorem concurrent_redeemers_both_succeed :
  run [(0%nat, 50); (1%nat, 50); (0%nat, 60); (1%nat, 60)]
    [Called "c1"; Called "c1"] Sample.code_db
  = ([Returned (Some "u1"); Returned (Some "u1")],
     mk_db ∅ ∅ {[ "c1" := mark_used Sample.code_row ]})
  ∧ (∀ t, run [(0%nat, 50); (0%nat, 50); (1%nat, t); (1%nat, t)]
            [Called "c1"; Called "c1"] Sample.code_db
          = ([Returned (Some "u1"); Returned None],
             mk_db ∅ ∅ {[ "c1" := mark_used Sample.code_row ]})).
Proof.
  split.
  - rewrite (run_interleaved "c1" Sample.code_row);
      [reflexivity|reflexivity|reflexivity|simpl; lia|simpl; lia].
  - intros t. reflexivity.
Qed.

End WorkerFacts.

Section Base64Facts.
Import Base64.

Local Open Scope N_scope.

Local Abbreviation tb a k := (N.testbit (to_N a) k).

(** Lists of bytes, three at a time. *)
Lemma list_ind3 {A} (P : list A → Prop) :
  P [] → (∀ a, P [a]) → (∀ a b, P [a; b]) →
  (∀ a b c l, P l → P (a :: b :: c :: l)) →
  ∀ l, P l.
Proof.
  intros H0 H1 H2 H3.
  assert (∀ l, P l ∧ (∀ a, P (a :: l)) ∧ (∀ a b, P (a :: b :: l))) as H;
    [|intros l; apply H].
  induction l as [|c l (IH0 & IH1 & IH2)]; [by auto|].
  repeat split; auto.
Qed.

(** ** Bits of one byte against the shifts and masks of the encoder *)

Lemma byte_fields (a : byte) :
  bits_value [tb a 7; tb a 6; tb a 5; tb a 4; tb a 3; tb a 2] = N.shiftr (to_N a) 2
  ∧ bits_value [tb a 1; tb a 0] = N.land (to_N a) 3
  ∧ bits_value [tb a 7; tb a 6; tb a 5; tb a 4] = N.shiftr (to_N a) 4
  ∧ bits_value [tb a 3; tb a 2; tb a 1; tb a 0] = N.land (to_N a) 15
  ∧ bits_value [tb a 7; tb a 6] = N.shiftr (to_N a) 6
  ∧ bits_value [tb a 5; tb a 4; tb a 3; tb a 2; tb a 1; tb a 0] = N.land (to_N a) 63
  ∧ N.land (to_N a) 3 < 4 ∧ N.shiftr (to_N a) 4 < 16
  ∧ N.land (to_N a) 15 < 16 ∧ N.shiftr (to_N a) 6 < 4.
Proof. destruct a; vm_compute; repeat split; reflexivity. Qed.

Lemma bits_value_2_4 (p q r s t u : bool) :
  bits_value [p; q; r; s; t; u] = 16 * bits_value [p; q] + bits_value [r; s; t; u].
Proof. by destruct p, q, r, s, t, u. Qed.

Lemma bits_value_4_2 (p q r s t u : bool) :
  bits_value [p; q; r; s; t; u] = 4 * bits_value [p; q; r; s] + bits_value [t; u].
Proof. by destruct p, q, r, s, t, u. Qed.

Lemma lor_shiftl_4 (u v : N) :
  u < 4 → v < 16 → N.lor (N.shiftl u 4) v = 16 * u + v.
Proof.
  intros Hu Hv.
  assert (u = 0 ∨ u = 1 ∨ u = 2 ∨ u = 3) as Hu' by lia.
  assert (v = 0 ∨ v = 1 ∨ v = 2 ∨ v = 3 ∨ v = 4 ∨ v = 5 ∨ v = 6 ∨ v = 7
          ∨ v = 8 ∨ v = 9 ∨ v = 10 ∨ v = 11 ∨ v = 12 ∨ v = 13 ∨ v = 14
          ∨ v = 15) as Hv' by lia.
  clear Hu Hv.
  destruct Hu' as [-> | [-> | [-> | ->]]];
    repeat (destruct Hv' as [->|Hv']; [reflexivity|]); by subst v.
Qed.

Lemma lor_shiftl_2 (u v : N) :
  u < 16 → v < 4 → N.lor (N.shiftl u 2) v = 4 * u + v.
Proof.
  intros Hu Hv.
  assert (v = 0 ∨ v = 1 ∨ v = 2 ∨ v = 3) as Hv' by lia.
  assert (u = 0 ∨ u = 1 ∨ u = 2 ∨ u = 3 ∨ u = 4 ∨ u = 5 ∨ u = 6 ∨ u = 7
          ∨ u = 8 ∨ u = 9 ∨ u = 10 ∨ u = 11 ∨ u = 12 ∨ u = 13 ∨ u = 14
          ∨ u = 15) as Hu' by lia.
  clear Hu Hv.
  destruct Hv' as [-> | [-> | [-> | ->]]];
    repeat (destruct Hu' as [->|Hu']; [reflexivity|]); by subst u.
Qed.

(** The four characters of a full group, and the last character of a short
    one, as the encoder computes them. *)
Lemma sextet_1 (a : byte) :
  bits_value [tb a 7; tb a 6; tb a 5; tb a 4; tb a 3; tb a 2] = N.shiftr (to_N a) 2.
Proof. apply byte_fields. Qed.

Lemma sextet_2 (a b : byte) :
  bits_value [tb a 1; tb a 0; tb b 7; tb b 6; tb b 5; tb b 4]
  = N.lor (N.shiftl (N.land (to_N a) 3) 4) (N.shiftr (to_N b) 4).
Proof.
  destruct (byte_fields a) as (_ & Ha & _ & _ & _ & _ & Ha' & _).
  destruct (byte_fields b) as (_ & _ & Hb & _ & _ & _ & _ & Hb' & _).
  rewrite bits_value_2_4, Ha, Hb. symmetry. by apply lor_shiftl_4.
Qed.

Lemma sextet_3 (b c : byte) :
  bits_value [tb b 3; tb b 2; tb b 1; tb b 0; tb c 7; tb c 6]
  = N.lor (N.shiftl (N.land (to_N b) 15) 2) (N.shiftr (to_N c) 6).
Proof.
  destruct (byte_fields b) as (_ & _ & _ & Hb & _ & _ & _ & _ & Hb' & _).
  destruct (byte_fields c) as (_ & _ & _ & _ & Hc & _ & _ & _ & _ & Hc').
  rewrite bits_value_4_2, Hb, Hc. symmetry. by apply lor_shiftl_2.
Qed.

Lemma sextet_4 (c : byte) :
  bits_value [tb c 5; tb c 4; tb c 3; tb c 2; tb c 1; tb c 0] = N.land (to_N c) 63.
Proof. apply byte_fields. Qed.

Lemma sextet_2_tail (a : byte) :
  bits_value [tb a 1; tb a 0; false; false; false; false]
  = N.shiftl (N.land (to_N a) 3) 4.
Proof. destruct a; reflexivity. Qed.

Lemma sextet_3_tail (b : byte) :
  bits_value [tb b 3; tb b 2; tb b 1; tb b 0; false; false]
  = N.shiftl (N.land (to_N b) 15) 2.
Proof. destruct b; reflexivity. Qed.

(** A group of six bits is never written as the padding character. *)
Lemma b64_char_bits (p q r s t u : bool) :
  b64_char (bits_value [p; q; r; s; t; u]) ≠ pad.
Proof. by destruct p, q, r, s, t, u. Qed.

(** ** The encoder against the bit-stream reading *)

(** The six-bit groups of one, two and three-or-more bytes. *)
Lemma sextets_1 (a : byte) :
  sextets (bitstream [a])
  = [ bits_value [tb a 7; tb a 6; tb a 5; tb a 4; tb a 3; tb a 2];
      bits_value [tb a 1; tb a 0; false; false; false; false] ].
Proof. reflexivity. Qed.

Lemma sextets_2 (a b : byte) :
  sextets (bitstream [a; b])
  = [ bits_value [tb a 7; tb a 6; tb a 5; tb a 4; tb a 3; tb a 2];
      bits_value [tb a 1; tb a 0; tb b 7; tb b 6; tb b 5; tb b 4];
      bits_value [tb b 3; tb b 2; tb b 1; tb b 0; false; false] ].
Proof. reflexivity. Qed.

Lemma sextets_3 (a b c : byte) (l : list byte) :
  sextets (bitstream (a :: b :: c :: l))
  = bits_value [tb a 7; tb a 6; tb a 5; tb a 4; tb a 3; tb a 2]
    :: bits_value [tb a 1; tb a 0; tb b 7; tb b 6; tb b 5; tb b 4]
    :: bits_value [tb b 3; tb b 2; tb b 1; tb b 0; tb c 7; tb c 6]
    :: bits_value [tb c 5; tb c 4; tb c 3; tb c 2; tb c 1; tb c 0]
    :: sextets (bitstream l).
Proof. reflexivity. Qed.

Lemma urlsafe_b64encode_3 (a b c : byte) (l : list byte) :
  urlsafe_b64encode (a :: b :: c :: l)
  = b64_char (N.shiftr (to_N a) 2)
    :: b64_char (N.lor (N.shiftl (N.land (to_N a) 3) 4) (N.shiftr (to_N b) 4))
    :: b64_char (N.lor (N.shiftl (N.land (to_N b) 15) 2) (N.shiftr (to_N c) 6))
    :: b64_char (N.land (to_N c) 63)
    :: urlsafe_b64encode l.
Proof. reflexivity. Qed.

Lemma pad_count_3 (n : nat) : pad_count (S (S (S n))) = pad_count n.
Proof.
  unfold pad_count.
  replace (S (S (S n))) with (n + 1 * 3)%nat by lia.
  by rewrite Nat.Div0.mod_add.
Qed.

(** [urlsafe_b64encode] writes the six-bit groups of the bit stream, then
    the padding. *)
Lemma urlsafe_b64encode_sextets (bs : list byte) :
  urlsafe_b64encode bs
  = (map b64_char (sextets (bitstream bs))
     ++ replicate (pad_count (length bs)) pad)%list.
Proof.
  induction bs as [|a|a b|a b c l IH] using list_ind3.
  - reflexivity.
  - rewrite sextets_1, sextet_1, sextet_2_tail. reflexivity.
  - rewrite sextets_2, sextet_1, sextet_2, sextet_3_tail. reflexivity.
  - rewrite urlsafe_b64encode_3, IH, sextets_3.
    rewrite sextet_1, sextet_2, sextet_3, sextet_4.
    cbn [length]. rewrite pad_count_3. reflexivity.
Qed.

Lemma sextets_never_pad (bs : list byte) :
  Forall (fun c => c ≠ pad) (map b64_char (sextets (bitstream bs))).
Proof.
  induction bs as [|a|a b|a b c l IH] using list_ind3.
  - constructor.
  - rewrite sextets_1. cbn [map]. repeat constructor; apply b64_char_bits.
  - rewrite sextets_2. cbn [map]. repeat constructor; apply b64_char_bits.
  - rewrite sextets_3. cbn [map].
    repeat (constructor; [apply b64_char_bits|]). exact IH.
Qed.

Lemma sextets_length (bs : list byte) :
  length (sextets (bitstream bs)) = ((4 * length bs + 2) / 3)%nat.
Proof.
  induction bs as [|a|a b|a b c l IH] using list_ind3; try reflexivity.
  rewrite sextets_3. cbn [length]. rewrite IH.
  replace (4 * S (S (S (length l))) + 2)%nat
    with (4 * 3 + (4 * length l + 2))%nat by lia.
  rewrite Nat.div_add_l by lia. lia.
Qed.

(** ** Stripping the padding *)

Lemma ascii_of_byte_pad (a : byte) : a ≠ pad → Ascii.eqb (ascii_of_byte a) "=" = false.
Proof.
  intros Ha. apply Ascii.eqb_neq. intros Heq. apply Ha.
  rewrite <- (byte_of_ascii_of_byte a), Heq. reflexivity.
Qed.

Lemma rstrip_String (c a : ascii) (s : string) :
  rstrip c (String a s)
  = match rstrip c s with
    | EmptyString => if Ascii.eqb a c then EmptyString else String a EmptyString
    | r => String a r
    end.
Proof. reflexivity. Qed.

Lemma string_of_list_byte_cons (a : byte) (xs : list byte) :
  string_of_list_byte (a :: xs) = String (ascii_of_byte a) (string_of_list_byte xs).
Proof. reflexivity. Qed.

Lemma rstrip_padding (k : nat) :
  rstrip "=" (string_of_list_byte (replicate k pad)) = EmptyString.
Proof.
  induction k as [|k IH]; [done|].
  cbn [replicate]. rewrite string_of_list_byte_cons, rstrip_String, IH.
  reflexivity.
Qed.

Lemma rstrip_padded (xs : list byte) (k : nat) :
  Forall (fun c => c ≠ pad) xs →
  rstrip "=" (string_of_list_byte (xs ++ replicate k pad)) = string_of_list_byte xs.
Proof.
  induction 1 as [|a xs Ha _ IH]; [apply rstrip_padding|].
  rewrite <- app_comm_cons, !string_of_list_byte_cons, rstrip_String, IH.
  rewrite (ascii_of_byte_pad a Ha).
  by destruct (string_of_list_byte xs).
Qed.

Lemma string_of_list_byte_length (xs : list byte) :
  String.length (string_of_list_byte xs) = length xs.
Proof.
  induction xs as [|a xs IH]; [done|].
  rewrite string_of_list_byte_cons. cbn [String.length length]. by rewrite IH.
Qed.

(** What the source computes, [urlsafe_b64encode] and then [rstrip('=')], is
    the unpadded encoding of the specification. *)
Lemma rstrip_urlsafe_b64encode (bs : list byte) :
  rstrip "=" (decode_utf8 (urlsafe_b64encode bs)) = base64url_nopad bs.
Proof.
  unfold decode_utf8, base64url_nopad. rewrite urlsafe_b64encode_sextets.
  apply rstrip_padded, sextets_never_pad.
Qed.

Lemma base64url_nopad_length (bs : list byte) :
  String.length (base64url_nopad bs) = ((4 * length bs + 2) / 3)%nat.
Proof.
  unfold base64url_nopad.
  by rewrite string_of_list_byte_length, length_map, sextets_length.
Qed.

(** ** Known answers *)

Example urlsafe_b64encode_Man :
  decode_utf8 (urlsafe_b64encode (encode_utf8 "Man")) = "TWFu"
  ∧ decode_utf8 (urlsafe_b64encode (encode_utf8 "Ma")) = "TWE="
  ∧ decode_utf8 (urlsafe_b64encode (encode_utf8 "M")) = "TQ=="
  ∧ decode_utf8 (urlsafe_b64encode [xfb; xff]) = "-_8=".
Proof. repeat split. Qed.

Example sha256_constants :
  length Hashlib.K = 64%nat
  ∧ take 2 Hashlib.K = [0x428a2f98; 0x71374491]%N
  ∧ last Hashlib.K = Some 0xc67178f2%N
  ∧ take 2 Hashlib.H0 = [0x6a09e667; 0xbb67ae85]%N.
Proof. vm_compute. repeat split. Qed.

Example sha256_abc :
  to_N <$> Hashlib.sha256 (encode_utf8 "abc")
  = [ 0xba; 0x78; 0x16; 0xbf; 0x8f; 0x01; 0xcf; 0xea; 0x41; 0x41; 0x40; 0xde;
      0x5d; 0xae; 0x22; 0x23; 0xb0; 0x03; 0x61; 0xa3; 0x96; 0x17; 0x7a; 0x9c;
      0xb4; 0x10; 0xff; 0x61; 0xf2; 0x00; 0x15; 0xad ].
Proof. vm_compute. reflexivity. Qed.

(** ** The digest is 32 bytes long *)

Lemma round_length (s : list N) (kw : N * N) :
  length (Hashlib.round s kw) = length s.
Proof.
  unfold Hashlib.round.
  do 8 (destruct s as [|? s]; [reflexivity|]). by destruct s.
Qed.

Lemma fold_round_length (kws : list (N * N)) (s : list N) :
  length (fold_left Hashlib.round kws s) = length s.
Proof.
  revert s. induction kws as [|kw kws IH]; intros s; [done|].
  cbn [fold_left]. by rewrite IH, round_length.
Qed.

Lemma compress_length (h block : list N) :
  length (Hashlib.compress h block) = length h.
Proof.
  unfold Hashlib.compress. rewrite length_zip_with, fold_round_length. lia.
Qed.

Lemma blocks_length (n : nat) (words h : list N) :
  length (Hashlib.blocks n words h) = length h.
Proof.
  revert words h. induction n as [|n IH]; intros words h; [done|].
  cbn [Hashlib.blocks]. by rewrite IH, compress_length.
Qed.

Lemma sha256_length (data : list byte) :
  length (Hashlib.sha256 data) = 32%nat.
Proof.
  unfold Hashlib.sha256. rewrite length_fmap.
  match goal with |- context [Hashlib.blocks ?n ?ws Hashlib.H0] =>
    pose proof (blocks_length n ws Hashlib.H0) as Hlen;
    destruct (Hashlib.blocks n ws Hashlib.H0) as [|? h]
  end; [done|].
  do 7 (destruct h as [|? h]; [done|]). by destruct h.
Qed.

(** C8.  For the pair [generate_pkce] makes from 32 random bytes, the
    challenge is the unpadded base64url encoding of the SHA-256 digest of
    the verifier, and the verifier is between 43 and 128 characters long (it
    is 43 long). *)
Theorem generate_pkce_pair (random_bytes : list byte) :
  length random_bytes = 32%nat →
  let '(code_verifier, code_challenge) :=
    OAuthManager.generate_pkce random_bytes in
  code_challenge = base64url_nopad (Hashlib.sha256 (encode_utf8 code_verifier))
  ∧ (43 ≤ String.length code_verifier ∧ String.length code_verifier ≤ 128)%nat.
Proof.
  intros Hlen. unfold OAuthManager.generate_pkce.
  rewrite !rstrip_urlsafe_b64encode. split; [reflexivity|].
  rewrite base64url_nopad_length, Hlen.
  change ((4 * 32 + 2) / 3)%nat with 43%nat. lia.
Qed.

(** The challenge is 43 characters long as well. *)
Lemma generate_pkce_challenge_length (random_bytes : list byte) :
  String.length (OAuthManager.generate_pkce random_bytes).2 = 43%nat.
Proof.
  unfold OAuthManager.generate_pkce. cbn [snd].
  by rewrite rstrip_urlsafe_b64encode, base64url_nopad_length, sha256_length.
Qed.

(** The pair of RFC 7636, appendix B. *)
Lemma generate_pkce_pair_witness :
  OAuthManager.generate_pkce Sample.rfc7636_bytes
  = ("dBjftJeZ4CVP-mB92K27uhbUJU1p1r_wW1gFWFOEjXk",
     "E9Melhoa2OwvFrEMTJguCHaoeK1t8URWbuGJSstw-cM")
  ∧ let '(code_verifier, code_challenge) :=
      OAuthManager.generate_pkce Sample.rfc7636_bytes in
    code_challenge = base64url_nopad (Hashlib.sha256 (encode_utf8 code_verifier))
    ∧ (43 ≤ String.length code_verifier ∧ String.length code_verifier ≤ 128)%nat.
Proof.
  split; [vm_compute; reflexivity|].
  apply (generate_pkce_pair Sample.rfc7636_bytes). reflexivity.
Defined.

End Base64Facts.

(* ===================================================================== *)
(** * Further properties: the storage layer *)
(* ===================================================================== *)

Section StorageRoundTrips.
Import Storage.

Implicit Types (d : db).

(** After [save_session], [get_session] returns the row that was
    saved, not revoked, whatever row the [jti] had before (a revoked one
    included: INSERT OR REPLACE starts the row afresh); the other sessions
    and the other tables are as they were. *)
Theorem save_session_then_get (jti user_sub user_email : string)
    (expires_at db_now : Z) d :
  let row := mk_session user_sub user_email expires_at db_now false in
  let d' := (save_session jti user_sub user_email expires_at db_now d).2 in
  get_session jti d' = (Ret (Some row), d')
  ∧ sessions d' = <[jti := row]> (sessions d)
  ∧ delete jti (sessions d') = delete jti (sessions d)
  ∧ user_tokens d' = user_tokens d
  ∧ exchange_codes d' = exchange_codes d.
Proof.
  unfold save_session, _save_session_sync, get_session, _get_session_sync.
  run_M. rewrite lookup_insert_eq. simpl.
  repeat split; try reflexivity. apply delete_insert_eq.
Qed.

Lemma mark_revoked_twice (jti : string) d :
  set_sessions (alter mark_revoked jti) (set_sessions (alter mark_revoked jti) d)
  = set_sessions (alter mark_revoked jti) d.
Proof.
  destruct d as [ss ts xs]. unfold set_sessions. simpl. f_equal.
  apply map_eq. intros j. destruct (decide (jti = j)) as [<-|Hne].
  - rewrite !lookup_alter_eq. by destruct (ss !! jti).
  - by rewrite !lookup_alter_ne.
Qed.

Lemma mark_revoked_absent (jti : string) d :
  sessions d !! jti = None → set_sessions (alter mark_revoked jti) d = d.
Proof.
  destruct d as [ss ts xs]. unfold set_sessions. simpl. intros Hnone. f_equal.
  apply map_eq. intros j. destruct (decide (jti = j)) as [<-|Hne].
  - by rewrite lookup_alter_eq, Hnone.
  - by rewrite lookup_alter_ne.
Qed.

(** [revoke_session] at the storage layer is idempotent, leaves a
    database without that [jti] exactly as it is, and otherwise changes the
    [revoked] flag of that one row and nothing else. *)
Theorem storage_revoke_session_idempotent (jti : string) d :
  let d' := (revoke_session jti d).2 in
  (revoke_session jti d').2 = d'
  ∧ (sessions d !! jti = None → d' = d)
  ∧ (∀ row, sessions d !! jti = Some row →
       sessions d' = <[jti := mark_revoked row]> (sessions d))
  ∧ user_tokens d' = user_tokens d
  ∧ exchange_codes d' = exchange_codes d.
Proof.
  unfold revoke_session, _revoke_session_sync. run_M.
  split; [apply mark_revoked_twice|]. split; [apply mark_revoked_absent|].
  split; [|done].
  intros row Hrow. apply map_eq. intros j.
  destruct (decide (jti = j)) as [<-|Hne].
  - by rewrite lookup_alter_eq, lookup_insert_eq, Hrow.
  - by rewrite lookup_alter_ne, lookup_insert_ne.
Qed.

Lemma storage_revoke_session_idempotent_witness :
  (revoke_session "j9" Sample.issued_db).2 = Sample.issued_db
  ∧ sessions (revoke_session "j1" Sample.issued_db).2
    = {[ "j1" := mk_session "u1" "e@x.com" (hours 24) 0 true ]}.
Proof.
  destruct (storage_revoke_session_idempotent "j9" Sample.issued_db)
    as (_ & Hnone & _).
  destruct (storage_revoke_session_idempotent "j1" Sample.issued_db)
    as (_ & _ & Hrow & _).
  split.
  - apply Hnone. reflexivity.
  - rewrite (Hrow (mk_session "u1" "e@x.com" (hours 24) 0 false)); reflexivity.
Defined.

(** [save_user_tokens] is an upsert: [get_user_tokens] then returns
    the tokens last saved for that user, a second save replaces the first
    altogether, and no other user's row and no other table changes. *)
Theorem save_user_tokens_then_get (user_sub email1 access1 refresh1 email2
    access2 refresh2 : string) (expires1 db_now1 expires2 db_now2 : Z) d :
  let d1 := (save_user_tokens user_sub email1 access1 refresh1 expires1 db_now1 d).2 in
  let d2 := (save_user_tokens user_sub email2 access2 refresh2 expires2 db_now2 d1).2 in
  get_user_tokens user_sub d1
  = (Ret (Some (mk_user_tokens email1 access1 refresh1 expires1 db_now1)), d1)
  ∧ d2 = (save_user_tokens user_sub email2 access2 refresh2 expires2 db_now2 d).2
  ∧ delete user_sub (user_tokens d1) = delete user_sub (user_tokens d)
  ∧ sessions d1 = sessions d
  ∧ exchange_codes d1 = exchange_codes d.
Proof.
  unfold save_user_tokens, _save_user_tokens_sync, get_user_tokens,
    _get_user_tokens_sync.
  run_M. rewrite lookup_insert_eq. repeat split.
  - unfold set_user_tokens. simpl. f_equal. apply insert_insert_eq.
  - apply delete_insert_eq.
Qed.

(** X1.  [save_exchange_code] refuses a code that is already stored: it
    raises the integrity error and leaves the database as it is, so the
    user, the expiry and the [used] flag of an issued code cannot be
    overwritten.  A code not yet stored is inserted unused. *)
Theorem save_exchange_code_never_overwrites (code user_sub : string)
    (expires_at db_now : Z) d :
  (∀ row, exchange_codes d !! code = Some row →
     save_exchange_code code user_sub expires_at db_now d
     = (Raise IntegrityError, d))
  ∧ (exchange_codes d !! code = None →
     save_exchange_code code user_sub expires_at db_now d
     = (Ret tt,
        set_exchange_codes
          (insert code (mk_exchange_code user_sub expires_at false db_now)) d)).
Proof.
  unfold save_exchange_code, _save_exchange_code_sync. run_M.
  split; [intros row Hrow|intros Hrow]; by rewrite Hrow.
Qed.

Lemma save_exchange_code_never_overwrites_witness :
  save_exchange_code "c1" "mallory" 999 5 Sample.code_db
  = (Raise IntegrityError, Sample.code_db)
  ∧ save_exchange_code "c2" "u1" 999 5 Sample.code_db
    = (Ret tt,
       mk_db ∅ ∅ {[ "c1" := Sample.code_row;
                     "c2" := mk_exchange_code "u1" 999 false 5 ]}).
Proof.
  destruct (save_exchange_code_never_overwrites "c1" "mallory" 999 5
              Sample.code_db) as [Hdup _].
  destruct (save_exchange_code_never_overwrites "c2" "u1" 999 5
              Sample.code_db) as [_ Hnew].
  split.
  - apply (Hdup Sample.code_row). reflexivity.
  - rewrite Hnew; reflexivity.
Defined.

End StorageRoundTrips.

(* ===================================================================== *)
(** * Further properties: sessions and exchange codes *)
(* ===================================================================== *)

Section SessionLifecycle.
Import Storage SessionManager.

Implicit Types (self : SessionManager.t) (d : db) (tok : Jwt.token).

(** A live row past its [expires_at] fails the database check. *)
Lemma verify_session_row_expired self alg k body jti row jwt_now now d :
  Jwt.jti body = Some jti → sessions d !! jti = Some row →
  now > s_expires_at row →
  verify_session self (Jwt.Compact alg k body) jwt_now now d = (Ret None, d).
Proof.
  intros Hjti Hrow Hpast.
  unfold verify_session, get_session, _get_session_sync. run_M.
  destruct (Jwt.decode _ _ _ _) as [p|e] eqn:Hdec; simpl.
  - apply decode_Ret in Hdec. unfold Jwt.decode_signed in Hdec.
    repeat match type of Hdec with
           | (if ?b then _ else _) = _ => destruct b; [done|]
           end.
    injection Hdec as <-. rewrite Hjti.
    destruct (truthy jti); simpl; [|done].
    rewrite Hrow. destruct (s_revoked row); simpl; [done|].
    by rewrite bool_decide_eq_true_2.
  - apply decode_Raise in Hdec. by rewrite Hdec, orb_true_r.
Qed.

(** A credential whose [exp] second has come does not decode. *)
Lemma verify_session_exp_elapsed self alg k body e jwt_now now d :
  Jwt.exp body = Some e → seconds e ≤ jwt_now →
  verify_session self (Jwt.Compact alg k body) jwt_now now d = (Ret None, d).
Proof.
  intros He Hle. unfold verify_session. run_M.
  destruct (Jwt.decode _ _ _ _) as [p|err] eqn:Hdec; simpl.
  - exfalso. unfold Jwt.decode in Hdec.
    destruct (Jwt.decode_signed _ _ _) as [b|] eqn:Hsig; [|done].
    unfold Jwt.decode_signed in Hsig.
    repeat match type of Hsig with
           | (if ?c then _ else _) = _ => destruct c; [done|]
           end.
    injection Hsig as <-.
    destruct (validate_claims_expired body jwt_now e He Hle) as [kind Hk].
    congruence.
  - apply decode_Raise in Hdec. by rewrite Hdec, orb_true_r.
Qed.

(** X2.  The credential [create_session] returns carries the subject and
    e-mail it was given and verifies from the moment it is issued until the
    whole second of its expiry; from that second on, and whenever the
    database clock has passed the row's [expires_at], it does not. *)
Theorem fresh_session_validity_window self (user_sub user_email jti : string)
    (now db_now : Z) d :
  jti ≠ "" →
  let expires_at := now + hours (duration_hours self) in
  let claims :=
    Jwt.mk_claims (Some jti) (Some user_sub) (Some user_email)
      (Some (Jwt.timegm now)) (Some (Jwt.timegm expires_at)) in
  ∃ tok d1,
    create_session self user_sub user_email jti now db_now d = (Ret tok, d1)
    ∧ (∀ jwt_now now',
         now ≤ jwt_now → jwt_now < seconds (Jwt.timegm expires_at) →
         now' ≤ expires_at →
         verify_session self tok jwt_now now' d1 = (Ret (Some claims), d1))
    ∧ (∀ jwt_now now',
         seconds (Jwt.timegm expires_at) ≤ jwt_now →
         verify_session self tok jwt_now now' d1 = (Ret None, d1))
    ∧ (∀ jwt_now now',
         now' > expires_at →
         verify_session self tok jwt_now now' d1 = (Ret None, d1)).
Proof.
  intros Hjti expires_at claims. do 2 eexists. split; [reflexivity|].
  split; [|split].
  - intros jwt_now now' Hiat Hexp Hrow.
    destruct (create_session_verifies self user_sub user_email jti now db_now
                jwt_now now' d Hjti Hiat Hexp Hrow) as (tok & d1 & Hc & Hv).
    unfold create_session, save_session, _save_session_sync in Hc. run_M.
    injection Hc as <- <-. exact Hv.
  - intros jwt_now now' Hexp.
    eapply verify_session_exp_elapsed; [reflexivity|exact Hexp].
  - intros jwt_now now' Hpast.
    eapply verify_session_row_expired; [reflexivity| |].
    + simpl. apply lookup_insert_eq.
    + exact Hpast.
Qed.

Lemma fresh_session_validity_window_witness :
  verify_session Sample.sessions_mgr Sample.issued_token (hours 23) (hours 23)
    Sample.issued_db
  = (Ret (Some (Jwt.mk_claims (Some "j1") (Some "u1") (Some "e@x.com") (Some 0)
                  (Some 86400))), Sample.issued_db)
  ∧ verify_session Sample.sessions_mgr Sample.issued_token (hours 24) (hours 24)
      Sample.issued_db
    = (Ret None, Sample.issued_db).
Proof.
  destruct (fresh_session_validity_window Sample.sessions_mgr "u1" "e@x.com"
              "j1" 0 0 Sample.empty_db) as (tok & d1 & Hc & Hin & Hout & _);
    [discriminate|].
  injection Hc as <- <-. split.
  - apply Hin; vm_compute; congruence.
  - apply Hout. vm_compute. congruence.
Defined.

(** Claims that pass validation are neither expired nor immature. *)
Lemma validate_claims_bounds (c c' : Jwt.claims) (now : Z) :
  Jwt.validate_claims c now = Ret c' →
  (∀ e, Jwt.exp c = Some e → now < seconds e)
  ∧ (∀ i, Jwt.iat c = Some i → seconds i ≤ now).
Proof.
  unfold Jwt.validate_claims. intros Hv. split.
  - intros e He. rewrite He in Hv.
    destruct (match Jwt.iat c with Some _ => _ | None => _ end); [done|].
    case_bool_decide; [done|lia].
  - intros i Hi. rewrite Hi in Hv. case_bool_decide; [done|lia].
Qed.

(** X3.  When [verify_session] returns a claim set, the credential was
    signed with the manager's key under the manager's algorithm, the claim
    set is the one it carries, its [jti] is non-empty and names a stored row
    that is not revoked and not past [expires_at], and neither its [exp] has
    elapsed nor its [iat] lies ahead. *)
Theorem verify_session_sound self tok (jwt_now now : Z) d
    (payload : Jwt.claims) d' :
  verify_session self tok jwt_now now d = (Ret (Some payload), d') →
  d' = d
  ∧ tok = Jwt.Compact (algorithm self) (secret_key self) payload
  ∧ (∃ jti row,
       Jwt.jti payload = Some jti ∧ jti ≠ ""
       ∧ sessions d !! jti = Some row ∧ s_revoked row = false
       ∧ now ≤ s_expires_at row)
  ∧ (∀ e, Jwt.exp payload = Some e → jwt_now < seconds e)
  ∧ (∀ i, Jwt.iat payload = Some i → seconds i ≤ jwt_now).
Proof.
  unfold verify_session, get_session, _get_session_sync. run_M.
  destruct (Jwt.decode _ _ _ _) as [p|err] eqn:Hdec; simpl;
    [|by destruct (_ || _)].
  destruct (Jwt.jti p) as [j|] eqn:Hj; simpl; [|done].
  destruct (truthy j) eqn:Htruthy; simpl; [|done].
  destruct (sessions d !! j) as [row|] eqn:Hrow; simpl; [|done].
  destruct (s_revoked row) eqn:Hrev; simpl; [done|].
  case_bool_decide as Hpast; simpl; [done|].
  intros [= <- <-]. split; [reflexivity|].
  unfold Jwt.decode in Hdec.
  destruct (Jwt.decode_signed _ _ _) as [body|] eqn:Hsig; [|done].
  pose proof (validate_claims_Ret _ _ _ Hdec) as ->.
  apply validate_claims_bounds in Hdec as [Hexp Hiat].
  unfold Jwt.decode_signed in Hsig.
  destruct tok as [raw|alg k body']; [done|].
  case_bool_decide as Halg; simpl in Hsig; [|done].
  destruct (String.eqb k (secret_key self)) eqn:Hk; simpl in Hsig; [|done].
  injection Hsig as ->.
  apply String.eqb_eq in Hk. subst k.
  apply list_elem_of_singleton in Halg. subst alg.
  split; [reflexivity|]. split; [|by split].
  exists j, row. split; [exact Hj|]. split; [by apply truthy_true|].
  split; [exact Hrow|]. split; [exact Hrev|lia].
Qed.

Lemma verify_session_sound_witness :
  Sample.issued_token
  = Jwt.Compact "HS256" "signing-key"
      (Jwt.mk_claims (Some "j1") (Some "u1") (Some "e@x.com") (Some 0)
         (Some 86400))
  ∧ ∃ jti row,
      jti ≠ "" ∧ sessions Sample.issued_db !! jti = Some row
      ∧ s_revoked row = false ∧ hours 2 ≤ s_expires_at row.
Proof.
  destruct (verify_session_sound Sample.sessions_mgr Sample.issued_token
              (hours 2) (hours 2) Sample.issued_db
              (Jwt.mk_claims (Some "j1") (Some "u1") (Some "e@x.com") (Some 0)
                 (Some 86400)) Sample.issued_db)
    as (_ & Htok & (jti & row & _ & Hne & Hrow & Hrev & Hle) & _);
    [reflexivity|].
  split; [exact Htok|]. exists jti, row. auto.
Defined.

Lemma verify_session_returns self tok (jwt_now now : Z) d :
  ∃ answer, verify_session self tok jwt_now now d = (Ret answer, d).
Proof.
  unfold verify_session, get_session, _get_session_sync. run_M.
  destruct (Jwt.decode _ _ _ _) as [p|err] eqn:Hdec; simpl.
  - destruct (Jwt.jti p) as [j|]; simpl; [|by eexists].
    destruct (truthy j); simpl; [|by eexists].
    destruct (sessions d !! j) as [row|]; simpl; [|by eexists].
    destruct (s_revoked row); simpl; [by eexists|].
    case_bool_decide; by eexists.
  - apply decode_Raise in Hdec. rewrite Hdec, orb_true_r. by eexists.
Qed.

(** What verifies carries a [jti]. *)
Lemma verify_session_Some_jti self tok (jwt_now now : Z) d
    (payload : Jwt.claims) d' :
  verify_session self tok jwt_now now d = (Ret (Some payload), d') →
  is_Some (Jwt.jti payload).
Proof.
  unfold verify_session, get_session, _get_session_sync. run_M.
  destruct (Jwt.decode _ _ _ _) as [p|err] eqn:Hdec; simpl;
    [|by destruct (_ || _)].
  destruct (Jwt.jti p) as [j|] eqn:Hj; simpl; [|done].
  destruct (truthy j); simpl; [|done].
  destruct (sessions d !! j) as [row|]; simpl; [|done].
  destruct (s_revoked row); simpl; [done|].
  case_bool_decide; simpl; [done|].
  intros [= <- <-]. rewrite Hj. by eexists.
Qed.

(** X4.  [verify_session] never raises and never writes: for every
    credential, clock and database it returns, and the database is the one
    it was given. *)
Theorem verify_session_total_and_pure self tok (jwt_now now : Z) d :
  ∃ answer, verify_session self tok jwt_now now d = (Ret answer, d).
Proof. apply verify_session_returns. Qed.

(** X5.  [revoke_session] answers [True] for every credential that decodes
    with a non-empty [jti], whether or not a session row exists for it:
    with no row the database is left as it is, and revoking a second time
    changes nothing more. *)
Theorem revoke_session_unknown_and_twice self tok (revoke_now : Z) d
    (payload : Jwt.claims) (jti : string) :
  Jwt.decode tok (secret_key self) [algorithm self] revoke_now = Ret payload →
  Jwt.jti payload = Some jti → jti ≠ "" →
  (sessions d !! jti = None →
   revoke_session self tok revoke_now d = (Ret true, d))
  ∧ ∃ d1,
      revoke_session self tok revoke_now d = (Ret true, d1)
      ∧ revoke_session self tok revoke_now d1 = (Ret true, d1).
Proof.
  intros Hdec Hjti Hne. rewrite !revoke_session_eq, Hdec, Hjti.
  rewrite (proj2 (truthy_true jti) Hne).
  split.
  - intros Hrow. by rewrite (mark_revoked_absent jti d Hrow).
  - eexists. split; [reflexivity|].
    rewrite revoke_session_eq, Hdec, Hjti, (proj2 (truthy_true jti) Hne).
    by rewrite mark_revoked_twice.
Qed.

Lemma revoke_session_unknown_and_twice_witness :
  revoke_session Sample.sessions_mgr Sample.issued_token (hours 1)
    Sample.empty_db
  = (Ret true, Sample.empty_db).
Proof.
  destruct (revoke_session_unknown_and_twice Sample.sessions_mgr
              Sample.issued_token (hours 1) Sample.empty_db
              (Jwt.mk_claims (Some "j1") (Some "u1") (Some "e@x.com") (Some 0)
                 (Some 86400)) "j1") as [Hnone _];
    [reflexivity|reflexivity|discriminate|].
  apply Hnone. reflexivity.
Defined.

(** X6.  Sessions are revoked one by one: revoking a credential changes
    the answer of [verify_session] for no credential that carries another
    [jti], the same user's other sessions included. *)
Theorem revoke_session_spares_other_sessions self (revoked other : Jwt.token)
    (revoke_now jwt_now now : Z) d alg k (body : Jwt.claims) :
  other = Jwt.Compact alg k body →
  (∀ alg' k' body', revoked = Jwt.Compact alg' k' body' →
     Jwt.jti body' ≠ Jwt.jti body) →
  let d1 := (revoke_session self revoked revoke_now d).2 in
  (verify_session self other jwt_now now d1).1
  = (verify_session self other jwt_now now d).1.
Proof.
  intros -> Hdistinct d1. subst d1. rewrite revoke_session_eq.
  destruct (Jwt.decode revoked _ _ _) as [p|err] eqn:Hdec; [|done].
  destruct (Jwt.jti p) as [j|] eqn:Hj; [|done].
  destruct (truthy j); [|done]. simpl.
  apply decode_Ret in Hdec. unfold Jwt.decode_signed in Hdec.
  destruct revoked as [raw|alg' k' body']; [done|].
  repeat match type of Hdec with
         | (if ?c then _ else _) = _ => destruct c; [done|]
         end.
  injection Hdec as ->.
  specialize (Hdistinct alg' k' p eq_refl). rewrite Hj in Hdistinct.
  unfold verify_session, get_session, _get_session_sync. run_M.
  destruct (Jwt.decode (Jwt.Compact alg k body) _ _ _) as [q|err] eqn:Hdec';
    simpl; [|by destruct (_ || _)].
  apply decode_Ret in Hdec'. unfold Jwt.decode_signed in Hdec'.
  repeat match type of Hdec' with
         | (if ?c then _ else _) = _ => destruct c; [done|]
         end.
  injection Hdec' as <-.
  destruct (Jwt.jti body) as [j'|] eqn:Hj'; simpl; [|done].
  destruct (truthy j'); simpl; [|done].
  rewrite lookup_alter_ne by congruence.
  destruct (sessions d !! j') as [row|]; simpl; [|done].
  destruct (s_revoked row); simpl; [done|]. by case_bool_decide.
Qed.

Lemma revoke_session_spares_other_sessions_witness :
  let other :=
    Jwt.encode (Jwt.mk_payload "j2" "u1" "e@x.com" 0 (hours 24))
      "signing-key" "HS256" in
  let d := (save_session "j2" "u1" "e@x.com" (hours 24) 0 Sample.issued_db).2 in
  (verify_session Sample.sessions_mgr other (hours 2) (hours 2)
     (revoke_session Sample.sessions_mgr Sample.issued_token (hours 1) d).2).1
  = Ret (Some (Jwt.mk_claims (Some "j2") (Some "u1") (Some "e@x.com") (Some 0)
                 (Some 86400))).
Proof.
  intros other d.
  rewrite (revoke_session_spares_other_sessions Sample.sessions_mgr
             Sample.issued_token other (hours 1) (hours 2) (hours 2) d
             "HS256" "signing-key"
             (Jwt.mk_claims (Some "j2") (Some "u1") (Some "e@x.com") (Some 0)
                (Some 86400))).
  - reflexivity.
  - reflexivity.
  - intros alg' k' body' [= <- <- <-]. discriminate.
Defined.

(** X7.  A code from [create_exchange_code] is good for five minutes: the
    code returned is the one drawn and stored unused; redeemed at any time
    up to and including [now + 5 minutes] it yields a credential (for a
    non-empty [user_sub]); redeemed later it yields [None] and stays
    unused. *)
Theorem exchange_code_lifetime self (user_sub code : string) (now db_now : Z) d
    (use_now : Z) (jti : string) (session_now session_db_now : Z) :
  exchange_codes d !! code = None → user_sub ≠ "" →
  ∃ d1,
    create_exchange_code self user_sub code now db_now d = (Ret code, d1)
    ∧ exchange_codes d1 !! code
      = Some (mk_exchange_code user_sub (now + minutes 5) false db_now)
    ∧ (use_now ≤ now + minutes 5 →
       ∃ tok d2,
         exchange_code_for_session self code use_now jti session_now
           session_db_now d1 = (Ret (Some tok), d2)
         ∧ (∃ alg k body, tok = Jwt.Compact alg k body
                          ∧ Jwt.sub body = Some user_sub))
    ∧ (use_now > now + minutes 5 →
       exchange_code_for_session self code use_now jti session_now
         session_db_now d1 = (Ret None, d1)).
Proof.
  intros Hfresh Hsub.
  unfold create_exchange_code, save_exchange_code, _save_exchange_code_sync.
  run_M. rewrite Hfresh. simpl. eexists. split; [reflexivity|].
  set (row := mk_exchange_code user_sub (now + minutes 5) false db_now).
  set (d1 := set_exchange_codes (insert code row) d).
  assert (exchange_codes d1 !! code = Some row) as Hrow
    by apply lookup_insert_eq.
  split; [exact Hrow|]. split.
  - intros Hlive.
    unfold exchange_code_for_session. run_M.
    rewrite (use_exchange_code_valid code use_now d1 row Hrow eq_refl Hlive).
    simpl. rewrite (proj2 (truthy_true _) Hsub). simpl.
    do 2 eexists. split; [reflexivity|]. unfold Jwt.encode. by do 3 eexists.
  - intros Hlate. apply exchange_code_for_session_refused.
    by apply (use_exchange_code_expired code use_now d1 row).
Qed.

Lemma exchange_code_lifetime_witness :
  ∃ d1,
    create_exchange_code Sample.sessions_mgr "u1" "c7" 0 0 Sample.empty_db
    = (Ret "c7", d1)
    ∧ (∃ tok d2,
         exchange_code_for_session Sample.sessions_mgr "c7" (minutes 5) "j1"
           (minutes 5) 0 d1 = (Ret (Some tok), d2))
    ∧ exchange_code_for_session Sample.sessions_mgr "c7" (minutes 5 + 1) "j1"
        (minutes 5) 0 d1 = (Ret None, d1).
Proof.
  destruct (exchange_code_lifetime Sample.sessions_mgr "u1" "c7" 0 0
              Sample.empty_db (minutes 5) "j1" (minutes 5) 0)
    as (d1 & Hc & _ & Hin & _); [reflexivity|discriminate|].
  destruct (exchange_code_lifetime Sample.sessions_mgr "u1" "c7" 0 0
              Sample.empty_db (minutes 5 + 1) "j1" (minutes 5) 0)
    as (d1' & Hc' & _ & _ & Hout); [reflexivity|discriminate|].
  assert (d1' = d1) as -> by congruence.
  exists d1. split; [exact Hc|]. split.
  - destruct Hin as (tok & d2 & Hredeem & _); [vm_compute; congruence|].
    by exists tok, d2.
  - apply Hout. reflexivity.
Defined.

(** [create_exchange_code] does not reissue a code: when the drawn
    code is already stored -- used or not -- it raises the storage layer's
    integrity error and the stored code keeps its user, expiry and [used]
    flag. *)
Theorem create_exchange_code_collision self (user_sub code : string)
    (now db_now : Z) d (row : ExchangeCodeRecord) :
  exchange_codes d !! code = Some row →
  create_exchange_code self user_sub code now db_now d
  = (Raise IntegrityError, d).
Proof.
  intros Hrow.
  unfold create_exchange_code, save_exchange_code, _save_exchange_code_sync.
  run_M. by rewrite Hrow.
Qed.

Lemma create_exchange_code_collision_witness :
  create_exchange_code Sample.sessions_mgr "mallory" "c1" 500 500
    Sample.code_db
  = (Raise IntegrityError, Sample.code_db).
Proof.
  apply (create_exchange_code_collision Sample.sessions_mgr "mallory" "c1" 500
           500 Sample.code_db Sample.code_row).
  reflexivity.
Defined.

End SessionLifecycle.


(* ===================================================================== *)
(** * Further properties: the authorization flow *)
(* ===================================================================== *)

Section OAuthLifecycle.
Import Storage OAuthManager.

Implicit Types (self : OAuthManager.t) (w : world).

Ltac run_flow :=
  unfold exchange_code, refresh_access_token, get_valid_access_token,
    _get_userinfo, send, raise_for_status, json, getitem, with_storage,
    get_user_tokens, _get_user_tokens_sync, save_user_tokens,
    _save_user_tokens_sync in *;
  run_M.

(** The world a successful [exchange_code] leaves, and what it returns. *)
Lemma exchange_code_success self (code state : string) (pkce_data : PkceData)
    (status : Z) (tokens : token_json) (access : string) (status' : Z)
    (userinfo : userinfo_json) (sub : string) (now db_now : Z) w :
  pkce_store w !! state = Some pkce_data →
  is_success status → access_token tokens = Some access →
  is_success status' → ui_sub userinfo = Some sub →
  exchange_code self code state (Response status (Some tokens))
    (Response status' (Some userinfo)) now db_now w
  = (Ret {| user_sub := sub;
            user_email := default "" (ui_email userinfo);
            user_name := default "" (ui_name userinfo);
            tokens := tokens |},
     mk_world (delete state (pkce_store w))
       (set_user_tokens
          (insert sub
             (mk_user_tokens (default "" (ui_email userinfo)) access
                (default "" (refresh_token tokens))
                (now + seconds (default 3600 (expires_in tokens))) db_now))
          (storage w))
       (sent w
        ++ [ authorization_code_request self code (code_verifier pkce_data);
             Get (userinfo_endpoint self)
               [("Authorization", "Bearer " +:+ access)] ])).
Proof.
  intros Hstate Hok Hat Hok' Hsub. run_flow. rewrite Hstate. simpl.
  rewrite bool_decide_eq_true_2 by done. simpl. rewrite Hat. simpl.
  rewrite bool_decide_eq_true_2 by done. simpl. rewrite Hsub. simpl.
  by rewrite <- app_assoc.
Qed.

(** A callback whose [state] is not pending is refused before
    anything happens: [exchange_code] raises the invalid-state error, sends
    no request, and leaves the pending authorizations and the storage as
    they were. *)
Theorem exchange_code_unknown_state_is_inert self (code state : string)
    (token_reply : reply token_json) (userinfo_reply : reply userinfo_json)
    (now db_now : Z) w :
  pkce_store w !! state = None →
  exchange_code self code state token_reply userinfo_reply now db_now w
  = (Raise (ValueError "Invalid state or PKCE data not found"), w).
Proof. intros Hstate. run_flow. by rewrite Hstate. Qed.

Lemma exchange_code_unknown_state_is_inert_witness :
  exchange_code Sample.oauth_mgr "abc" "never-issued"
    (Response 200 (Some (mk_token_json (Some "at-1") (Some "rt-1") None)))
    (Response 200 (Some (mk_userinfo_json (Some "u1") None None))) 0 0
    (Sample.world_of Sample.token_db)
  = (Raise (ValueError "Invalid state or PKCE data not found"),
     Sample.world_of Sample.token_db).
Proof.
  apply (exchange_code_unknown_state_is_inert Sample.oauth_mgr "abc"
           "never-issued"). reflexivity.
Defined.

(** X8.  After a successful [exchange_code] the user's tokens are stored
    with [token_expires_at = now + expires_in] (3600 s when the provider
    gives none), exactly two requests have gone out (the token POST, then
    the userinfo GET with the new bearer token), and
    [get_valid_access_token] hands that access token back, sending nothing,
    at every time earlier than five minutes before that expiry. *)
Theorem login_then_valid_access_token self (code state : string)
    (pkce_data : PkceData) (status : Z) (tokens : token_json) (access : string)
    (status' : Z) (userinfo : userinfo_json) (sub : string) (now db_now : Z) w
    (later : Z) (refresh_reply : reply token_json) (refresh_now refresh_db_now : Z) :
  pkce_store w !! state = Some pkce_data →
  is_success status → access_token tokens = Some access →
  is_success status' → ui_sub userinfo = Some sub →
  later < now + seconds (default 3600 (expires_in tokens)) - minutes 5 →
  ∃ w1,
    (exchange_code self code state (Response status (Some tokens))
       (Response status' (Some userinfo)) now db_now w).2 = w1
    ∧ user_tokens (storage w1) !! sub
      = Some (mk_user_tokens (default "" (ui_email userinfo)) access
                (default "" (refresh_token tokens))
                (now + seconds (default 3600 (expires_in tokens))) db_now)
    ∧ sent w1
      = (sent w
         ++ [ authorization_code_request self code (code_verifier pkce_data);
              Get (userinfo_endpoint self)
                [("Authorization", "Bearer " +:+ access)] ])%list
    ∧ get_valid_access_token self sub later refresh_reply refresh_now
        refresh_db_now w1
      = (Ret (Some access), w1).
Proof.
  intros Hstate Hok Hat Hok' Hsub Hearly.
  rewrite (exchange_code_success self code state pkce_data status tokens access
             status' userinfo sub now db_now w Hstate Hok Hat Hok' Hsub).
  eexists. split; [reflexivity|]. simpl.
  split; [apply lookup_insert_eq|]. split; [reflexivity|].
  run_flow. rewrite lookup_insert_eq. simpl.
  by rewrite bool_decide_eq_false_2 by lia.
Qed.

Lemma login_then_valid_access_token_witness :
  let w0 := mk_world {[ "s1" := mk_pkce "verifier" "challenge" ]}
              Sample.empty_db [] in
  ∃ w1,
    (exchange_code Sample.oauth_mgr "abc" "s1"
       (Response 200 (Some (mk_token_json (Some "at-1") (Some "rt-1") None)))
       (Response 200 (Some (mk_userinfo_json (Some "u1") (Some "e@x.com") None)))
       0 0 w0).2 = w1
    ∧ get_valid_access_token Sample.oauth_mgr "u1" (seconds 3299) NoResponse
        0 0 w1
      = (Ret (Some "at-1"), w1).
Proof.
  intros w0.
  destruct (login_then_valid_access_token Sample.oauth_mgr "abc" "s1"
              (mk_pkce "verifier" "challenge") 200
              (mk_token_json (Some "at-1") (Some "rt-1") None) "at-1" 200
              (mk_userinfo_json (Some "u1") (Some "e@x.com") None) "u1" 0 0 w0
              (seconds 3299) NoResponse 0 0)
    as (w1 & Hw1 & _ & _ & Hget);
    [reflexivity|unfold is_success; lia|reflexivity|unfold is_success; lia
    |reflexivity|vm_compute; reflexivity|].
  exists w1. by split.
Defined.

(** X9.  A login for which the provider returned no refresh token stores
    the empty string in its place, and such a user cannot be refreshed:
    from five minutes before the access token's expiry on,
    [get_valid_access_token] returns [None] without contacting the provider
    and without touching the stored row. *)
Theorem login_without_refresh_token_expires self (code state : string)
    (pkce_data : PkceData) (status : Z) (tokens : token_json) (access : string)
    (status' : Z) (userinfo : userinfo_json) (sub : string) (now db_now : Z) w
    (later : Z) (refresh_reply : reply token_json) (refresh_now refresh_db_now : Z) :
  pkce_store w !! state = Some pkce_data →
  is_success status → access_token tokens = Some access →
  is_success status' → ui_sub userinfo = Some sub →
  refresh_token tokens = None ∨ refresh_token tokens = Some "" →
  later >= now + seconds (default 3600 (expires_in tokens)) - minutes 5 →
  ∃ w1,
    (exchange_code self code state (Response status (Some tokens))
       (Response status' (Some userinfo)) now db_now w).2 = w1
    ∧ t_refresh_token <$> user_tokens (storage w1) !! sub = Some ""
    ∧ get_valid_access_token self sub later refresh_reply refresh_now
        refresh_db_now w1
      = (Ret None, w1).
Proof.
  intros Hstate Hok Hat Hok' Hsub Hrt Hlate.
  rewrite (exchange_code_success self code state pkce_data status tokens access
             status' userinfo sub now db_now w Hstate Hok Hat Hok' Hsub).
  assert (default "" (refresh_token tokens) = "") as Hrt'
    by (destruct Hrt as [->| ->]; reflexivity).
  rewrite Hrt'. eexists. split; [reflexivity|]. simpl.
  split; [by rewrite lookup_insert_eq|].
  run_flow. rewrite lookup_insert_eq. simpl.
  rewrite bool_decide_eq_true_2 by lia. simpl.
  eapply refresh_access_token_no_refresh_token;
    [simpl; apply lookup_insert_eq|reflexivity].
Qed.

Lemma login_without_refresh_token_expires_witness :
  let w0 := mk_world {[ "s1" := mk_pkce "verifier" "challenge" ]}
              Sample.empty_db [] in
  ∃ w1,
    (exchange_code Sample.oauth_mgr "abc" "s1"
       (Response 200 (Some (mk_token_json (Some "at-1") None (Some 600))))
       (Response 200 (Some (mk_userinfo_json (Some "u1") None None)))
       0 0 w0).2 = w1
    ∧ get_valid_access_token Sample.oauth_mgr "u1" (seconds 300)
        (Response 200 (Some (mk_token_json (Some "at-2") None None))) 0 0 w1
      = (Ret None, w1).
Proof.
  intros w0.
  destruct (login_without_refresh_token_expires Sample.oauth_mgr "abc" "s1"
              (mk_pkce "verifier" "challenge") 200
              (mk_token_json (Some "at-1") None (Some 600)) "at-1" 200
              (mk_userinfo_json (Some "u1") None None) "u1" 0 0 w0
              (seconds 300)
              (Response 200 (Some (mk_token_json (Some "at-2") None None))) 0 0)
    as (w1 & Hw1 & _ & Hget);
    [reflexivity|unfold is_success; lia|reflexivity|unfold is_success; lia
    |reflexivity|by left|vm_compute; congruence|].
  exists w1. by split.
Defined.

(** X10.  A successful refresh stores the new access token and its expiry
    and keeps the e-mail and the refresh token the row already had: a
    refresh token in the provider's answer is not stored.  One request goes
    out, and the new access token is what [get_valid_access_token] returns
    until five minutes before the new expiry. *)
Theorem refresh_keeps_stored_refresh_token self (user_sub : string)
    (row : UserTokenRecord) (status : Z) (tokens : token_json) (access : string)
    (now db_now : Z) w :
  user_tokens (storage w) !! user_sub = Some row → t_refresh_token row ≠ "" →
  is_success status → access_token tokens = Some access →
  let expires_at := now + seconds (default 3600 (expires_in tokens)) in
  ∃ w1,
    refresh_access_token self user_sub (Response status (Some tokens)) now
      db_now w = (Ret (Some access), w1)
    ∧ user_tokens (storage w1) !! user_sub
      = Some (mk_user_tokens (t_user_email row) access (t_refresh_token row)
                expires_at db_now)
    ∧ sent w1
      = (sent w ++ [refresh_token_request self (t_refresh_token row)])%list
    ∧ pkce_store w1 = pkce_store w
    ∧ ∀ (later : Z) (reply' : reply token_json) (now' db_now' : Z),
        later < expires_at - minutes 5 →
        get_valid_access_token self user_sub later reply' now' db_now' w1
        = (Ret (Some access), w1).
Proof.
  intros Hrow Hrt Hok Hat expires_at.
  rewrite (refresh_access_token_success self user_sub status tokens access now
             db_now w row Hrow Hrt Hok Hat).
  eexists. split; [reflexivity|]. simpl.
  split; [apply lookup_insert_eq|]. split; [reflexivity|].
  split; [reflexivity|].
  intros later reply' now' db_now' Hearly.
  run_flow. rewrite lookup_insert_eq. simpl.
  by rewrite bool_decide_eq_false_2 by (subst expires_at; lia).
Qed.

Lemma refresh_keeps_stored_refresh_token_witness :
  ∃ w1,
    refresh_access_token Sample.oauth_mgr "u1"
      (Response 200 (Some (mk_token_json (Some "at-2") (Some "rt-2") (Some 1800))))
      (seconds 900) 0 (Sample.world_of Sample.token_db)
    = (Ret (Some "at-2"), w1)
    ∧ user_tokens (storage w1) !! "u1"
      = Some (mk_user_tokens "e@x.com" "at-2" "rt-1" (seconds 2700) 0).
Proof.
  destruct (refresh_keeps_stored_refresh_token Sample.oauth_mgr "u1"
              Sample.token_row 200
              (mk_token_json (Some "at-2") (Some "rt-2") (Some 1800)) "at-2"
              (seconds 900) 0 (Sample.world_of Sample.token_db))
    as (w1 & Hret & Hrow & _);
    [reflexivity|discriminate|unfold is_success; lia|reflexivity|].
  exists w1. split; [exact Hret|exact Hrow].
Defined.

(** The first request of [exchange_code] for a pending state. *)
Lemma exchange_code_first_request self (code state : string)
    (pkce_data : PkceData) (token_reply : reply token_json)
    (userinfo_reply : reply userinfo_json) (now db_now : Z) w :
  pkce_store w !! state = Some pkce_data →
  ∃ later,
    sent (exchange_code self code state token_reply userinfo_reply now db_now
            w).2
    = (sent w
       ++ authorization_code_request self code (code_verifier pkce_data)
       :: later)%list.
Proof.
  intros Hstate. run_flow. rewrite Hstate. simpl.
  destruct token_reply as [|status body]; simpl; [by eexists|].
  case_bool_decide; simpl; [|by eexists].
  destruct body as [tokens|]; simpl; [|by eexists].
  destruct (access_token tokens) as [access|]; simpl; [|by eexists].
  destruct userinfo_reply as [|status' body']; simpl.
  { rewrite <- app_assoc. by eexists. }
  case_bool_decide; simpl; [|rewrite <- app_assoc; by eexists].
  destruct body' as [userinfo|]; simpl; [|rewrite <- app_assoc; by eexists].
  destruct (ui_sub userinfo); simpl; rewrite <- app_assoc; by eexists.
Qed.

(** X11.  [get_authorization_url] sends nothing and stores nothing but the
    pending entry for its [state]; the URL it returns carries that [state]
    and the S256 challenge of the stored verifier; and the token request a
    later [exchange_code] makes for that [state] carries that verifier. *)
Theorem authorization_url_round_trip
    (urlencode : list (string * string) → string) self (state : string)
    (random_bytes : list byte) w (code : string)
    (token_reply : reply token_json) (userinfo_reply : reply userinfo_json)
    (now db_now : Z) :
  let verifier := (generate_pkce random_bytes).1 in
  let challenge := (generate_pkce random_bytes).2 in
  let out := get_authorization_url urlencode self state random_bytes w in
  out.1
  = Ret (auth_endpoint self +:+ "?"
         +:+ urlencode
               [ ("client_id", client_id self);
                 ("redirect_uri", redirect_uri self);
                 ("response_type", "code");
                 ("scope", String.concat " " (scopes self));
                 ("state", state);
                 ("code_challenge", challenge);
                 ("code_challenge_method", "S256");
                 ("access_type", "offline");
                 ("prompt", "consent") ],
         state)
  ∧ out.2
    = mk_world (<[state := mk_pkce verifier challenge]> (pkce_store w))
        (storage w) (sent w)
  ∧ challenge
    = Base64.base64url_nopad (Hashlib.sha256 (Base64.encode_utf8 verifier))
  ∧ ∃ later,
      sent (exchange_code self code state token_reply userinfo_reply now
              db_now out.2).2
      = (sent w ++ authorization_code_request self code verifier :: later)%list.
Proof.
  intros verifier challenge out.
  assert (out = (Ret (auth_endpoint self +:+ "?"
         +:+ urlencode
               [ ("client_id", client_id self);
                 ("redirect_uri", redirect_uri self);
                 ("response_type", "code");
                 ("scope", String.concat " " (scopes self));
                 ("state", state);
                 ("code_challenge", challenge);
                 ("code_challenge_method", "S256");
                 ("access_type", "offline");
                 ("prompt", "consent") ],
         state),
       mk_world (<[state := mk_pkce verifier challenge]> (pkce_store w))
         (storage w) (sent w))) as Hout.
  { subst out verifier challenge. unfold get_authorization_url.
    destruct (generate_pkce random_bytes) as [v c]. reflexivity. }
  rewrite Hout. simpl. split; [reflexivity|]. split; [reflexivity|].
  split.
  - subst verifier challenge. unfold generate_pkce. simpl.
    by rewrite !rstrip_urlsafe_b64encode.
  - destruct (exchange_code_first_request self code state
                (mk_pkce verifier challenge) token_reply userinfo_reply now
                db_now
                (mk_world (<[state := mk_pkce verifier challenge]> (pkce_store w))
                   (storage w) (sent w))) as [later Hlater].
    { simpl. apply lookup_insert_eq. }
    exists later. exact Hlater.
Qed.

End OAuthLifecycle.

Section PkceAlphabet.
Import Base64.

Local Open Scope N_scope.

Lemma b64_char_bits_in_alphabet (p q r s t u : bool) :
  In (b64_char (bits_value [p; q; r; s; t; u])) urlsafe_alphabet.
Proof.
  destruct p, q, r, s, t, u; vm_compute;
    repeat (first [left; reflexivity | right]).
Qed.

Lemma sextets_in_alphabet (bs : list byte) :
  Forall (fun c => In c urlsafe_alphabet) (map b64_char (sextets (bitstream bs))).
Proof.
  induction bs as [|a|a b|a b c l IH] using list_ind3.
  - constructor.
  - rewrite sextets_1. cbn [map].
    repeat (constructor; [apply b64_char_bits_in_alphabet|]). constructor.
  - rewrite sextets_2. cbn [map].
    repeat (constructor; [apply b64_char_bits_in_alphabet|]). constructor.
  - rewrite sextets_3. cbn [map].
    repeat (constructor; [apply b64_char_bits_in_alphabet|]). exact IH.
Qed.

(** X12.  Both strings of [generate_pkce] consist of characters of the
    URL-safe alphabet only -- no padding, no ['+'], no ['/'] -- whatever the
    random bytes; the challenge is always 43 characters long, and the
    verifier has [ceil (4 n / 3)] characters for [n] random bytes. *)
Theorem generate_pkce_url_safe (random_bytes : list byte) :
  let verifier := (OAuthManager.generate_pkce random_bytes).1 in
  let challenge := (OAuthManager.generate_pkce random_bytes).2 in
  Forall (fun c => In c urlsafe_alphabet) (encode_utf8 verifier)
  ∧ Forall (fun c => In c urlsafe_alphabet) (encode_utf8 challenge)
  ∧ String.length challenge = 43%nat
  ∧ String.length verifier = ((4 * length random_bytes + 2) / 3)%nat.
Proof.
  assert (∀ bs, Forall (fun c => In c urlsafe_alphabet)
                  (encode_utf8 (base64url_nopad bs))) as Hsafe.
  { intros bs. unfold encode_utf8, base64url_nopad.
    rewrite list_byte_of_string_of_list_byte. apply sextets_in_alphabet. }
  unfold OAuthManager.generate_pkce. cbn [fst snd].
  rewrite !rstrip_urlsafe_b64encode.
  split; [apply Hsafe|]. split; [apply Hsafe|].
  split.
  - by rewrite base64url_nopad_length, sha256_length.
  - apply base64url_nopad_length.
Qed.

End PkceAlphabet.


(* ===================================================================== *)
(** * Further properties: worker threads under every schedule *)
(* ===================================================================== *)

Section WorkerInvariants.
Import Storage Workers.

Implicit Types (d : db) (pool : list worker) (wk : worker).

(** What one statement of a thread can do to the database: nothing, or set
    the [used] flag of one code. *)
Lemma step_marks_used_only (now : Z) wk d :
  (step now wk d).2 = d
  ∨ ∃ code, (step now wk d).2 = set_exchange_codes (alter mark_used code) d.
Proof.
  destruct wk as [code|code [[[u e] used]|]|v]; simpl; auto.
  destruct used; simpl; auto. case_bool_decide; simpl; eauto.
Qed.

Lemma step_keeps_used (now : Z) wk d (code : string) (row : ExchangeCodeRecord) :
  exchange_codes d !! code = Some row → x_used row = true →
  exchange_codes (step now wk d).2 !! code = Some row.
Proof.
  intros Hrow Hused.
  destruct (step_marks_used_only now wk d) as [->|[code' ->]]; [done|].
  simpl. destruct (decide (code' = code)) as [->|Hne].
  - rewrite lookup_alter_eq, Hrow. simpl. f_equal.
    destruct row as [u e used c]. simpl in *. by subst used.
  - by rewrite lookup_alter_ne.
Qed.

(** X13.  Whatever the schedule, worker threads inside
    [_use_exchange_code_sync] never touch the sessions or the user tokens,
    never add or delete a code, and change a code's row in one way only: by
    setting its [used] flag. *)
Theorem run_only_marks_codes_used (schedule : list (nat * Z)) pool d
    (code : string) :
  let d' := (run schedule pool d).2 in
  sessions d' = sessions d
  ∧ user_tokens d' = user_tokens d
  ∧ (exchange_codes d' !! code = exchange_codes d !! code
     ∨ exchange_codes d' !! code = mark_used <$> exchange_codes d !! code).
Proof.
  revert pool d.
  induction schedule as [|[i now] rest IH]; intros pool d; simpl; [auto|].
  destruct (pool !! i) as [wk|] eqn:Hwk; [|apply IH].
  destruct (step now wk d) as [wk' d1] eqn:Hstep.
  specialize (IH (<[i:=wk']> pool) d1). simpl in IH.
  destruct IH as (Hs & Ht & Hx).
  assert (d1 = (step now wk d).2) as Hd1 by (by rewrite Hstep).
  destruct (step_marks_used_only now wk d) as [Heq|[code' Heq]];
    rewrite Heq in Hd1; subst d1; [auto|].
  simpl in *. split; [exact Hs|]. split; [exact Ht|].
  destruct (decide (code' = code)) as [->|Hne].
  - rewrite lookup_alter_eq in Hx. right.
    destruct Hx as [Hx|Hx]; rewrite Hx; [done|].
    destruct (exchange_codes d !! code) as [row|]; [|done]. done.
  - by rewrite lookup_alter_ne in Hx.
Qed.

(** A thread that cannot succeed any more: it has not selected yet, or it
    has fetched a used row, or it has returned [None]. *)
Lemma doomed_stays_doomed (schedule : list (nat * Z)) pool d (i : nat)
    (code : string) (row : ExchangeCodeRecord) :
  exchange_codes d !! code = Some row → x_used row = true →
  (pool !! i = Some (Called code)
   ∨ (∃ u e, pool !! i = Some (Fetched code (Some (u, e, true))))
   ∨ pool !! i = Some (Returned None)) →
  (run schedule pool d).1 !! i = Some (Called code)
  ∨ (∃ u e, (run schedule pool d).1 !! i = Some (Fetched code (Some (u, e, true))))
  ∨ (run schedule pool d).1 !! i = Some (Returned None).
Proof.
  revert pool d.
  induction schedule as [|[j now] rest IH]; intros pool d Hrow Hused Hwk;
    simpl; [exact Hwk|].
  destruct (pool !! j) as [wk|] eqn:Hj; [|by apply IH].
  destruct (step now wk d) as [wk' d1] eqn:Hstep.
  assert (exchange_codes d1 !! code = Some row) as Hrow1.
  { replace d1 with (step now wk d).2 by (by rewrite Hstep).
    by apply step_keeps_used. }
  apply IH; [exact Hrow1|exact Hused|].
  destruct (decide (j = i)) as [->|Hne].
  - assert (i < length pool)%nat as Hlen by (by eapply lookup_lt_Some).
    rewrite list_lookup_insert_eq by exact Hlen.
    destruct Hwk as [Hwk|[(u & e & Hwk)|Hwk]];
      rewrite Hwk in Hj; injection Hj as <-; simpl in Hstep.
    + rewrite Hrow in Hstep. simpl in Hstep. rewrite Hused in Hstep.
      injection Hstep as <- <-. right. left. eauto.
    + injection Hstep as <- <-. auto.
    + injection Hstep as <- <-. auto.
  - by rewrite list_lookup_insert_ne.
Qed.

(** X14.  The race is confined to threads that selected before the flag
    was set: once a code's row is marked used, a redemption that has not
    yet run its SELECT returns no user, under every schedule and whatever
    the other threads do. *)
Theorem redemption_after_use_fails (schedule : list (nat * Z)) pool d (i : nat)
    (code : string) (row : ExchangeCodeRecord) (user : string) :
  exchange_codes d !! code = Some row → x_used row = true →
  pool !! i = Some (Called code) →
  (run schedule pool d).1 !! i ≠ Some (Returned (Some user)).
Proof.
  intros Hrow Hused Hwk.
  destruct (doomed_stays_doomed schedule pool d i code row Hrow Hused)
    as [H|[(u & e & H)|H]]; [by left|..]; rewrite H; discriminate.
Qed.

Lemma redemption_after_use_fails_witness :
  (run [(1%nat, 10); (0%nat, 10); (1%nat, 20); (0%nat, 20)]
     [Called "c1"; Called "c1"]
     (mk_db ∅ ∅ {[ "c1" := mark_used Sample.code_row ]})).1 !! 0%nat
  ≠ Some (Returned (Some "u1")).
Proof.
  apply (redemption_after_use_fails
           [(1%nat, 10); (0%nat, 10); (1%nat, 20); (0%nat, 20)]
           [Called "c1"; Called "c1"]
           (mk_db ∅ ∅ {[ "c1" := mark_used Sample.code_row ]}) 0 "c1"
           (mark_used Sample.code_row) "u1"); reflexivity.
Defined.

End WorkerInvariants.

(* ===================================================================== *)
(** * Further properties: the endpoints of main.py *)
(* ===================================================================== *)

(** Unfolds the endpoint monad as well. *)
Ltac run_E :=
  unfold mbind, E_bind, M_bind, mret, E_ret, M_ret, throw, lift, raise, gets,
    modify, try_except, except_HTTPError, except_Exception,
    SessionManager.lift_result in *;
  simpl in *.

Section StringFacts.

Lemma prefix_app (p s : string) : String.prefix p (p +:+ s) = true.
Proof.
  induction p as [|c p IH]; simpl; [by destruct s|].
  destruct (ascii_dec c c); [exact IH|congruence].
Qed.

Lemma prefix_split (p s : string) :
  String.prefix p s = true → ∃ rest, s = p +:+ rest.
Proof.
  revert s. induction p as [|c p IH]; intros s; simpl; [by exists s|].
  destruct s as [|c' s]; simpl; [done|].
  destruct (ascii_dec c c') as [->|]; [|done].
  intros Hp. destruct (IH s Hp) as [rest ->]. by exists rest.
Qed.

(** Skipping the rest of a match. *)
Lemma replace_from_skip (p old new s : string) :
  replace_from (String.length p) old new (p +:+ s) = replace_from 0 old new s.
Proof. induction p as [|c p IH]; simpl; [by destruct s|exact IH]. Qed.

(** An occurrence at the very start is replaced first. *)
Lemma replace_from_prefix (c : ascii) (old new s : string) :
  replace_from 0 (String c old) new (String c old +:+ s)
  = new +:+ replace_from 0 (String c old) new s.
Proof.
  change (String c old +:+ s) with (String c (old +:+ s)).
  cbn [replace_from].
  change (String c (old +:+ s)) with (String c old +:+ s).
  rewrite prefix_app.
  replace (String.length (String c old) - 1)%nat with (String.length old)
    by (cbn [String.length]; lia).
  by rewrite replace_from_skip.
Qed.

(** With no occurrence of [old], nothing changes. *)
Lemma replace_from_absent (c : ascii) (old new s : string) :
  (∀ before after, s ≠ before +:+ String c old +:+ after) →
  replace_from 0 (String c old) new s = s.
Proof.
  induction s as [|a s IH]; intros Habsent; [done|].
  cbn [replace_from].
  destruct (String.prefix (String c old) (String a s)) eqn:Hp.
  - apply prefix_split in Hp as [rest Hrest].
    exfalso. apply (Habsent "" rest). exact Hrest.
  - f_equal. apply IH. intros before after ->.
    apply (Habsent (String a before) after). reflexivity.
Qed.

Lemma replace_Bearer_prefix (s : string) :
  replace ("Bearer " +:+ s) "Bearer " "" = replace s "Bearer " "".
Proof.
  unfold replace. cbn [String.eqb Ascii.eqb].
  change (if (false : bool) then replace_empty "" ("Bearer " +:+ s)
          else replace_from 0 "Bearer " "" ("Bearer " +:+ s))
    with (replace_from 0 "Bearer " "" ("Bearer " +:+ s)).
  exact (replace_from_prefix "B" "earer " "" s).
Qed.

End StringFacts.

Example replace_known_answers :
  replace "aaa" "aa" "b" = "ba"
  ∧ replace "abc" "" "-" = "-a-b-c-"
  ∧ replace "Bearer abc.def" "Bearer " "" = "abc.def"
  ∧ replace "xBearer yBearer " "Bearer " "" = "xy".
Proof. repeat split. Qed.

(** ** What the endpoints rely on *)

Section ManagerFacts.
Import Storage.

(** A credential that decodes, with a live row for its [jti], verifies. *)
Lemma verify_session_accepts (self : SessionManager.t) (tok : Jwt.token)
    (jwt_now now : Z) (d : db) (payload : Jwt.claims) (jti : string)
    (row : SessionRecord) :
  Jwt.decode tok (SessionManager.secret_key self)
    [SessionManager.algorithm self] jwt_now = Ret payload →
  Jwt.jti payload = Some jti → jti ≠ "" →
  sessions d !! jti = Some row → s_revoked row = false →
  now ≤ s_expires_at row →
  SessionManager.verify_session self tok jwt_now now d = (Ret (Some payload), d).
Proof.
  intros Hdec Hjti Hne Hrow Hlive Hle.
  unfold SessionManager.verify_session, get_session, _get_session_sync. run_M.
  rewrite Hdec. simpl. rewrite Hjti, (proj2 (truthy_true jti) Hne). simpl.
  rewrite Hrow, Hlive. simpl. by rewrite bool_decide_eq_false_2 by lia.
Qed.

(** Decoding what [jwt.encode] made, between issue and expiry. *)
Lemma decode_encode (p : Jwt.payload) (key alg : string) (jwt_now : Z) :
  Jwt.p_iat p ≤ jwt_now → jwt_now < seconds (Jwt.timegm (Jwt.p_exp p)) →
  Jwt.decode (Jwt.encode p key alg) key [alg] jwt_now
  = Ret (Jwt.mk_claims (Some (Jwt.p_jti p)) (Some (Jwt.p_sub p))
           (Some (Jwt.p_email p)) (Some (Jwt.timegm (Jwt.p_iat p)))
           (Some (Jwt.timegm (Jwt.p_exp p)))).
Proof.
  intros Hiat Hexp.
  unfold Jwt.decode, Jwt.decode_signed, Jwt.encode, Jwt.validate_claims. simpl.
  rewrite bool_decide_eq_true_2 by set_solver. simpl.
  rewrite String.eqb_refl. simpl.
  pose proof (seconds_timegm_le (Jwt.p_iat p)).
  rewrite bool_decide_eq_false_2 by lia.
  by rewrite bool_decide_eq_false_2 by lia.
Qed.

(** What verifies is the claim set the credential carries. *)
Lemma verify_session_Some_token self tok (jwt_now now : Z) d
    (payload : Jwt.claims) d' :
  SessionManager.verify_session self tok jwt_now now d = (Ret (Some payload), d') →
  ∃ alg key, tok = Jwt.Compact alg key payload.
Proof.
  unfold SessionManager.verify_session, get_session, _get_session_sync. run_M.
  destruct (Jwt.decode _ _ _ _) as [p|err] eqn:Hdec; simpl;
    [|by destruct (_ || _)].
  destruct (Jwt.jti p) as [j|]; simpl; [|done].
  destruct (truthy j); simpl; [|done].
  destruct (sessions d !! j) as [row|]; simpl; [|done].
  destruct (s_revoked row); simpl; [done|].
  case_bool_decide; simpl; [done|].
  intros [= <- <-].
  unfold Jwt.decode in Hdec.
  destruct (Jwt.decode_signed _ _ _) as [body|] eqn:Hsig; [|done].
  pose proof (validate_claims_Ret _ _ _ Hdec) as ->.
  unfold Jwt.decode_signed in Hsig.
  destruct tok as [raw|alg key body']; [done|].
  destruct (negb _); [done|]. destruct (negb _); [done|].
  injection Hsig as ->. by do 2 eexists.
Qed.

End ManagerFacts.

(** ** [verify_auth] *)

Section MainFacts.
Import Storage Config Main.

Variable str_of_token : Jwt.token → string.
Variable token_of_str : string → Jwt.token.
Variable json_dumps : json → Z → string.
Variable str_of_exn : exn → string.
Variable settings : Settings.

Implicit Types (w : OAuthManager.world).

(** [verify_auth] once the header has passed the two format checks. *)
Lemma verify_auth_bearer (header : string) (jwt_now now : Z) w
    (answer : option Jwt.claims) :
  header ≠ "" → String.prefix "Bearer " header = true →
  SessionManager.verify_session (session_manager settings)
    (token_of_str (replace header "Bearer " "")) jwt_now now
    (OAuthManager.storage w)
  = (Ret answer, OAuthManager.storage w) →
  verify_auth token_of_str settings (Some header) jwt_now now w
  = (match answer with
     | Some payload =>
         if payload_truthy (Some payload) then Return payload
         else Throw (HTTPException 401 "Invalid or expired session token")
     | None => Throw (HTTPException 401 "Invalid or expired session token")
     end, w).
Proof.
  intros Hne Hprefix Hverify. unfold verify_auth.
  rewrite (proj2 (truthy_true header) Hne), Hprefix. simpl.
  unfold OAuthManager.with_storage. run_E. rewrite Hverify.
  destruct w as [pk st sn]. simpl.
  destruct answer as [payload|]; simpl; [|done].
  match goal with |- context [negb ?b] => by destruct b end.
Qed.

(** X15.  [verify_auth] never writes, and it fails in one way only: with
    status 401.  When it returns a claim set, the header began with
    ["Bearer "] and [verify_session] accepted what is left of the header
    once every ["Bearer "] is taken out of it. *)
Theorem verify_auth_401_or_verified (authorization : option string)
    (jwt_now now : Z) w :
  let out := verify_auth token_of_str settings authorization jwt_now now w in
  out.2 = w
  ∧ match out.1 with
    | Return payload =>
        ∃ header,
          authorization = Some header
          ∧ String.prefix "Bearer " header = true
          ∧ (SessionManager.verify_session (session_manager settings)
               (token_of_str (replace header "Bearer " "")) jwt_now now
               (OAuthManager.storage w)).1
            = Ret (Some payload)
    | Throw e => ∃ detail, e = HTTPException 401 detail
    end.
Proof.
  destruct authorization as [header|]; [|simpl; eauto].
  destruct (decide (header = "")) as [->|Hne]; [simpl; eauto|].
  destruct (String.prefix "Bearer " header) eqn:Hprefix.
  - destruct (verify_session_returns (session_manager settings)
                (token_of_str (replace header "Bearer " "")) jwt_now now
                (OAuthManager.storage w)) as [answer Hverify].
    cbv zeta.
    rewrite (verify_auth_bearer header jwt_now now w answer Hne Hprefix Hverify).
    split; [reflexivity|].
    destruct answer as [payload|]; [|simpl; eauto].
    destruct (payload_truthy (Some payload)); [|simpl; eauto].
    cbn [fst]. exists header. by rewrite Hverify.
  - unfold verify_auth.
    rewrite (proj2 (truthy_true header) Hne), Hprefix. simpl. eauto.
Qed.

(** X16.  The prefix is taken out with [replace], not cut off the front: a
    header that repeats it, ["Bearer Bearer <credential>"], is treated
    exactly as ["Bearer <credential>"]. *)
Theorem verify_auth_repeated_prefix (credential : string) (jwt_now now : Z) w :
  verify_auth token_of_str settings (Some ("Bearer Bearer " +:+ credential))
    jwt_now now w
  = verify_auth token_of_str settings (Some ("Bearer " +:+ credential))
      jwt_now now w.
Proof.
  unfold verify_auth.
  change ("Bearer Bearer " +:+ credential)
    with ("Bearer " +:+ ("Bearer " +:+ credential)).
  rewrite !prefix_app, !replace_Bearer_prefix. reflexivity.
Qed.

(** X17.  The credential [create_session] issued, sent as
    ["Bearer <credential>"], authenticates for as long as it is valid, and
    [verify_auth] returns the subject and e-mail the session was created
    for -- given that the serialized credential reads back as itself and
    does not contain ["Bearer "]. *)
Theorem verify_auth_accepts_issued_session (user_sub user_email jti : string)
    (now db_now jwt_now now' : Z) w :
  let self := session_manager settings in
  let expires_at := now + hours (SessionManager.duration_hours self) in
  let tok :=
    Jwt.encode (Jwt.mk_payload jti user_sub user_email now expires_at)
      (SessionManager.secret_key self) (SessionManager.algorithm self) in
  jti ≠ "" →
  now ≤ jwt_now → jwt_now < seconds (Jwt.timegm expires_at) →
  now' ≤ expires_at →
  token_of_str (str_of_token tok) = tok →
  (∀ before after, str_of_token tok ≠ before +:+ "Bearer " +:+ after) →
  ∃ w1,
    OAuthManager.with_storage
      (SessionManager.create_session self user_sub user_email jti now db_now) w
    = (Ret tok, w1)
    ∧ verify_auth token_of_str settings
        (Some ("Bearer " +:+ str_of_token tok)) jwt_now now' w1
      = (Return (Jwt.mk_claims (Some jti) (Some user_sub) (Some user_email)
                   (Some (Jwt.timegm now)) (Some (Jwt.timegm expires_at))),
         w1).
Proof.
  intros self expires_at tok Hjti Hiat Hexp Hrow Hwire Hclean.
  destruct (create_session_verifies self user_sub user_email jti now db_now
              jwt_now now' (OAuthManager.storage w) Hjti Hiat Hexp Hrow)
    as (tok' & d1 & Hcreate & Hverify).
  assert (tok' = tok) as ->.
  { unfold SessionManager.create_session, save_session, _save_session_sync
      in Hcreate. run_M. by injection Hcreate as <- _. }
  exists (OAuthManager.mk_world (OAuthManager.pkce_store w) d1
            (OAuthManager.sent w)).
  split.
  - unfold OAuthManager.with_storage. by rewrite Hcreate.
  - rewrite (verify_auth_bearer _ jwt_now now' _
               (Some (Jwt.mk_claims (Some jti) (Some user_sub) (Some user_email)
                        (Some (Jwt.timegm now))
                        (Some (Jwt.timegm expires_at))))).
    + reflexivity.
    + discriminate.
    + apply prefix_app.
    + rewrite replace_Bearer_prefix. unfold replace. cbn [String.eqb Ascii.eqb].
      rewrite (replace_from_absent "B" "earer " "" _ Hclean), Hwire.
      exact Hverify.
Qed.

(** ** [auth_callback] *)

(** X18.  [auth_callback] never raises: whatever the provider answers and
    whatever is drawn, it returns a page.  With an [error] parameter, or
    without a code or a state, the page is an error page and nothing at all
    has happened: no request, no write, and a pending state stays
    pending. *)
Theorem auth_callback_always_answers (code state error : option string)
    (inputs : callback_inputs) w :
  (∃ page w',
     auth_callback str_of_token json_dumps str_of_exn settings code state error
       inputs w = (Ret page, w'))
  ∧ (truthy_opt error = true →
     auth_callback str_of_token json_dumps str_of_exn settings code state error
       inputs w
     = (Ret (TemplateResponse "error.html"
               [ ("title", Some "Authentication Failed");
                 ("message",
                  Some "You denied the authentication request or an error occurred.");
                 ("details", error) ]), w))
  ∧ (truthy_opt error = false →
     truthy_opt code = false ∨ truthy_opt state = false →
     auth_callback str_of_token json_dumps str_of_exn settings code state error
       inputs w
     = (Ret (TemplateResponse "error.html"
               [ ("title", Some "Invalid Request");
                 ("message",
                  Some "Missing authorization code or state parameter.");
                  ("details", None) ]), w)).
Proof.
  split; [|split].
  - unfold auth_callback. destruct (truthy_opt error); [by do 2 eexists|].
    destruct code as [code|], state as [state|]; try by do 2 eexists.
    destruct (negb (truthy code) || negb (truthy state)); [by do 2 eexists|].
    unfold except_Exception.
    match goal with |- context [match ?m w with _ => _ end] =>
      destruct (m w) as [[page|e] w'] end; by do 2 eexists.
  - intros Herr. unfold auth_callback. by rewrite Herr.
  - intros Herr Hmissing. unfold auth_callback. rewrite Herr.
    destruct code as [code|], state as [state|]; try done; simpl in Hmissing.
    destruct Hmissing as [-> | ->]; [done|]. by rewrite orb_true_r.
Qed.

(** The world and the page a callback that goes through leaves. *)
Lemma auth_callback_success (code state : string) (error : option string)
    (inputs : callback_inputs) (pkce_data : OAuthManager.PkceData)
    (status : Z) (tokens : OAuthManager.token_json) (access : string)
    (status' : Z) (userinfo : OAuthManager.userinfo_json) (sub : string) w :
  truthy_opt error = false → code ≠ "" → state ≠ "" →
  OAuthManager.pkce_store w !! state = Some pkce_data →
  token_reply inputs = OAuthManager.Response status (Some tokens) →
  OAuthManager.is_success status →
  OAuthManager.access_token tokens = Some access →
  userinfo_reply inputs = OAuthManager.Response status' (Some userinfo) →
  OAuthManager.is_success status' →
  OAuthManager.ui_sub userinfo = Some sub →
  exchange_codes (OAuthManager.storage w) !! exchange_code_draw inputs = None →
  auth_callback str_of_token json_dumps str_of_exn settings (Some code)
    (Some state) error inputs w
  = (Ret (TemplateResponse "success.html"
            [ ("user_email", Some (default "" (OAuthManager.ui_email userinfo)));
              ("config_json",
               Some (json_dumps
                       (mcp_config str_of_token settings []
                          (Jwt.encode
                             (Jwt.mk_payload (session_jti inputs) sub
                                (default "" (OAuthManager.ui_email userinfo))
                                (session_now inputs)
                                (session_now inputs
                                 + hours (SESSION_DURATION_HOURS settings)))
                             (JWT_SIGNING_KEY settings) (JWT_ALGORITHM settings)))
                       2));
              ("exchange_code", Some (exchange_code_draw inputs)) ]),
     OAuthManager.mk_world (delete state (OAuthManager.pkce_store w))
       (set_exchange_codes
          (insert (exchange_code_draw inputs)
             (mk_exchange_code sub (exchange_code_now inputs + minutes 5) false
                (exchange_code_db_now inputs)))
          (set_sessions
             (insert (session_jti inputs)
                (mk_session sub (default "" (OAuthManager.ui_email userinfo))
                   (session_now inputs
                    + hours (SESSION_DURATION_HOURS settings))
                   (session_db_now inputs) false))
             (set_user_tokens
                (insert sub
                   (mk_user_tokens (default "" (OAuthManager.ui_email userinfo))
                      access (default "" (OAuthManager.refresh_token tokens))
                      (tokens_now inputs
                       + seconds (default 3600 (OAuthManager.expires_in tokens)))
                      (tokens_db_now inputs)))
                (OAuthManager.storage w))))
       (OAuthManager.sent w
        ++ [ OAuthManager.authorization_code_request (oauth_manager settings)
               code (OAuthManager.code_verifier pkce_data);
             OAuthManager.Get
               (OAuthManager.userinfo_endpoint (oauth_manager settings))
               [("Authorization", "Bearer " +:+ access)] ])).
Proof.
  intros Herr Hcode Hstate Hpending Htok Hok Hat Hui Hok' Hsub Hfresh.
  unfold auth_callback. rewrite Herr.
  rewrite (proj2 (truthy_true code) Hcode), (proj2 (truthy_true state) Hstate).
  simpl. unfold except_Exception.
  unfold mbind at 1, M_bind at 1. rewrite Htok, Hui.
  rewrite (exchange_code_success (oauth_manager settings) code state pkce_data
             status tokens access status' userinfo sub (tokens_now inputs)
             (tokens_db_now inputs) w Hpending Hok Hat Hok' Hsub).
  unfold OAuthManager.with_storage, SessionManager.create_session,
    SessionManager.create_exchange_code, save_session, _save_session_sync,
    save_exchange_code, _save_exchange_code_sync.
  run_M. rewrite Hfresh. reflexivity.
Qed.

(** X19.  When the state is pending, the provider answers both requests
    with 2xx JSON carrying an access token and a subject, and the
    exchange-code draw is not yet stored, [auth_callback] completes the
    login: the page is [success.html] with the provider's e-mail address
    and the code drawn; the state is no longer pending; the credential in
    the shown configuration (for a non-empty jti) verifies from its issue
    until its expiry; the access token is handed out until five minutes
    before its expiry; and the exchange code shown, redeemed within five
    minutes, opens a second session for the same (non-empty) subject. *)
Theorem auth_callback_completes_login (code state : string)
    (error : option string) (inputs : callback_inputs)
    (pkce_data : OAuthManager.PkceData) (status : Z)
    (tokens : OAuthManager.token_json) (access : string) (status' : Z)
    (userinfo : OAuthManager.userinfo_json) (sub : string) w :
  truthy_opt error = false → code ≠ "" → state ≠ "" →
  OAuthManager.pkce_store w !! state = Some pkce_data →
  token_reply inputs = OAuthManager.Response status (Some tokens) →
  OAuthManager.is_success status →
  OAuthManager.access_token tokens = Some access →
  userinfo_reply inputs = OAuthManager.Response status' (Some userinfo) →
  OAuthManager.is_success status' →
  OAuthManager.ui_sub userinfo = Some sub →
  exchange_codes (OAuthManager.storage w) !! exchange_code_draw inputs = None →
  let user_email := default "" (OAuthManager.ui_email userinfo) in
  let expires_at :=
    session_now inputs + hours (SESSION_DURATION_HOURS settings) in
  let session_token :=
    Jwt.encode
      (Jwt.mk_payload (session_jti inputs) sub user_email (session_now inputs)
         expires_at)
      (JWT_SIGNING_KEY settings) (JWT_ALGORITHM settings) in
  ∃ w',
    auth_callback str_of_token json_dumps str_of_exn settings (Some code)
      (Some state) error inputs w
    = (Ret (TemplateResponse "success.html"
              [ ("user_email", Some user_email);
                ("config_json",
                 Some (json_dumps
                         (mcp_config str_of_token settings [] session_token) 2));
                ("exchange_code", Some (exchange_code_draw inputs)) ]), w')
    ∧ OAuthManager.pkce_store w' !! state = None
    ∧ (∀ jwt_now now,
         session_jti inputs ≠ "" →
         session_now inputs ≤ jwt_now →
         jwt_now < seconds (Jwt.timegm expires_at) → now ≤ expires_at →
         ∃ payload,
           SessionManager.verify_session (session_manager settings)
             session_token jwt_now now (OAuthManager.storage w')
           = (Ret (Some payload), OAuthManager.storage w')
           ∧ Jwt.sub payload = Some sub ∧ Jwt.email payload = Some user_email)
    ∧ (∀ later refresh_reply refresh_now refresh_db_now,
         later < tokens_now inputs
                 + seconds (default 3600 (OAuthManager.expires_in tokens))
                 - minutes 5 →
         OAuthManager.get_valid_access_token (oauth_manager settings) sub later
           refresh_reply refresh_now refresh_db_now w'
         = (Ret (Some access), w'))
    ∧ (∀ use_now jti now db_now,
         sub ≠ "" → use_now ≤ exchange_code_now inputs + minutes 5 →
         ∃ d,
           SessionManager.exchange_code_for_session (session_manager settings)
             (exchange_code_draw inputs) use_now jti now db_now
             (OAuthManager.storage w')
           = (Ret (Some (Jwt.encode
                           (Jwt.mk_payload jti sub user_email now
                              (now + hours (SESSION_DURATION_HOURS settings)))
                           (JWT_SIGNING_KEY settings) (JWT_ALGORITHM settings))),
              d)).
Proof.
  intros Herr Hcode Hstate Hpending Htok Hok Hat Hui Hok' Hsub Hfresh
    user_email expires_at session_token.
  rewrite (auth_callback_success code state error inputs pkce_data status
             tokens access status' userinfo sub w Herr Hcode Hstate Hpending
             Htok Hok Hat Hui Hok' Hsub Hfresh).
  eexists. split; [reflexivity|]. cbn [OAuthManager.pkce_store OAuthManager.storage].
  split; [apply lookup_delete_eq|]. split; [|split].
  - intros jwt_now now Hjti Hiat Hexp Hrow. eexists. split.
    + eapply verify_session_accepts.
      * apply (decode_encode
                 (Jwt.mk_payload (session_jti inputs) sub user_email
                    (session_now inputs) expires_at)); simpl; [exact Hiat|exact Hexp].
      * reflexivity.
      * exact Hjti.
      * simpl. apply lookup_insert_eq.
      * reflexivity.
      * exact Hrow.
    + done.
  - intros later refresh_reply refresh_now refresh_db_now Hearly.
    unfold OAuthManager.get_valid_access_token, OAuthManager.with_storage,
      get_user_tokens, _get_user_tokens_sync.
    run_M. rewrite lookup_insert_eq. simpl.
    by rewrite bool_decide_eq_false_2 by lia.
  - intros use_now jti now db_now Hne Hlive.
    unfold SessionManager.exchange_code_for_session, use_exchange_code,
      _use_exchange_code_sync, get_user_tokens, _get_user_tokens_sync,
      SessionManager.create_session, save_session, _save_session_sync.
    run_M. rewrite lookup_insert_eq. simpl.
    rewrite bool_decide_eq_false_2 by lia. simpl.
    rewrite (proj2 (truthy_true sub) Hne). simpl.
    rewrite lookup_insert_eq. simpl. by eexists.
Qed.

(** X20.  Nothing is rolled back.  When the provider has answered both
    requests and the session has been created, but the exchange code drawn
    is already stored, [auth_callback] shows the "Authentication Error"
    page with the storage layer's integrity error, and what it did
    stays done: the state is spent, the user's tokens are stored, and a
    live session row is stored whose credential, never shown, would
    verify.  The code that was already stored is as it was. *)
Theorem auth_callback_no_rollback (code state : string)
    (error : option string) (inputs : callback_inputs)
    (pkce_data : OAuthManager.PkceData) (status : Z)
    (tokens : OAuthManager.token_json) (access : string) (status' : Z)
    (userinfo : OAuthManager.userinfo_json) (sub : string)
    (taken : ExchangeCodeRecord) w :
  truthy_opt error = false → code ≠ "" → state ≠ "" →
  OAuthManager.pkce_store w !! state = Some pkce_data →
  token_reply inputs = OAuthManager.Response status (Some tokens) →
  OAuthManager.is_success status →
  OAuthManager.access_token tokens = Some access →
  userinfo_reply inputs = OAuthManager.Response status' (Some userinfo) →
  OAuthManager.is_success status' →
  OAuthManager.ui_sub userinfo = Some sub →
  exchange_codes (OAuthManager.storage w) !! exchange_code_draw inputs
  = Some taken →
  let user_email := default "" (OAuthManager.ui_email userinfo) in
  let expires_at :=
    session_now inputs + hours (SESSION_DURATION_HOURS settings) in
  let session_token :=
    Jwt.encode
      (Jwt.mk_payload (session_jti inputs) sub user_email (session_now inputs)
         expires_at)
      (JWT_SIGNING_KEY settings) (JWT_ALGORITHM settings) in
  ∃ w',
    auth_callback str_of_token json_dumps str_of_exn settings (Some code)
      (Some state) error inputs w
    = (Ret (TemplateResponse "error.html"
              [ ("title", Some "Authentication Error");
                ("message", Some "Failed to complete authentication.");
                ("details", Some (str_of_exn IntegrityError)) ]), w')
    ∧ OAuthManager.pkce_store w' !! state = None
    ∧ exchange_codes (OAuthManager.storage w')
      = exchange_codes (OAuthManager.storage w)
    ∧ user_tokens (OAuthManager.storage w') !! sub
      = Some (mk_user_tokens user_email access
                (default "" (OAuthManager.refresh_token tokens))
                (tokens_now inputs
                 + seconds (default 3600 (OAuthManager.expires_in tokens)))
                (tokens_db_now inputs))
    ∧ sessions (OAuthManager.storage w') !! session_jti inputs
      = Some (mk_session sub user_email expires_at (session_db_now inputs)
                false)
    ∧ (∀ jwt_now now,
         session_jti inputs ≠ "" →
         session_now inputs ≤ jwt_now →
         jwt_now < seconds (Jwt.timegm expires_at) → now ≤ expires_at →
         ∃ payload,
           SessionManager.verify_session (session_manager settings)
             session_token jwt_now now (OAuthManager.storage w')
           = (Ret (Some payload), OAuthManager.storage w')
           ∧ Jwt.sub payload = Some sub).
Proof.
  intros Herr Hcode Hstate Hpending Htok Hok Hat Hui Hok' Hsub Htaken
    user_email expires_at session_token.
  unfold auth_callback. rewrite Herr.
  rewrite (proj2 (truthy_true code) Hcode), (proj2 (truthy_true state) Hstate).
  simpl. unfold except_Exception.
  unfold mbind at 1, M_bind at 1. rewrite Htok, Hui.
  rewrite (exchange_code_success (oauth_manager settings) code state pkce_data
             status tokens access status' userinfo sub (tokens_now inputs)
             (tokens_db_now inputs) w Hpending Hok Hat Hok' Hsub).
  unfold OAuthManager.with_storage, SessionManager.create_session,
    SessionManager.create_exchange_code, save_session, _save_session_sync,
    save_exchange_code, _save_exchange_code_sync.
  run_M. rewrite Htaken. simpl.
  eexists. split; [reflexivity|]. simpl.
  split; [apply lookup_delete_eq|]. split; [reflexivity|].
  split; [apply lookup_insert_eq|]. split; [apply lookup_insert_eq|].
  intros jwt_now now Hjti Hiat Hexp Hrow. eexists. split.
  - eapply verify_session_accepts.
    + apply (decode_encode
               (Jwt.mk_payload (session_jti inputs) sub user_email
                  (session_now inputs) expires_at)); simpl;
        [exact Hiat|exact Hexp].
    + reflexivity.
    + exact Hjti.
    + simpl. apply lookup_insert_eq.
    + reflexivity.
    + exact Hrow.
  - done.
Qed.


(** ** [setup_with_code] *)

(** The page and the world a redeemable code gives. *)
Lemma setup_with_code_valid (code : string) (use_now : Z) (jti : string)
    (now db_now jwt_now verify_now : Z) w (row : ExchangeCodeRecord) :
  code ≠ "" →
  exchange_codes (OAuthManager.storage w) !! code = Some row →
  x_used row = false → use_now ≤ x_expires_at row → x_user_sub row ≠ "" →
  jti ≠ "" → now ≤ jwt_now →
  jwt_now < seconds (Jwt.timegm (now + hours (SESSION_DURATION_HOURS settings))) →
  verify_now ≤ now + hours (SESSION_DURATION_HOURS settings) →
  let user_email :=
    match user_tokens (OAuthManager.storage w) !! x_user_sub row with
    | Some tokens => t_user_email tokens
    | None => ""
    end in
  setup_with_code str_of_token json_dumps settings (Some code) use_now jti now
    db_now jwt_now verify_now w
  = (Return
       (TemplateResponse "success.html"
          [ ("user_email", Some user_email);
            ("config_json",
             Some (json_dumps
                     (mcp_config str_of_token settings
                        [("transport", JStr "sse")]
                        (Jwt.encode
                           (Jwt.mk_payload jti (x_user_sub row) user_email now
                              (now + hours (SESSION_DURATION_HOURS settings)))
                           (JWT_SIGNING_KEY settings) (JWT_ALGORITHM settings)))
                     2));
            ("exchange_code", None) ]),
     OAuthManager.mk_world (OAuthManager.pkce_store w)
       (set_sessions
          (insert jti
             (mk_session (x_user_sub row) user_email
                (now + hours (SESSION_DURATION_HOURS settings)) db_now false))
          (set_exchange_codes (alter mark_used code) (OAuthManager.storage w)))
       (OAuthManager.sent w)).
Proof.
  intros Hcode Hrow Hunused Hlive Hsub Hjti Hiat Hexp Hdb user_email.
  unfold setup_with_code. rewrite (proj2 (truthy_true code) Hcode). simpl.
  unfold SessionManager.exchange_code_for_session.
  unfold mbind at 1, E_bind at 1, lift at 1, OAuthManager.with_storage at 1.
  unfold mbind at 1, M_bind at 1.
  rewrite (use_exchange_code_valid code use_now (OAuthManager.storage w) row
             Hrow Hunused Hlive).
  rewrite (proj2 (truthy_true _) Hsub). simpl.
  unfold get_user_tokens, _get_user_tokens_sync,
    SessionManager.create_session, save_session, _save_session_sync.
  run_M. fold user_email.
  unfold E_bind at 1, lift at 1, OAuthManager.with_storage at 1.
  cbn [OAuthManager.storage].
  rewrite (verify_session_accepts (session_manager settings) _ jwt_now
             verify_now _
             (Jwt.mk_claims (Some jti) (Some (x_user_sub row)) (Some user_email)
                (Some (Jwt.timegm now))
                (Some (Jwt.timegm
                         (now + hours (SESSION_DURATION_HOURS settings)))))
             jti
             (mk_session (x_user_sub row) user_email
                (now + hours (SESSION_DURATION_HOURS settings)) db_now false));
    [reflexivity| |reflexivity|exact Hjti| |reflexivity|exact Hdb].
  - apply (decode_encode
             (Jwt.mk_payload jti (x_user_sub row) user_email now
                (now + hours (SESSION_DURATION_HOURS settings))));
      simpl; [exact Hiat|exact Hexp].
  - simpl. apply lookup_insert_eq.
Qed.

(** X21.  [setup_with_code] refuses without touching anything: with no code,
    or an empty one, it raises [HTTPException] 400; with a code that is
    unknown, already used or past its expiry it shows the "Invalid Code"
    page; in each case the storage, the pending authorizations and the
    requests sent are as before. *)
Theorem setup_with_code_refusals (code : option string) (use_now : Z)
    (jti : string) (now db_now jwt_now verify_now : Z) w :
  (truthy_opt code = false →
   setup_with_code str_of_token json_dumps settings code use_now jti now db_now
     jwt_now verify_now w
   = (Throw (HTTPException 400 "Missing exchange code"), w))
  ∧ (∀ c, code = Some c → c ≠ "" →
     match exchange_codes (OAuthManager.storage w) !! c with
     | None => True
     | Some row => x_used row = true ∨ use_now > x_expires_at row
     end →
     setup_with_code str_of_token json_dumps settings code use_now jti now
       db_now jwt_now verify_now w
     = (Return (TemplateResponse "error.html"
                  [ ("title", Some "Invalid Code");
                    ("message",
                     Some "The exchange code is invalid, expired, or already used.");
                    ("details", None) ]), w)).
Proof.
  split.
  - intros Hcode. unfold setup_with_code.
    destruct code as [c|]; [|done]. simpl in Hcode. by rewrite Hcode.
  - intros c -> Hc Hrow. unfold setup_with_code.
    rewrite (proj2 (truthy_true c) Hc). simpl.
    unfold mbind at 1, E_bind at 1, lift at 1, OAuthManager.with_storage at 1.
    rewrite exchange_code_for_session_refused; [by destruct w|].
    destruct (exchange_codes (OAuthManager.storage w) !! c) as [row|] eqn:Hlook.
    + destruct Hrow as [Hused|Hpast].
      * by apply (use_exchange_code_used c use_now _ row).
      * by apply (use_exchange_code_expired c use_now _ row).
    + by apply use_exchange_code_unknown.
Qed.

(** X22.  A redeemable code opens exactly one session through
    [setup_with_code]: the page is [success.html], its [user_email] is the
    address stored with the user's tokens (the empty string when there are
    none; the default ["Unknown"] is never used), no further exchange code is
    shown; and the same code presented again, at any time, gets the
    "Invalid Code" page and changes nothing. *)
Theorem setup_with_code_redeems_once (code : string) (use_now : Z)
    (jti : string) (now db_now jwt_now verify_now : Z) w
    (row : ExchangeCodeRecord)
    (use_now' : Z) (jti' : string) (now' db_now' jwt_now' verify_now' : Z) :
  code ≠ "" →
  exchange_codes (OAuthManager.storage w) !! code = Some row →
  x_used row = false → use_now ≤ x_expires_at row → x_user_sub row ≠ "" →
  jti ≠ "" → now ≤ jwt_now →
  jwt_now < seconds (Jwt.timegm (now + hours (SESSION_DURATION_HOURS settings))) →
  verify_now ≤ now + hours (SESSION_DURATION_HOURS settings) →
  ∃ config_json w',
    setup_with_code str_of_token json_dumps settings (Some code) use_now jti now
      db_now jwt_now verify_now w
    = (Return
         (TemplateResponse "success.html"
            [ ("user_email",
               Some (match user_tokens (OAuthManager.storage w)
                             !! x_user_sub row with
                     | Some tokens => t_user_email tokens
                     | None => ""
                     end));
              ("config_json", Some config_json);
              ("exchange_code", None) ]), w')
    ∧ sessions (OAuthManager.storage w') !! jti
      = Some (mk_session (x_user_sub row)
                (match user_tokens (OAuthManager.storage w)
                         !! x_user_sub row with
                 | Some tokens => t_user_email tokens
                 | None => ""
                 end)
                (now + hours (SESSION_DURATION_HOURS settings)) db_now false)
    ∧ setup_with_code str_of_token json_dumps settings (Some code) use_now'
        jti' now' db_now' jwt_now' verify_now' w'
      = (Return (TemplateResponse "error.html"
                   [ ("title", Some "Invalid Code");
                     ("message",
                      Some "The exchange code is invalid, expired, or already used.");
                     ("details", None) ]), w').
Proof.
  intros Hcode Hrow Hunused Hlive Hsub Hjti Hiat Hexp Hdb.
  rewrite (setup_with_code_valid code use_now jti now db_now jwt_now verify_now
             w row Hcode Hrow Hunused Hlive Hsub Hjti Hiat Hexp Hdb).
  do 2 eexists. split; [reflexivity|]. split; [apply lookup_insert_eq|].
  unfold setup_with_code. rewrite (proj2 (truthy_true code) Hcode). simpl.
  unfold mbind at 1, E_bind at 1, lift at 1, OAuthManager.with_storage at 1.
  rewrite exchange_code_for_session_refused; [reflexivity|].
  apply (use_exchange_code_used code use_now' _ (mark_used row)); [|done].
  simpl. by rewrite lookup_alter_eq, Hrow.
Qed.

(** X23.  Everything [setup_with_code] can do.  It raises 400; or shows the
    "Invalid Code" page; or shows [success.html] with the stored address
    and no exchange code; or fails with [AttributeError], when the session
    it has just created does not verify, and then the code is spent all the
    same.  It sends no request and leaves the pending authorizations
    alone. *)
Theorem setup_with_code_outcomes (code : option string) (use_now : Z)
    (jti : string) (now db_now jwt_now verify_now : Z) w :
  let out :=
    setup_with_code str_of_token json_dumps settings code use_now jti now db_now
      jwt_now verify_now w in
  OAuthManager.pkce_store out.2 = OAuthManager.pkce_store w
  ∧ OAuthManager.sent out.2 = OAuthManager.sent w
  ∧ (out = (Throw (HTTPException 400 "Missing exchange code"), w)
     ∨ out.1 = Return (TemplateResponse "error.html"
                         [ ("title", Some "Invalid Code");
                           ("message",
                            Some "The exchange code is invalid, expired, or already used.");
                           ("details", None) ])
     ∨ ∃ c row,
         code = Some c
         ∧ exchange_codes (OAuthManager.storage w) !! c = Some row
         ∧ x_used row = false
         ∧ exchange_codes (OAuthManager.storage out.2) !! c
           = Some (mark_used row)
         ∧ (out.1 = Throw AttributeError
            ∨ ∃ config_json,
                out.1
                = Return
                    (TemplateResponse "success.html"
                       [ ("user_email",
                          Some (match user_tokens (OAuthManager.storage w)
                                        !! x_user_sub row with
                                | Some tokens => t_user_email tokens
                                | None => ""
                                end));
                         ("config_json", Some config_json);
                         ("exchange_code", None) ]))).
Proof.
  intros out. assert (out = out) as Hout by reflexivity.
  unfold out at 2 in Hout. clearbody out. unfold setup_with_code in Hout.
  destruct code as [c|]; [|subst out; by auto].
  destruct (truthy c); simpl in Hout; [|subst out; by auto].
  unfold mbind at 1, E_bind at 1, lift at 1, OAuthManager.with_storage at 1
    in Hout.
  unfold SessionManager.exchange_code_for_session in Hout.
  unfold mbind at 1, M_bind at 1 in Hout.
  destruct (use_exchange_code c use_now (OAuthManager.storage w))
    as [[[u|]|e] d1] eqn:Huse.
  - apply use_exchange_code_Some in Huse
      as (row & Hrow & Hunused & Hlive & -> & ->).
    destruct (truthy (x_user_sub row)); simpl in Hout;
      [|subst out; simpl; by auto].
    unfold get_user_tokens, _get_user_tokens_sync,
      SessionManager.create_session, save_session, _save_session_sync in Hout.
    unfold mbind, M_bind, mret, M_ret, gets, modify in Hout. simpl in Hout.
    unfold E_bind at 1, lift at 1, OAuthManager.with_storage at 1 in Hout.
    cbn [OAuthManager.storage] in Hout.
    match type of Hout with
    | context [SessionManager.verify_session ?m ?t ?a ?b ?d] =>
      destruct (verify_session_returns m t a b d) as [answer Hverify];
      rewrite Hverify in Hout;
      pose proof (verify_session_Some_token m t a b d) as Htoken
    end.
    assert (OAuthManager.pkce_store out.2 = OAuthManager.pkce_store w
            ∧ OAuthManager.sent out.2 = OAuthManager.sent w
            ∧ exchange_codes (OAuthManager.storage out.2) !! c
              = Some (mark_used row)) as (Hpkce & Hsent & Hcode).
    { subst out. destruct answer; simpl; by rewrite lookup_alter_eq, Hrow. }
    split; [exact Hpkce|]. split; [exact Hsent|].
    right. right. exists c, row.
    split; [reflexivity|]. split; [exact Hrow|]. split; [exact Hunused|].
    split; [exact Hcode|].
    destruct answer as [payload|]; [|left; by subst out].
    right. destruct (Htoken payload _ Hverify) as (alg & key & Heq).
    unfold Jwt.encode in Heq. injection Heq as _ _ <-.
    subst out. simpl. by eexists.
  - subst out. simpl. by auto.
  - exfalso. revert Huse.
    unfold use_exchange_code, _use_exchange_code_sync. run_M.
    destruct (exchange_codes (OAuthManager.storage w) !! c) as [row|]; [|done].
    destruct (x_used row); [done|]. by case_bool_decide.
Qed.

(** ** [auth_start] *)

(** X24.  [auth_start] guards the flow and opens it. With the client id or
    the client secret empty it raises [HTTPException] 500 and no state
    becomes pending. Otherwise it answers 307 with the same URL in the
    [Location] header and in the body, touching neither the storage nor
    the network; and the state it drew is then accepted by
    [auth_callback]: when the provider answers both requests and the
    exchange-code draw is fresh, the callback for that state ends on
    [success.html], its last request being the userinfo GET with the new
    bearer token, and leaves the state no longer pending. *)
Theorem auth_start_then_callback
    (urlencode : list (string * string) → string) (state : string)
    (random_bytes : list byte) w :
  (GOOGLE_CLIENT_ID settings = "" ∨ GOOGLE_CLIENT_SECRET settings = "" →
   auth_start settings urlencode state random_bytes w
   = (Throw (HTTPException 500
        "OAuth not configured. Please set GOOGLE_CLIENT_ID and GOOGLE_CLIENT_SECRET."),
      w))
  ∧ (GOOGLE_CLIENT_ID settings ≠ "" → GOOGLE_CLIENT_SECRET settings ≠ "" →
     ∃ auth_url w1,
       auth_start settings urlencode state random_bytes w
       = (Return
            (JSONResponse
               (JObj [ ("auth_url", JStr auth_url);
                       ("message",
                        JStr "Redirect user to auth_url to begin OAuth flow") ])
               [("Location", auth_url)] 307), w1)
       ∧ OAuthManager.storage w1 = OAuthManager.storage w
       ∧ OAuthManager.sent w1 = OAuthManager.sent w
       ∧ ∀ (code : string) (inputs : callback_inputs) status tokens access
           status' userinfo sub,
           code ≠ "" → state ≠ "" →
           token_reply inputs = OAuthManager.Response status (Some tokens) →
           OAuthManager.is_success status →
           OAuthManager.access_token tokens = Some access →
           userinfo_reply inputs
           = OAuthManager.Response status' (Some userinfo) →
           OAuthManager.is_success status' →
           OAuthManager.ui_sub userinfo = Some sub →
           exchange_codes (OAuthManager.storage w) !! exchange_code_draw inputs
           = None →
           ∃ context w2,
             auth_callback str_of_token json_dumps str_of_exn settings
               (Some code) (Some state) None inputs w1
             = (Ret (TemplateResponse "success.html" context), w2)
             ∧ OAuthManager.pkce_store w2 !! state = None
             ∧ last (OAuthManager.sent w2)
               = Some (OAuthManager.Get
                         (OAuthManager.userinfo_endpoint (oauth_manager settings))
                         [("Authorization", "Bearer " +:+ access)])).
Proof.
  split.
  - intros Hmissing. unfold auth_start.
    destruct Hmissing as [-> | ->]; [done|]. by rewrite orb_true_r.
  - intros Hid Hsecret. unfold auth_start.
    rewrite (proj2 (truthy_true _) Hid), (proj2 (truthy_true _) Hsecret).
    simpl. unfold OAuthManager.get_authorization_url.
    destruct (OAuthManager.generate_pkce random_bytes)
      as [verifier challenge] eqn:Hpkce.
    run_E. do 2 eexists. split; [reflexivity|]. simpl.
    split; [reflexivity|]. split; [reflexivity|].
    intros code inputs status tokens access status' userinfo sub Hcode Hstate
      Htok Hok Hat Hui Hok' Hsub Hfresh.
    erewrite (auth_callback_success code state None inputs
                (OAuthManager.mk_pkce verifier challenge) status tokens access
                status' userinfo sub); try eassumption; try reflexivity.
    + do 2 eexists. split; [reflexivity|]. simpl.
      split; [apply lookup_delete_eq|]. by rewrite last_app.
    + simpl. apply lookup_insert_eq.
Qed.

End MainFacts.

(** ** The endpoints on sample data *)

Section MainSamples.
Import Storage Config Main.

Lemma length_append (s1 s2 : string) :
  String.length (s1 +:+ s2) = (String.length s1 + String.length s2)%nat.
Proof. induction s1 as [|c s1 IH]; simpl; [done|]. by rewrite IH. Qed.

Lemma verify_auth_accepts_issued_session_witness :
  ∃ w1,
    OAuthManager.with_storage
      (SessionManager.create_session Sample.sessions_mgr "u1" "e@x.com" "j1" 0 0)
      (Sample.world_of Sample.empty_db)
    = (Ret Sample.issued_token, w1)
    ∧ verify_auth MainSample.token_of_str MainSample.settings
        (Some "Bearer jwt:j1") (seconds 10) (seconds 10) w1
      = (Return (Jwt.mk_claims (Some "j1") (Some "u1") (Some "e@x.com")
                   (Some 0) (Some 86400)), w1).
Proof.
  apply (verify_auth_accepts_issued_session MainSample.str_of_token
           MainSample.token_of_str MainSample.settings "u1" "e@x.com" "j1" 0 0
           (seconds 10) (seconds 10) (Sample.world_of Sample.empty_db)).
  - discriminate.
  - vm_compute. discriminate.
  - vm_compute. reflexivity.
  - vm_compute. discriminate.
  - reflexivity.
  - intros before after Heq. apply (f_equal String.length) in Heq.
    rewrite !length_append in Heq. simpl in Heq. lia.
Defined.

Lemma auth_callback_always_answers_witness :
  auth_callback MainSample.str_of_token MainSample.json_dumps
    MainSample.str_of_exn MainSample.settings (Some "abc") (Some "s1")
    (Some "access_denied") MainSample.inputs MainSample.pending
  = (Ret (TemplateResponse "error.html"
            [ ("title", Some "Authentication Failed");
              ("message",
               Some "You denied the authentication request or an error occurred.");
              ("details", Some "access_denied") ]), MainSample.pending).
Proof.
  destruct (auth_callback_always_answers MainSample.str_of_token
              MainSample.json_dumps MainSample.str_of_exn MainSample.settings
              (Some "abc") (Some "s1") (Some "access_denied") MainSample.inputs
              MainSample.pending) as (_ & Hdenied & _).
  apply Hdenied. reflexivity.
Defined.

Lemma auth_callback_completes_login_witness :
  ∃ w',
    auth_callback MainSample.str_of_token MainSample.json_dumps
      MainSample.str_of_exn MainSample.settings (Some "abc") (Some "s1") None
      MainSample.inputs MainSample.pending
    = (Ret (TemplateResponse "success.html"
              [ ("user_email", Some "e@x.com");
                ("config_json", Some "{}");
                ("exchange_code", Some "c1") ]), w')
    ∧ OAuthManager.pkce_store w' !! "s1" = None.
Proof.
  destruct (auth_callback_completes_login MainSample.str_of_token
              MainSample.json_dumps MainSample.str_of_exn MainSample.settings
              "abc" "s1" None MainSample.inputs
              (OAuthManager.mk_pkce "verifier" "challenge") 200
              (OAuthManager.mk_token_json (Some "at-1") (Some "rt-1") None)
              "at-1" 200
              (OAuthManager.mk_userinfo_json (Some "u1") (Some "e@x.com") None)
              "u1" MainSample.pending)
    as (w' & Hpage & Hstate & _).
  - reflexivity.
  - discriminate.
  - discriminate.
  - reflexivity.
  - reflexivity.
  - unfold OAuthManager.is_success. lia.
  - reflexivity.
  - reflexivity.
  - unfold OAuthManager.is_success. lia.
  - reflexivity.
  - reflexivity.
  - exists w'. split; [exact Hpage|exact Hstate].
Defined.

Lemma auth_callback_no_rollback_witness :
  let w :=
    OAuthManager.mk_world
      {[ "s1" := OAuthManager.mk_pkce "verifier" "challenge" ]}
      Sample.code_db [] in
  ∃ w',
    auth_callback MainSample.str_of_token MainSample.json_dumps
      MainSample.str_of_exn MainSample.settings (Some "abc") (Some "s1") None
      MainSample.inputs w
    = (Ret (TemplateResponse "error.html"
              [ ("title", Some "Authentication Error");
                ("message", Some "Failed to complete authentication.");
                ("details", Some "error") ]), w')
    ∧ sessions (OAuthManager.storage w') !! "j1"
      = Some (mk_session "u1" "e@x.com" (hours 24) 0 false).
Proof.
  intros w.
  destruct (auth_callback_no_rollback MainSample.str_of_token
              MainSample.json_dumps MainSample.str_of_exn MainSample.settings
              "abc" "s1" None MainSample.inputs
              (OAuthManager.mk_pkce "verifier" "challenge") 200
              (OAuthManager.mk_token_json (Some "at-1") (Some "rt-1") None)
              "at-1" 200
              (OAuthManager.mk_userinfo_json (Some "u1") (Some "e@x.com") None)
              "u1" Sample.code_row w)
    as (w' & Hpage & _ & _ & _ & Hsession & _).
  - reflexivity.
  - discriminate.
  - discriminate.
  - reflexivity.
  - reflexivity.
  - unfold OAuthManager.is_success. lia.
  - reflexivity.
  - reflexivity.
  - unfold OAuthManager.is_success. lia.
  - reflexivity.
  - reflexivity.
  - exists w'. split; [exact Hpage|exact Hsession].
Defined.

Lemma setup_with_code_refusals_witness :
  setup_with_code MainSample.str_of_token MainSample.json_dumps
    MainSample.settings (Some "") 0 "j2" 0 0 0 0 (Sample.world_of Sample.code_db)
  = (Throw (HTTPException 400 "Missing exchange code"),
     Sample.world_of Sample.code_db).
Proof.
  destruct (setup_with_code_refusals MainSample.str_of_token
              MainSample.json_dumps MainSample.settings (Some "") 0 "j2" 0 0 0 0
              (Sample.world_of Sample.code_db)) as [Hmissing _].
  apply Hmissing. reflexivity.
Defined.

Lemma setup_with_code_redeems_once_witness :
  ∃ config_json w',
    setup_with_code MainSample.str_of_token MainSample.json_dumps
      MainSample.settings (Some "c1") 50 "j2" 50 50 60 60
      (Sample.world_of Sample.code_db)
    = (Return (TemplateResponse "success.html"
                 [ ("user_email", Some ""); ("config_json", Some config_json);
                   ("exchange_code", None) ]), w')
    ∧ setup_with_code MainSample.str_of_token MainSample.json_dumps
        MainSample.settings (Some "c1") 70 "j3" 70 70 80 80 w'
      = (Return (TemplateResponse "error.html"
                   [ ("title", Some "Invalid Code");
                     ("message",
                      Some "The exchange code is invalid, expired, or already used.");
                     ("details", None) ]), w').
Proof.
  destruct (setup_with_code_redeems_once MainSample.str_of_token
              MainSample.json_dumps MainSample.settings "c1" 50 "j2" 50 50 60 60
              (Sample.world_of Sample.code_db) Sample.code_row
              70 "j3" 70 70 80 80)
    as (config_json & w' & Hpage & _ & Hagain).
  - discriminate.
  - reflexivity.
  - reflexivity.
  - vm_compute. discriminate.
  - discriminate.
  - discriminate.
  - lia.
  - vm_compute. reflexivity.
  - vm_compute. discriminate.
  - exists config_json, w'. split; [exact Hpage|exact Hagain].
Defined.

Lemma auth_start_then_callback_witness :
  ∃ auth_url w1,
    auth_start MainSample.settings (fun _ => "query") "s2" Sample.rfc7636_bytes
      MainSample.pending
    = (Return
         (JSONResponse
            (JObj [ ("auth_url", JStr auth_url);
                    ("message",
                     JStr "Redirect user to auth_url to begin OAuth flow") ])
            [("Location", auth_url)] 307), w1)
    ∧ OAuthManager.storage w1 = Sample.empty_db.
Proof.
  destruct (auth_start_then_callback MainSample.str_of_token
              MainSample.json_dumps MainSample.str_of_exn MainSample.settings
              (fun _ => "query") "s2" Sample.rfc7636_bytes MainSample.pending)
    as [_ Hconfigured].
  destruct Hconfigured as (auth_url & w1 & Hstart & Hstorage & _).
  - discriminate.
  - discriminate.
  - exists auth_url, w1. split; [exact Hstart|exact Hstorage].
Defined.

End MainSamples.

(* ===================================================================== *)
(** * The tools *)
(* ===================================================================== *)

Section FetchFacts.
Import OAuthManager Tools.

Context {J A : Type}.
Implicit Types (req : api_request) (k : J → E tool_world A) (tw : tool_world).

(** The four ways a request, its status check and its decoding can go. *)
Lemma fetch_no_response req k tw :
  (response ← api_send req NoResponse;
   lift (raise_for_status response);;
   data ← lift (json response);
   k data) tw
  = (Throw (Uncaught (HTTPError TransportError)),
     mk_tool_world (oauth tw) (calls tw ++ [req])).
Proof. reflexivity. Qed.

Lemma fetch_bad_status req (status : Z) (body : option J) k tw :
  ¬ is_success status →
  (response ← api_send req (Response status body);
   lift (raise_for_status response);;
   data ← lift (json response);
   k data) tw
  = (Throw (Uncaught (HTTPError (HTTPStatusError status))),
     mk_tool_world (oauth tw) (calls tw ++ [req])).
Proof.
  intros Hbad. unfold api_send, raise_for_status. run_E.
  by rewrite bool_decide_eq_false_2.
Qed.

Lemma fetch_not_json req (status : Z) k tw :
  is_success status →
  (response ← api_send req (Response status None);
   lift (raise_for_status response);;
   data ← lift (json response);
   k data) tw
  = (Throw (Uncaught JSONDecodeError),
     mk_tool_world (oauth tw) (calls tw ++ [req])).
Proof.
  intros Hok. unfold api_send, raise_for_status, json. run_E.
  by rewrite bool_decide_eq_true_2.
Qed.

Lemma fetch_json req (status : Z) (data : J) k tw :
  is_success status →
  (response ← api_send req (Response status (Some data));
   lift (raise_for_status response);;
   data ← lift (json response);
   k data) tw
  = k data (mk_tool_world (oauth tw) (calls tw ++ [req])).
Proof.
  intros Hok. unfold api_send, raise_for_status, json. run_E.
  by rewrite bool_decide_eq_true_2.
Qed.

(** Whatever comes back, a tool whose two continuations only build an
    answer has sent its one request and done nothing else. *)
Lemma fetch_world req (rep : reply J) (g : J → A) (h : http_error → A) tw :
  (except_HTTPError
     (response ← api_send req rep;
      lift (raise_for_status response);;
      data ← lift (json response);
      mret (g data))
     (fun e => mret (h e)) tw).2
  = mk_tool_world (oauth tw) (calls tw ++ [req]).
Proof.
  unfold except_HTTPError.
  destruct rep as [|status body]; [by rewrite fetch_no_response|].
  destruct (decide (is_success status)) as [Hok|Hbad];
    [|by rewrite fetch_bad_status].
  destruct body as [data|]; [by rewrite fetch_json|by rewrite fetch_not_json].
Qed.

End FetchFacts.

Section WeatherFacts.
Import OAuthManager Tools.

Variable number : Type.
Variable str_of_http_error : http_error → string.

Implicit Types (tw : tool_world) (self : WeatherTools).

(** One entry of the forecast, when its [weather] list is not empty. *)
Lemma first_description_Return {S} (weather : option (list weather_json))
    (s : S) :
  weather ≠ Some [] →
  first_description weather s
  = (Return (match weather with
             | Some (first :: _) => w_description first
             | _ => None
             end), s).
Proof. intros Hne. by destruct weather as [[|first rest]|]. Qed.

(** The loop over the entries, when none has an empty [weather] list. *)
Lemma forecast_loop_Return (items : list (forecast_item_json number))
    tw :
  Forall (fun item => fi_weather item ≠ Some []) items →
  ∃ forecasts,
    mapM (M := E tool_world)
      (fun item =>
         description ← first_description (fi_weather item);
         mret {| f_datetime := fi_dt_txt item;
                 f_temperature := fi_main item ≫= temp;
                 f_feels_like := fi_main item ≫= feels_like;
                 f_description := description;
                 f_humidity := fi_main item ≫= humidity;
                 f_wind_speed := fi_wind item ≫= speed |}) items tw
    = (Return forecasts, tw)
    ∧ f_datetime <$> forecasts = fi_dt_txt <$> items.
Proof.
  induction 1 as [|item items Hitem _ (forecasts & IH & Hdates)]; simpl.
  - by exists [].
  - unfold mbind at 1, E_bind at 1. unfold mbind at 1, E_bind at 1.
    rewrite (first_description_Return _ _ Hitem). simpl.
    unfold mbind at 1, E_bind at 1. rewrite IH. simpl.
    eexists. split; [reflexivity|]. rewrite !fmap_cons. by rewrite Hdates.
Qed.


(** X26.  When [get_current_weather] fails.  Without a key it answers the
    configuration error and sends nothing.  With one it sends its one GET
    and does nothing else, whatever comes back.  A missing response or a
    status outside 2xx becomes an ["error"] answer, never an exception.  A
    2xx answer is returned as a result exactly when it is JSON that the
    lookups can read to the end; otherwise an exception escapes: the
    decoding error when the body is not JSON, [AttributeError] when the
    answer, or what it holds under ["sys"], ["main"] or ["wind"], or the
    first element of ["weather"], is not a [dict]; and for ["weather"]
    itself [TypeError] when it is [None], a [bool] or a number,
    [IndexError] when it is an empty [list] or [str], [KeyError] when it is
    a [dict]. *)
Theorem get_current_weather_failures self (city units : string)
    (rep : reply (value number)) tw :
  let out := get_current_weather str_of_http_error self city units rep tw in
  (api_key self = "" →
   out = (Return (ToolError "OpenWeatherMap API key not configured"), tw))
  ∧ (api_key self ≠ "" →
     out.2
     = mk_tool_world (oauth tw)
         (calls tw
          ++ [ ApiGet (weather_base_url self +:+ "/weather")
                 [ ("q", PStr city); ("appid", PStr (api_key self));
                   ("units", PStr units) ] [] ])
     ∧ match rep with
       | NoResponse =>
           out.1 = Return (ToolError ("Failed to fetch weather data: "
                                      +:+ str_of_http_error TransportError))
       | Response status body =>
           if bool_decide (is_success status) then
             match body with
             | None => out.1 = Throw (Uncaught JSONDecodeError)
             | Some data =>
                 (if readable data
                  then ∃ r, out.1 = Return (ToolOk r) ∧ cw_units r = units
                  else out.1 = Throw AttributeError ∨ out.1 = Throw TypeError
                       ∨ out.1 = Throw IndexError
                       ∨ out.1 = Throw (Uncaught (KeyError "0")))
                 ∧ match data with
                   | VDict items =>
                       if missing_or_dict items "sys"
                          && missing_or_dict items "main"
                       then
                         match dict_lookup items "weather" with
                         | None | Some (VList (VDict _ :: _)) =>
                             missing_or_dict items "wind" = false →
                             out.1 = Throw AttributeError
                         | Some VNone | Some (VBool _) | Some (VNumber _) =>
                             out.1 = Throw TypeError
                         | Some (VList []) | Some (VStr EmptyString) =>
                             out.1 = Throw IndexError
                         | Some (VDict _) =>
                             out.1 = Throw (Uncaught (KeyError "0"))
                         | Some (VList (_ :: _)) | Some (VStr (String _ _)) =>
                             out.1 = Throw AttributeError
                         end
                       else out.1 = Throw AttributeError
                   | _ => out.1 = Throw AttributeError
                   end
             end
           else
             out.1 = Return (ToolError ("Failed to fetch weather data: "
                               +:+ str_of_http_error (HTTPStatusError status)))
       end).
Proof.
  intros out. subst out. split.
  - intros Hkey. unfold get_current_weather. by rewrite Hkey.
  - intros Hkey. unfold get_current_weather.
    rewrite (proj2 (truthy_true _) Hkey). cbn [negb].
    unfold except_HTTPError.
    destruct rep as [|status [data|]].
    + by rewrite fetch_no_response.
    + case_bool_decide as Hok; [|by rewrite fetch_bad_status].
      rewrite (fetch_json _ status data _ tw Hok).
      set (tw1 := mk_tool_world _ _).
      destruct data as [|b|n|text|elements|items];
        try (cbn; split; [reflexivity|split; [by left|reflexivity]]).
      unfold readable, missing_or_dict.
      unfold mbind, E_bind, mret, E_ret, throw, dict_get, item0. cbn.
      destruct (dict_lookup items "sys") as [[| | | | |sys]|]; cbn;
        try (split; [reflexivity|split; [by left|done]]).
      all: destruct (dict_lookup items "main") as [[| | | | |main]|]; cbn;
        try (split; [reflexivity|split; [by left|done]]).
      all: destruct (dict_lookup items "weather")
             as [[| | |[|c text]|[|[| | | | |first] rest]|]|]; cbn;
        try (split; [reflexivity|split; [by eauto 10|done]]).
      all: destruct (dict_lookup items "wind") as [[| | | | |wind]|]; cbn;
        (split; [reflexivity|split; [by eauto 10|done]]).
    + case_bool_decide as Hok; [|by rewrite fetch_bad_status].
      by rewrite (fetch_not_json _ status _ tw Hok).
Qed.

End WeatherFacts.


Section AccessTokenFacts.
Import Storage OAuthManager.

(** [get_valid_access_token] by the stored row: none, one still good for
    more than five minutes, one due for a refresh. *)
Lemma get_valid_access_token_none self (user_sub : string) (now : Z)
    (rep : reply token_json) (refresh_now db_now : Z) w :
  user_tokens (storage w) !! user_sub = None →
  get_valid_access_token self user_sub now rep refresh_now db_now w
  = (Ret None, w).
Proof.
  intros Hrow.
  unfold get_valid_access_token, with_storage, get_user_tokens,
    _get_user_tokens_sync.
  run_M. rewrite Hrow. by destruct w.
Qed.

Lemma get_valid_access_token_fresh self (user_sub : string) (now : Z)
    (rep : reply token_json) (refresh_now db_now : Z) w row :
  user_tokens (storage w) !! user_sub = Some row →
  now < t_token_expires_at row - minutes 5 →
  get_valid_access_token self user_sub now rep refresh_now db_now w
  = (Ret (Some (t_access_token row)), w).
Proof.
  intros Hrow Hearly.
  unfold get_valid_access_token, with_storage, get_user_tokens,
    _get_user_tokens_sync.
  run_M. rewrite Hrow. rewrite bool_decide_eq_false_2 by lia. by destruct w.
Qed.

Lemma get_valid_access_token_due self (user_sub : string) (now : Z)
    (rep : reply token_json) (refresh_now db_now : Z) w row :
  user_tokens (storage w) !! user_sub = Some row →
  now >= t_token_expires_at row - minutes 5 →
  get_valid_access_token self user_sub now rep refresh_now db_now w
  = refresh_access_token self user_sub rep refresh_now db_now w.
Proof.
  intros Hrow Hlate.
  unfold get_valid_access_token. unfold with_storage at 1.
  unfold get_user_tokens, _get_user_tokens_sync.
  unfold mbind at 1, M_bind at 1, gets. rewrite Hrow.
  rewrite bool_decide_eq_true_2 by lia. by destruct w.
Qed.

End AccessTokenFacts.

Section TokenThenCall.
Import OAuthManager Tools.

(** A tool's first step: ask the manager, then go on with its answer. *)
Lemma on_oauth_Ret {A B} (m : M world A) (k : A → E tool_world B)
    (tw : tool_world) (a : A) (w1 : world) :
  m (oauth tw) = (Ret a, w1) →
  (on_oauth m ≫= k) tw = k a (mk_tool_world w1 (calls tw)).
Proof.
  intros Hm. unfold mbind, E_bind, on_oauth. by rewrite Hm.
Qed.

End TokenThenCall.

Section CalendarFacts.
Import Storage OAuthManager Tools.

Variable str_of_http_error : http_error → string.
Variable isoformat : Z → string.
Variable oauth_manager : OAuthManager.t.

Implicit Types (tw : tool_world) (self : CalendarTools).

(** X27.  For a user with no stored tokens the calendar tools answer the
    re-authentication error and do nothing else: no request to the Calendar
    API, none to the provider, no write. *)
Theorem calendar_tools_without_tokens self (user_sub calendar_id : string)
    (max_results : Z) (inputs : token_inputs) (time_min : Z)
    (events : reply events_json) (summary start_iso end_iso : string)
    (description location : option string) (created : reply created_json) tw :
  user_tokens (storage (oauth tw)) !! user_sub = None →
  list_events str_of_http_error isoformat oauth_manager self user_sub
    calendar_id max_results inputs time_min events tw
  = (Return (ToolError
               "Unable to get valid access token. Please re-authenticate."), tw)
  ∧ create_event str_of_http_error oauth_manager self user_sub summary
      start_iso end_iso calendar_id description location inputs created tw
    = (Return (ToolError
                 "Unable to get valid access token. Please re-authenticate."),
       tw).
Proof.
  intros Hrow. unfold list_events, create_event.
  rewrite !(on_oauth_Ret _ _ tw None (oauth tw))
    by (by apply get_valid_access_token_none).
  by destruct tw.
Qed.


(** X29.  With a stored access token within five minutes of its expiry (or
    past it), [list_events] refreshes first.  When the provider answers the
    refresh with a new access token, the calendar request bears the new
    token, whatever the Calendar API then answers, and the stored row holds
    the new token with the old refresh token.  When the refresh fails with
    an HTTP error, the tool answers the re-authentication error and the
    Calendar API is not contacted. *)
Theorem list_events_refreshes_expiring_token self
    (user_sub calendar_id : string) (max_results : Z) (inputs : token_inputs)
    (time_min : Z) (events : reply events_json) tw (row : UserTokenRecord) :
  user_tokens (storage (oauth tw)) !! user_sub = Some row →
  ti_now inputs >= t_token_expires_at row - minutes 5 →
  t_refresh_token row ≠ "" →
  let out :=
    list_events str_of_http_error isoformat oauth_manager self user_sub
      calendar_id max_results inputs time_min events tw in
  (∀ status tokens access,
     ti_refresh_reply inputs = Response status (Some tokens) →
     is_success status → access_token tokens = Some access → access ≠ "" →
     out.2
     = mk_tool_world
         (mk_world (pkce_store (oauth tw))
            (set_user_tokens
               (insert user_sub
                  (mk_user_tokens (t_user_email row) access
                     (t_refresh_token row)
                     (ti_refresh_now inputs
                      + seconds (default 3600 (expires_in tokens)))
                     (ti_refresh_db_now inputs)))
               (storage (oauth tw)))
            (sent (oauth tw)
             ++ [refresh_token_request oauth_manager (t_refresh_token row)]))
         (calls tw
          ++ [ ApiGet
                 (calendar_base_url self +:+ "/calendars/" +:+ calendar_id
                  +:+ "/events")
                 [ ("maxResults", PInt max_results);
                   ("orderBy", PStr "startTime");
                   ("singleEvents", PStr "true");
                   ("timeMin", PStr (isoformat time_min +:+ "Z")) ]
                 [("Authorization", "Bearer " +:+ access)] ]))
  ∧ (http_failure (ti_refresh_reply inputs) →
     out
     = (Return (ToolError
                  "Unable to get valid access token. Please re-authenticate."),
        mk_tool_world
          (mk_world (pkce_store (oauth tw)) (storage (oauth tw))
             (sent (oauth tw)
              ++ [refresh_token_request oauth_manager (t_refresh_token row)]))
          (calls tw))).
Proof.
  intros Hrow Hdue Hrefresh out. subst out. unfold list_events.
  pose proof (get_valid_access_token_due oauth_manager user_sub (ti_now inputs)
                (ti_refresh_reply inputs) (ti_refresh_now inputs)
                (ti_refresh_db_now inputs) (oauth tw) row Hrow Hdue) as Hvalid.
  split.
  - intros status tokens access Hreply Hok Htoken Haccess.
    rewrite Hreply in Hvalid.
    rewrite (refresh_access_token_success oauth_manager user_sub status tokens
               access (ti_refresh_now inputs) (ti_refresh_db_now inputs)
               (oauth tw) row Hrow Hrefresh Hok Htoken) in Hvalid.
    rewrite Hreply.
    rewrite (on_oauth_Ret _ _ tw _ _ Hvalid).
    cbn [truthy_opt]. rewrite (proj2 (truthy_true _) Haccess).
    cbn [negb default]. by rewrite fetch_world.
  - intros Hfail.
    rewrite (refresh_access_token_http_failure oauth_manager user_sub _
               (ti_refresh_now inputs) (ti_refresh_db_now inputs) (oauth tw) row
               Hrow Hrefresh Hfail) in Hvalid.
    by rewrite (on_oauth_Ret _ _ tw _ _ Hvalid).
Qed.

(** [if field: body[key] = field]: a missing or empty field is left out, any
    other goes in as it is. *)
Lemma optional_field (field : option string) :
  ((if truthy_opt field then field else None) = None
   ↔ field = None ∨ field = Some "")
  ∧ ((if truthy_opt field then field else None) ≠ None
     → (if truthy_opt field then field else None) = field).
Proof.
  destruct field as [text|]; cbn; [|split; [split; [by left|done]|done]].
  destruct (truthy text) eqn:Htext.
  - split; [|done]. split; [done|]. intros [[=]|[= ->]]. discriminate Htext.
  - unfold truthy in Htext. apply negb_false_iff, String.eqb_eq in Htext as ->.
    split; [|done]. split; [by right|done].
Qed.



End CalendarFacts.

(** ** The tools on sample data *)

Section ToolSamples.
Import Storage OAuthManager Tools.


Example get_current_weather_known_answers :
  let ask (data : value Z) :=
    (get_current_weather (fun _ => "timeout") (mk_weather_tools "key" "http://w")
       "Oslo" "metric" (Response 200 (Some data))
       (mk_tool_world (Sample.world_of Sample.empty_db) [])).1 in
  ask (VDict [ ("name", VStr "Oslo");
               ("sys", VDict [("country", VStr "NO")]);
               ("main", VDict [("temp", VNumber 4); ("humidity", VNumber 80)]);
               ("weather", VList [VDict [("description", VStr "rain")]]) ])
  = Return (ToolOk (mk_current_weather (VStr "Oslo") (VStr "NO") (VNumber 4)
                      VNone (VNumber 80) (VStr "rain") VNone "metric"))
  ∧ ask (VDict [])
    = Return (ToolOk (mk_current_weather VNone VNone VNone VNone VNone VNone
                        VNone "metric"))
  ∧ ask (VDict [("weather", VNone)]) = Throw TypeError
  ∧ ask (VDict [("weather", VList [VNone])]) = Throw AttributeError
  ∧ ask (VDict [("weather", VList [])]) = Throw IndexError
  ∧ ask (VDict [("main", VNone)]) = Throw AttributeError
  ∧ ask (VList []) = Throw AttributeError.
Proof. repeat split. Qed.

Lemma get_current_weather_failures_witness :
  (get_current_weather (number := Z) (fun _ => "timeout")
     (mk_weather_tools "key" "http://w") "Oslo" "metric"
     (Response 200 (Some (VDict [("weather", VNone)])))
     (mk_tool_world (Sample.world_of Sample.empty_db) [])).1
  = Throw TypeError
  ∧ get_current_weather (number := Z) (fun _ => "timeout")
      (mk_weather_tools "" "http://w") "Oslo" "metric" NoResponse
      (mk_tool_world (Sample.world_of Sample.empty_db) [])
    = (Return (ToolError "OpenWeatherMap API key not configured"),
       mk_tool_world (Sample.world_of Sample.empty_db) []).
Proof.
  split.
  - destruct (get_current_weather_failures Z (fun _ => "timeout")
                (mk_weather_tools "key" "http://w") "Oslo" "metric"
                (Response 200 (Some (VDict [("weather", VNone)])))
                (mk_tool_world (Sample.world_of Sample.empty_db) []))
      as [_ Hkey].
    destruct Hkey as (_ & _ & Hweather); [discriminate|].
    exact Hweather.
  - destruct (get_current_weather_failures Z (fun _ => "timeout")
                (mk_weather_tools "" "http://w") "Oslo" "metric" NoResponse
                (mk_tool_world (Sample.world_of Sample.empty_db) []))
      as [Hunconfigured _].
    apply Hunconfigured. reflexivity.
Defined.

Lemma calendar_tools_without_tokens_witness :
  list_events (fun _ => "timeout") (fun _ => "2025-10-01T00:00:00")
    Sample.oauth_mgr calendar_tools "u1" "primary" 10
    (mk_token_inputs 0 NoResponse 0 0) 0 NoResponse
    (mk_tool_world (Sample.world_of Sample.empty_db) [])
  = (Return (ToolError
               "Unable to get valid access token. Please re-authenticate."),
     mk_tool_world (Sample.world_of Sample.empty_db) []).
Proof.
  destruct (calendar_tools_without_tokens (fun _ => "timeout")
              (fun _ => "2025-10-01T00:00:00") Sample.oauth_mgr calendar_tools
              "u1" "primary" 10 (mk_token_inputs 0 NoResponse 0 0) 0 NoResponse
              "standup" "2025-10-01T14:00:00Z" "2025-10-01T15:00:00Z" None None
              NoResponse (mk_tool_world (Sample.world_of Sample.empty_db) []))
    as [Hlist _]; [reflexivity|exact Hlist].
Defined.


Lemma list_events_refreshes_expiring_token_witness :
  let inputs :=
    mk_token_inputs (seconds 1000)
      (Response 200 (Some (mk_token_json (Some "at-2") None None)))
      (seconds 1000) 0 in
  calls
    (list_events (fun _ => "timeout") (fun _ => "2025-10-01T00:00:00")
       Sample.oauth_mgr calendar_tools "u1" "primary" 10 inputs 0 NoResponse
       (mk_tool_world (Sample.world_of Sample.token_db) [])).2
  = [ ApiGet "https://www.googleapis.com/calendar/v3/calendars/primary/events"
        [ ("maxResults", PInt 10); ("orderBy", PStr "startTime");
          ("singleEvents", PStr "true");
          ("timeMin", PStr "2025-10-01T00:00:00Z") ]
        [("Authorization", "Bearer at-2")] ].
Proof.
  intros inputs.
  destruct (list_events_refreshes_expiring_token (fun _ => "timeout")
              (fun _ => "2025-10-01T00:00:00") Sample.oauth_mgr calendar_tools
              "u1" "primary" 10 inputs 0 NoResponse
              (mk_tool_world (Sample.world_of Sample.token_db) [])
              Sample.token_row) as [Hrefreshed _].
  - reflexivity.
  - vm_compute. discriminate.
  - discriminate.
  - rewrite (Hrefreshed 200 (mk_token_json (Some "at-2") None None) "at-2").
    + reflexivity.
    + reflexivity.
    + unfold is_success. lia.
    + reflexivity.
    + discriminate.
Defined.


End ToolSamples.

